(** * Pricing-intelligence engine (cloud-functions/main.py)

    A shallow embedding of the intent classifier, the competitor-tracking
    labeling rule, the insight synthesizer, the summary calculator and the
    HTTP request orchestrator of [main.py], with the properties the
    specification states about them, and further properties of the code:
    the label expressions of all four queries, the failure paths of the
    handler, and bounds and invariants of the synthesizer and the summary.

    Conventions.
    - A Python [str] is a Rocq [string] holding its UTF-8 bytes, so the
      literals below are the literals of the source.  UTF-8 is
      self-synchronising: a well-formed needle occurs in a well-formed
      haystack as a run of code points exactly when it occurs as a run of
      bytes, so [in] on [str] is the byte-level [py_in].
    - A Python call that can raise returns an [outcome]; code under
      [try]/[except] runs in the state-and-exception monad [exec], whose
      state survives a raise, as the lists a Python [try] block has
      mutated survive it.
    - What the interpreter and the warehouse client provide and the source
      file does not define (Unicode case tables, arithmetic on row values,
      the BigQuery job, the clock) is a class of operations the model is
      parameterised by; every theorem holds for all of them. *)

From Stdlib Require Import ZArith String Ascii List Bool Lia.
From Stdlib Require Import DecimalString DecimalNat.
From Corelib Require Import SpecFloat.
From stdpp Require Import base list gmap strings.

Local Open Scope string_scope.
Local Open Scope Z_scope.
Local Open Scope list_scope.

(** ** Python strings *)

Module PyStr.

(** [s.startswith(p)] *)
Fixpoint startswith (p s : string) : bool :=
  match p, s with
  | EmptyString, _ => true
  | String a p', String b s' => if Ascii.eqb a b then startswith p' s' else false
  | String _ _, EmptyString => false
  end.

(** [needle in hay] *)
Fixpoint py_in (needle hay : string) : bool :=
  startswith needle hay
  || match hay with
     | EmptyString => false
     | String _ hay' => py_in needle hay'
     end.

Definition is_ascii (c : ascii) : bool := (N_of_ascii c <? 128)%N.

Fixpoint all_ascii (s : string) : bool :=
  match s with
  | EmptyString => true
  | String c s' => is_ascii c && all_ascii s'
  end.

(** ASCII case folding of one character: 'A'..'Z' to 'a'..'z'. *)
Definition ascii_lower (c : ascii) : ascii :=
  let n := N_of_ascii c in
  if ((65 <=? n) && (n <=? 90))%N then ascii_of_N (n + 32) else c.

Fixpoint map_chars (f : ascii -> ascii) (s : string) : string :=
  match s with
  | EmptyString => EmptyString
  | String c s' => String (f c) (map_chars f s')
  end.

(** [s.split(sep)] for a one-character separator: never the empty list. *)
Fixpoint split (sep : ascii) (s : string) : list string :=
  match s with
  | EmptyString => [EmptyString]
  | String c s' =>
      if Ascii.eqb c sep then EmptyString :: split sep s'
      else match split sep s' with
           | h :: t => String c h :: t
           | [] => [String c EmptyString]
           end
  end.

(** [str(n)] for a count [n] (a [len(...)]). *)
Definition str_of_nat (n : nat) : string := NilEmpty.string_of_uint (Nat.to_uint n).

Definition is_digit (c : ascii) : bool :=
  let n := N_of_ascii c in ((48 <=? n) && (n <=? 57))%N.

Fixpoint all_digits (s : string) : bool :=
  match s with
  | EmptyString => true
  | String c s' => is_digit c && all_digits s'
  end.

End PyStr.
Export PyStr.

(** ** Exceptions and outcomes *)

(** The classes of [Exception] the modelled code can see.  Every one is a
    subclass of [Exception], which is what both [except Exception]
    clauses of the source catch. *)
Inductive exn : Type :=
| AttributeError
| KeyError
| OverflowError
| TypeError
| ValueError
| ZeroDivisionError
| OtherException (class_name : string).

(** [type(e).__name__] *)
Definition exn_name (e : exn) : string :=
  match e with
  | AttributeError => "AttributeError"
  | KeyError => "KeyError"
  | OverflowError => "OverflowError"
  | TypeError => "TypeError"
  | ValueError => "ValueError"
  | ZeroDivisionError => "ZeroDivisionError"
  | OtherException n => n
  end.

Inductive outcome (A : Type) : Type :=
| Return (a : A)
| Raise (e : exn).
Arguments Return {A} a.
Arguments Raise {A} e.

(** State-and-exception monad: the state reached is kept when a step raises. *)
Definition exec (S A : Type) : Type := S -> S * outcome A.

Definition ret {S A} (a : A) : exec S A := fun s => (s, Return a).

Definition bind {S A B} (m : exec S A) (k : A -> exec S B) : exec S B :=
  fun s => match m s with
           | (s', Return a) => k a s'
           | (s', Raise e) => (s', Raise e)
           end.

Definition lift {S A} (o : outcome A) : exec S A := fun s => (s, o).

Definition modify {S} (f : S -> S) : exec S unit := fun s => (f s, Return tt).

Definition get {S} : exec S S := fun s => (s, Return s).

Declare Scope exec_scope.
Delimit Scope exec_scope with exec.
Notation "'let!' x ':=' m 'in' k" := (bind m (fun x => k))
  (at level 10, x name, m at level 100, k at level 200) : exec_scope.
Notation "m ';;' k" := (bind m (fun _ => k))
  (at level 100, k at level 200, right associativity) : exec_scope.

(** [m] keeps [P] true of the state, whether it returns or raises. *)
Definition preserves {S A} (P : S -> Prop) (m : exec S A) : Prop :=
  forall s, P s -> P (m s).1.

(** [m] returns, in a state of which [Q] holds. *)
Definition finishes {S} (Q : S -> Prop) (m : exec S unit) : Prop :=
  forall s, exists s', m s = (s', Return tt) /\ Q s'.

(** [if c: body] with no [else]. *)
Definition when {S} (c : bool) (body : exec S unit) : exec S unit :=
  if c then body else ret tt.

(** Pure outcomes chain the same way. *)
Definition obind {A B} (o : outcome A) (k : A -> outcome B) : outcome B :=
  match o with
  | Return a => k a
  | Raise e => Raise e
  end.

(** A comprehension [[x for x in l if p(x)]] whose test can raise. *)
Fixpoint ofilter {A} (p : A -> outcome bool) (l : list A) : outcome (list A) :=
  match l with
  | [] => Return []
  | x :: l' =>
      obind (p x) (fun b =>
      obind (ofilter p l') (fun ys => Return (if b then x :: ys else ys)))
  end.

(** [len([x for x in l if test(x)])] *)
Fixpoint count_if {A} (test : A -> bool) (l : list A) : nat :=
  match l with
  | [] => O
  | x :: l' => if test x then S (count_if test l') else count_if test l'
  end.

(** ** Request values

    What [request.get_json] hands to the handler: the values [json.loads]
    builds.  A [float] is an IEEE binary64 number in the Standard
    Library's [spec_float]; a [dict] is a finite map. *)

#[local] Set Warnings "-register-all".
Inductive json : Type :=
| JNull
| JBool (b : bool)
| JInt (n : Z)
| JFloat (x : spec_float)
| JStr (s : string)
| JArr (items : list json)
| JObj (fields : gmap string json).
#[local] Set Warnings "register-all".

(** Truth value of an object ([bool(v)]). *)
Definition truthy (v : json) : bool :=
  match v with
  | JNull => false
  | JBool b => b
  | JInt n => negb (n =? 0)
  | JFloat (S754_zero _) => false
  | JFloat _ => true
  | JStr s => negb (String.eqb s "")
  | JArr items => negb (Nat.eqb (length items) 0)
  | JObj fields => negb (Nat.eqb (size fields) 0)
  end.

(** [a or b] *)
Definition py_or (a b : json) : json := if truthy a then a else b.

(** [obj.get(key, dflt)]: only a [dict] has the method. *)
Definition py_get (obj : json) (key : string) (dflt : json) : outcome json :=
  match obj with
  | JObj fields => Return (default dflt (fields !! key))
  | _ => Raise AttributeError
  end.

(** [query_type == "literal"] for a request value. *)
Definition eq_str (v : json) (lit : string) : bool :=
  match v with
  | JStr s => String.eqb s lit
  | _ => false
  end.

(** [isinstance(v, dict)], [isinstance(v, str)] and [isinstance(v, (list, dict))]. *)
Definition is_object (v : json) : bool :=
  match v with
  | JObj _ => true
  | _ => false
  end.

Definition is_text (v : json) : bool :=
  match v with
  | JStr _ => true
  | _ => false
  end.

Definition is_container (v : json) : bool :=
  match v with
  | JArr _ | JObj _ => true
  | _ => false
  end.

(** *** [int(...)] *)

(** C [isspace]: space, and TAB to CR. *)
Definition is_space (c : ascii) : bool :=
  let n := N_of_ascii c in ((n =? 32) || ((9 <=? n) && (n <=? 13)))%N.

Fixpoint lstrip (s : string) : string :=
  match s with
  | String c s' => if is_space c then lstrip s' else s
  | EmptyString => EmptyString
  end.

Definition digit_value (c : ascii) : option Z :=
  let n := N_of_ascii c in
  if ((48 <=? n) && (n <=? 57))%N then Some (Z.of_N n - 48) else None.

(** The digit loop of [PyLong_FromString]: digits, with single underscores
    between them.  Yields the value, the digit count and the unread rest. *)
Fixpoint scan_digits (s : string) (prev_underscore : bool) (acc : Z) (ndigits : nat)
  : outcome (Z * nat * string) :=
  match s with
  | String c s' =>
      if Ascii.eqb c "_" then
        if prev_underscore then Raise ValueError
        else scan_digits s' true acc ndigits
      else match digit_value c with
           | Some d => scan_digits s' false (10 * acc + d) (S ndigits)
           | None => if prev_underscore then Raise ValueError
                     else Return (acc, ndigits, s)
           end
  | EmptyString =>
      if prev_underscore then Raise ValueError else Return (acc, ndigits, s)
  end.

(** The threshold below which CPython skips the digit-limit check. *)
Definition str_digits_check_threshold : nat := 640.

(** ** Runtime parameters *)

Class PyRuntime : Type := {
  (** [str.lower] on a string with a code point outside ASCII (the Unicode
      case tables, with their context rules). *)
  unicode_lower : string -> string;
  (** [int(s)] on such a string (Unicode digits and spaces). *)
  unicode_int : string -> outcome Z;
  (** [sys.get_int_max_str_digits()]; 0 switches the limit off. *)
  int_max_str_digits : nat
}.

Section Runtime.
Context {runtime : PyRuntime}.

(** [int(s)] for an all-ASCII [str], base 10. *)
Definition int_of_ascii_str (s : string) : outcome Z :=
  let s1 := lstrip s in
  let '(negative, s2) :=
    match s1 with
    | String "+" r => (false, r)
    | String "-" r => (true, r)
    | _ => (false, s1)
    end in
  match s2 with
  | String "_" _ => Raise ValueError
  | _ =>
      obind (scan_digits s2 false 0 0) (fun '(v, ndigits, rest) =>
      if Nat.eqb ndigits 0 then Raise ValueError
      else if (str_digits_check_threshold <? ndigits)%nat
              && (0 <? int_max_str_digits)%nat
              && (int_max_str_digits <? ndigits)%nat then Raise ValueError
      else match lstrip rest with
           | EmptyString => Return (if negative then - v else v)
           | String _ _ => Raise ValueError
           end)
  end.

Definition int_of_str (s : string) : outcome Z :=
  if all_ascii s then int_of_ascii_str s else unicode_int s.

(** [int(x)] for a float: truncation towards zero. *)
Definition int_of_float (x : spec_float) : outcome Z :=
  match x with
  | S754_zero _ => Return 0
  | S754_infinity _ => Raise OverflowError
  | S754_nan => Raise ValueError
  | S754_finite negative m e =>
      let magnitude := Z.shiftl (Zpos m) e in
      Return (if negative then - magnitude else magnitude)
  end.

(** [int(v)] *)
Definition py_int (v : json) : outcome Z :=
  match v with
  | JNull => Raise TypeError
  | JBool b => Return (if b then 1 else 0)
  | JInt n => Return n
  | JFloat x => int_of_float x
  | JStr s => int_of_str s
  | JArr _ | JObj _ => Raise TypeError
  end.

(** [s.lower()]: CPython lowers an all-ASCII string byte by byte and
    consults the Unicode tables otherwise. *)
Definition str_lower (s : string) : string :=
  if all_ascii s then map_chars ascii_lower s else unicode_lower s.

(** [v.lower()]: only [str] has the method. *)
Definition py_lower (v : json) : outcome string :=
  match v with
  | JStr s => Return (str_lower s)
  | _ => Raise AttributeError
  end.

(** ** Intent classifier *)

Definition patterns : list (string * list string) :=
  [ ("competitor_tracking",
      [ "competitor|rakip|competition"; "price|fiyat|pricing"; "market|pazar";
        "positioning|konum"; "comparison|karşılaştırma"; "advantage|avantaj" ]);
    ("campaign_performance",
      [ "campaign|kampanya|promotion"; "roi|kar|return"; "marketing|pazarlama";
        "discount|indirim"; "performance|başarı"; "effectiveness|etkinlik" ]);
    ("price_elasticity",
      [ "elasticity|elastikiyet|optimization"; "optimal|optimum"; "demand|talep";
        "sensitivity|hassasiyet"; "revenue|gelir"; "margin|kar" ]);
    ("promotional_calendar",
      [ "calendar|takvim|schedule"; "planning|planlama"; "future|gelecek";
        "budget|bütçe"; "timeline|zaman"; "seasonal|mevsimsel" ]) ].

(** [any(word in q for word in pattern.split("|"))] *)
Definition pattern_hits (q pattern : string) : bool :=
  existsb (fun word => py_in word q) (split "|" pattern).

(** The two nested [for] loops with their early [return]: the first
    intent, in the order of [patterns.items()], one of whose patterns hits. *)
Fixpoint scan_patterns (q : string) (items : list (string * list string)) : option string :=
  match items with
  | [] => None
  | (intent, pattern_list) :: rest =>
      if existsb (pattern_hits q) pattern_list then Some intent
      else scan_patterns q rest
  end.

Definition detect_query_intent (question : json) : outcome string :=
  obind (py_lower (py_or question (JStr ""))) (fun q =>
  Return (default "competitor_tracking" (scan_patterns q patterns))).

End Runtime.

(** ** Threshold registry and the competitor-tracking labels

    The [CASE] expressions of [sql_competitor_tracking], evaluated by the
    warehouse on each row.  Columns are nullable; a comparison with NULL
    is NULL, and a [WHEN] arm is taken only when its condition is TRUE. *)

(** The FLOAT64 value of an integer literal. *)
Definition float_of_Z (z : Z) : spec_float := binary_normalize 53 1024 z 0 false.

Module SuvariPricingMetrics.
Definition ROI_EXCELLENT_THRESHOLD : spec_float := float_of_Z 500.
Definition ROI_GOOD_THRESHOLD : spec_float := float_of_Z 300.
Definition ELASTICITY_HIGH_THRESHOLD : spec_float := float_of_Z 2.
Definition ELASTICITY_LOW_THRESHOLD : spec_float := float_of_Z 1.
Definition PRICE_ADVANTAGE_THRESHOLD : spec_float := float_of_Z (-15).
Definition PRICE_DISADVANTAGE_THRESHOLD : spec_float := float_of_Z 10.
Definition MARKET_SHARE_POSITIVE_IMPACT : list string := ["Positive"; "Very Positive"].
Definition UPLIFT_EXCELLENT_THRESHOLD : spec_float := float_of_Z 40.
Definition UPLIFT_GOOD_THRESHOLD : spec_float := float_of_Z 30.
Definition DISCOUNT_HIGH_THRESHOLD : spec_float := float_of_Z 25.
End SuvariPricingMetrics.

Module Sql.

(** Three-valued truth: [None] is NULL. *)
Definition sql_bool : Type := option bool.

Definition sql_and (a b : sql_bool) : sql_bool :=
  match a, b with
  | Some false, _ | _, Some false => Some false
  | Some true, Some true => Some true
  | _, _ => None
  end.

Definition sql_or (a b : sql_bool) : sql_bool :=
  match a, b with
  | Some true, _ | _, Some true => Some true
  | Some false, Some false => Some false
  | _, _ => None
  end.

Definition sql_le (a b : option spec_float) : sql_bool :=
  match a, b with
  | Some x, Some y => Some (SFleb x y)
  | _, _ => None
  end.

Definition sql_ge (a b : option spec_float) : sql_bool := sql_le b a.

Definition sql_between (x lo hi : option spec_float) : sql_bool :=
  sql_and (sql_ge x lo) (sql_le x hi).

Definition sql_eq (a : option string) (lit : string) : sql_bool :=
  match a with
  | Some s => Some (String.eqb s lit)
  | None => None
  end.

(** [a IN (l1, ..., ln)] is [a = l1 OR ... OR a = ln]. *)
Fixpoint sql_in (a : option string) (lits : list string) : sql_bool :=
  match lits with
  | [] => Some false
  | [l] => sql_eq a l
  | l :: rest => sql_or (sql_eq a l) (sql_in a rest)
  end.

(** [CASE WHEN c1 THEN v1 ... ELSE v END]: the first arm whose condition is TRUE. *)
Fixpoint sql_case {A} (arms : list (sql_bool * A)) (otherwise : A) : A :=
  match arms with
  | [] => otherwise
  | (Some true, v) :: _ => v
  | _ :: rest => sql_case rest otherwise
  end.

(** The columns of [competitive_rankings] the label expressions read. *)
Record competitor_row : Type := {
  price_gap_pct : option spec_float;
  market_share_impact : option string;
  promotion_flag : option string;
  quality_comparison : option string;
  brand_positioning : option string
}.

Definition lit (z : Z) : option spec_float := Some (float_of_Z z).

Definition competitive_position (r : competitor_row) : string :=
  sql_case
    [ (sql_and (sql_le (price_gap_pct r) (lit (-30)))
               (sql_eq (market_share_impact r) "Very Positive"),
       "🏆 Dominant Market Position");
      (sql_and (sql_le (price_gap_pct r) (Some SuvariPricingMetrics.PRICE_ADVANTAGE_THRESHOLD))
               (sql_in (market_share_impact r) ["Positive"; "Very Positive"]),
       "💰 Strong Price Advantage");
      (sql_between (price_gap_pct r) (lit (-15)) (lit 15),
       "⚖️ Competitive Parity");
      (sql_ge (price_gap_pct r) (Some SuvariPricingMetrics.PRICE_DISADVANTAGE_THRESHOLD),
       "🔴 Price Disadvantage") ]
    "📊 Neutral Position".

Definition promotional_environment (r : competitor_row) : string :=
  sql_case
    [ (sql_and (sql_eq (promotion_flag r) "TRUE") (sql_ge (price_gap_pct r) (lit 0)),
       "⚠️ Competitor Promotional Pressure");
      (sql_eq (promotion_flag r) "TRUE", "🎯 Competitor Promo Activity") ]
    "📊 Standard Competitive Environment".

Definition value_proposition (r : competitor_row) : string :=
  sql_case
    [ (sql_and (sql_eq (quality_comparison r) "Superior") (sql_le (price_gap_pct r) (lit 0)),
       "💎 Premium Value Proposition");
      (sql_eq (quality_comparison r) "Superior", "⭐ Quality Advantage");
      (sql_eq (quality_comparison r) "Comparable", "✅ Quality Parity") ]
    "📈 Quality Improvement Opportunity".

Definition brand_position_strength (r : competitor_row) : string :=
  sql_case
    [ (sql_and (sql_eq (brand_positioning r) "Premium")
               (sql_eq (market_share_impact r) "Very Positive"),
       "🏆 Premium Brand Leader");
      (sql_eq (brand_positioning r) "Premium", "💎 Premium Positioning");
      (sql_eq (brand_positioning r) "Mid-tier", "📊 Mid-tier Positioning") ]
    "📈 Market Position Development".

(** *** The label expressions of the other three queries

    Their numeric columns are FLOAT64 too, and an integer literal they are
    compared with is coerced; [campaign_duration_days] is the INT64 of
    [DATE_DIFF].  In each final [SELECT] a name stands for the column of
    the ranking table, not for the rounded alias of the same name. *)

Definition sql_lt (a b : option spec_float) : sql_bool :=
  match a, b with
  | Some x, Some y => Some (SFltb x y)
  | _, _ => None
  end.

Definition sql_gt (a b : option spec_float) : sql_bool := sql_lt b a.

(** [ABS(x)] *)
Definition sql_abs (a : option spec_float) : option spec_float := option_map SFabs a.

(** [x * y] on FLOAT64 *)
Definition sql_mul (a b : option spec_float) : option spec_float :=
  match a, b with
  | Some x, Some y => Some (SFmul 53 1024 x y)
  | _, _ => None
  end.

(** [x >= n] on INT64 *)
Definition sql_ge_int (a : option Z) (n : Z) : sql_bool := option_map (Z.leb n) a.

(** The FLOAT64 literals [1.1] and [0.9]. *)
Definition lit_1_1 : option spec_float := Some (S754_finite false 4953959590107546 (-52)).
Definition lit_0_9 : option spec_float := Some (S754_finite false 8106479329266893 (-53)).

(** The columns of [campaign_rankings] the label expressions read. *)
Record campaign_row : Type := {
  roi_pct : option spec_float;
  discount_pct : option spec_float;
  repeat_purchase_rate : option spec_float;
  customer_acquisition : option spec_float;
  segment_cost_per_acquisition : option spec_float
}.

Definition campaign_performance_tier (r : campaign_row) : string :=
  sql_case
    [ (sql_ge (roi_pct r) (Some SuvariPricingMetrics.ROI_EXCELLENT_THRESHOLD),
       "🏆 Excellent Campaign ROI");
      (sql_ge (roi_pct r) (Some SuvariPricingMetrics.ROI_GOOD_THRESHOLD),
       "✅ Good Campaign Performance");
      (sql_ge (roi_pct r) (lit 200), "📊 Average Campaign Performance") ]
    "📉 Poor Campaign Performance".

Definition discount_efficiency (r : campaign_row) : string :=
  sql_case
    [ (sql_and (sql_ge (discount_pct r) (Some SuvariPricingMetrics.DISCOUNT_HIGH_THRESHOLD))
               (sql_ge (roi_pct r) (Some SuvariPricingMetrics.ROI_GOOD_THRESHOLD)),
       "💰 High Discount High Return");
      (sql_ge (discount_pct r) (Some SuvariPricingMetrics.DISCOUNT_HIGH_THRESHOLD),
       "🔴 High Discount Low Return");
      (sql_ge (roi_pct r) (Some SuvariPricingMetrics.ROI_GOOD_THRESHOLD),
       "💎 Efficient Campaign") ]
    "📊 Standard Campaign".

Definition retention_performance (r : campaign_row) : string :=
  sql_case
    [ (sql_ge (repeat_purchase_rate r) (lit 60), "🔁 Excellent Customer Retention");
      (sql_ge (repeat_purchase_rate r) (lit 40), "✅ Good Customer Retention");
      (sql_ge (repeat_purchase_rate r) (lit 25), "📊 Standard Customer Retention") ]
    "📈 Low Customer Retention".

Definition acquisition_effectiveness (r : campaign_row) : string :=
  sql_case
    [ (sql_and (sql_ge (customer_acquisition r) (lit 100))
               (sql_le (segment_cost_per_acquisition r) (lit 50)),
       "🎯 Efficient Customer Acquisition");
      (sql_ge (customer_acquisition r) (lit 50), "📈 Good Customer Acquisition");
      (sql_ge (customer_acquisition r) (lit 20), "📊 Standard Acquisition") ]
    "📉 Low Acquisition Campaign".

(** The columns of [price_rankings] the label expressions read. *)
Record elasticity_row : Type := {
  elasticity_coefficient : option spec_float;
  recommendation : option string;
  revenue_impact_pct : option spec_float;
  optimal_price_usd : option spec_float;
  price_point_usd : option spec_float
}.

Definition sensitivity_classification (r : elasticity_row) : string :=
  sql_case
    [ (sql_ge (elasticity_coefficient r) (Some SuvariPricingMetrics.ELASTICITY_HIGH_THRESHOLD),
       "🔴 Highly Price Sensitive");
      (sql_ge (elasticity_coefficient r) (Some SuvariPricingMetrics.ELASTICITY_LOW_THRESHOLD),
       "⚠️ Moderately Price Sensitive") ]
    "💎 Low Price Sensitivity".

Definition pricing_strategy (r : elasticity_row) : string :=
  sql_case
    [ (sql_and (sql_eq (recommendation r) "Increase Price")
               (sql_gt (revenue_impact_pct r) (lit 5)),
       "📈 Strong Price Increase Opportunity");
      (sql_eq (recommendation r) "Increase Price", "💰 Price Increase Opportunity");
      (sql_and (sql_eq (recommendation r) "Decrease Price")
               (sql_gt (revenue_impact_pct r) (lit 10)),
       "🎯 Strategic Price Decrease");
      (sql_eq (recommendation r) "Decrease Price", "📉 Price Reduction Recommended") ]
    "⚖️ Maintain Current Pricing".

Definition revenue_opportunity_level (r : elasticity_row) : string :=
  sql_case
    [ (sql_ge (sql_abs (revenue_impact_pct r)) (lit 15), "🚀 High Revenue Impact Potential");
      (sql_ge (sql_abs (revenue_impact_pct r)) (lit 10), "📈 Significant Revenue Impact");
      (sql_ge (sql_abs (revenue_impact_pct r)) (lit 5), "📊 Moderate Revenue Impact") ]
    "📉 Minimal Revenue Impact".

Definition price_optimization_status (r : elasticity_row) : string :=
  sql_case
    [ (sql_gt (optimal_price_usd r) (sql_mul (price_point_usd r) lit_1_1),
       "💰 Under-priced Product");
      (sql_lt (optimal_price_usd r) (sql_mul (price_point_usd r) lit_0_9),
       "💸 Over-priced Product") ]
    "✅ Optimally Priced".

(** The columns of [promo_rankings] the label expressions read. *)
Record promotion_row : Type := {
  expected_uplift_pct : option spec_float;
  budget_usd : option spec_float;
  competitive_response : option string;
  discount_type : option string;
  discount_value : option spec_float;
  campaign_duration_days : option Z
}.

Definition campaign_priority_tier (r : promotion_row) : string :=
  sql_case
    [ (sql_and (sql_ge (expected_uplift_pct r)
                       (Some SuvariPricingMetrics.UPLIFT_EXCELLENT_THRESHOLD))
               (sql_le (budget_usd r) (lit 20000)),
       "🚀 High Impact Low Cost");
      (sql_ge (expected_uplift_pct r) (Some SuvariPricingMetrics.UPLIFT_EXCELLENT_THRESHOLD),
       "⭐ High Impact Campaign");
      (sql_ge (expected_uplift_pct r) (Some SuvariPricingMetrics.UPLIFT_GOOD_THRESHOLD),
       "📈 Good Impact Campaign");
      (sql_ge (expected_uplift_pct r) (lit 20), "📊 Moderate Impact Campaign") ]
    "📉 Low Impact Campaign".

Definition competitive_intensity (r : promotion_row) : string :=
  sql_case
    [ (sql_and (sql_eq (competitive_response r) "High")
               (sql_ge (expected_uplift_pct r) (lit 35)),
       "⚔️ Competitive Battleground");
      (sql_eq (competitive_response r) "High", "⚠️ High Competitive Response Expected");
      (sql_eq (competitive_response r) "Medium", "📊 Moderate Competition") ]
    "✅ Low Competitive Pressure".

Definition discount_strategy (r : promotion_row) : string :=
  sql_case
    [ (sql_and (sql_eq (discount_type r) "Percentage") (sql_ge (discount_value r) (lit 30)),
       "💸 Deep Discount Strategy");
      (sql_and (sql_eq (discount_type r) "Fixed Amount") (sql_ge (discount_value r) (lit 200)),
       "💰 High Value Discount");
      (sql_ge (discount_value r) (lit 20), "📊 Standard Discount") ]
    "💎 Premium Pricing Strategy".

Definition budget_scale (r : promotion_row) : string :=
  sql_case
    [ (sql_ge (budget_usd r) (lit 50000), "💰 Major Campaign Investment");
      (sql_ge (budget_usd r) (lit 25000), "💸 Significant Campaign Budget");
      (sql_ge (budget_usd r) (lit 10000), "💵 Standard Campaign Budget") ]
    "💳 Limited Budget Campaign".

Definition duration_strategy (r : promotion_row) : string :=
  sql_case
    [ (sql_ge_int (campaign_duration_days r) 30, "📅 Extended Campaign Period");
      (sql_ge_int (campaign_duration_days r) 14, "🗓️ Standard Campaign Period");
      (sql_ge_int (campaign_duration_days r) 7, "⚡ Short Campaign Period") ]
    "🚀 Flash Campaign".

(** A row of one of the four result sets. *)
Inductive result_row : Type :=
| CompetitorRow (r : competitor_row)
| CampaignRow (r : campaign_row)
| ElasticityRow (r : elasticity_row)
| PromotionRow (r : promotion_row).

(** The label columns of a result row: [CASE ... END as name]. *)
Definition label_columns (r : result_row) : list (string * string) :=
  match r with
  | CompetitorRow r =>
      [ ("competitive_position", competitive_position r);
        ("promotional_environment", promotional_environment r);
        ("value_proposition", value_proposition r);
        ("brand_position_strength", brand_position_strength r) ]
  | CampaignRow r =>
      [ ("campaign_performance_tier", campaign_performance_tier r);
        ("discount_efficiency", discount_efficiency r);
        ("retention_performance", retention_performance r);
        ("acquisition_effectiveness", acquisition_effectiveness r) ]
  | ElasticityRow r =>
      [ ("sensitivity_classification", sensitivity_classification r);
        ("pricing_strategy", pricing_strategy r);
        ("revenue_opportunity_level", revenue_opportunity_level r);
        ("price_optimization_status", price_optimization_status r) ]
  | PromotionRow r =>
      [ ("campaign_priority_tier", campaign_priority_tier r);
        ("competitive_intensity", competitive_intensity r);
        ("discount_strategy", discount_strategy r);
        ("budget_scale", budget_scale r);
        ("duration_strategy", duration_strategy r) ]
  end.

(** A comparison with NULL, or with a NaN, is never TRUE. *)
Definition unknown (x : option spec_float) : Prop := x = None \/ x = Some S754_nan.

(** [expected_uplift_pct >= 40.0] is TRUE of the row. *)
Definition high_uplift (r : promotion_row) : bool :=
  match sql_ge (expected_uplift_pct r)
               (Some SuvariPricingMetrics.UPLIFT_EXCELLENT_THRESHOLD) with
  | Some true => true
  | _ => false
  end.

(** [budget_usd <= 20000] is TRUE of the row. *)
Definition low_cost (r : promotion_row) : bool :=
  match sql_le (budget_usd r) (lit 20000) with
  | Some true => true
  | _ => false
  end.

End Sql.

(** ** Query builders *)

(** The four query texts; what the claims need of a text is which one it is. *)
Inductive sql : Type :=
| CompetitorTrackingQuery
| CampaignPerformanceQuery
| PriceElasticityQuery
| PromotionalCalendarQuery.

(** [bigquery.ScalarQueryParameter(name, type_, value)] *)
Record query_param : Type := {
  param_name : string;
  param_type : string;
  param_value : option Z
}.

Inductive query_func : Type :=
| sql_competitor_tracking
| sql_campaign_performance
| sql_price_elasticity
| sql_promotional_calendar.

(** Calling a builder: its text and its one unfilled parameter. *)
Definition call_query_func (f : query_func) : sql * list query_param :=
  let params := [ {| param_name := "limit"; param_type := "INT64"; param_value := None |} ] in
  match f with
  | sql_competitor_tracking => (CompetitorTrackingQuery, params)
  | sql_campaign_performance => (CampaignPerformanceQuery, params)
  | sql_price_elasticity => (PriceElasticityQuery, params)
  | sql_promotional_calendar => (PromotionalCalendarQuery, params)
  end.

(** The entries of the [query_functions] display, in source order. *)
Definition query_function_items : list (string * query_func) :=
  [ ("competitor_tracking", sql_competitor_tracking);
    ("competitor_analysis", sql_competitor_tracking);
    ("campaign_performance", sql_campaign_performance);
    ("campaign_analysis", sql_campaign_performance);
    ("price_elasticity", sql_price_elasticity);
    ("price_optimization", sql_price_elasticity);
    ("promotional_calendar", sql_promotional_calendar);
    ("promotional_planning", sql_promotional_calendar) ].

Definition query_functions : gmap string query_func := list_to_map query_function_items.

(** The eight recognized [query_type] aliases. *)
Definition recognized_aliases : list string := query_function_items.*1.

(** [query_functions.get(query_type, sql_competitor_tracking)]: a [list] or
    [dict] key is unhashable; any other key that is no [str] equals no key. *)
Definition get_query_func (query_type : json) : outcome query_func :=
  match query_type with
  | JStr s => Return (default sql_competitor_tracking (query_functions !! s))
  | JArr _ | JObj _ => Raise TypeError
  | _ => Return sql_competitor_tracking
  end.

(** The parameter-filling loop. *)
Definition fill_params (params : list query_param) (limit : Z) : list query_param :=
  map (fun p =>
         if String.eqb (param_name p) "limit"
         then {| param_name := "limit"; param_type := "INT64"; param_value := Some limit |}
         else p)
      params.

(** ** Row values

    The cells of the rows the warehouse returns, and the built-in
    operations the synthesizer and the summary apply to them.  Each
    operation may raise, as its Python original may on a value of the
    wrong kind. *)

(** The format specifications the f-strings use: none, [.Nf] and [,.Nf]. *)
Inductive format_spec : Type :=
| FmtPlain
| FmtFixed (grouping : bool) (precision : nat).

Class PyValues : Type := {
  value : Type;
  v_none : value;
  v_int : Z -> value;
  v_str : string -> value;
  (** [v is None] *)
  py_is_none : value -> bool;
  (** [str(v)] *)
  py_str : value -> outcome string;
  (** [format(v, spec)], as an f-string field applies it *)
  py_format : value -> format_spec -> outcome string;
  (** [sum(vs)] *)
  py_sum : list value -> outcome value;
  (** [abs(v)] *)
  py_abs : value -> outcome value;
  (** [a - b], [a * b], [a / b] *)
  py_sub : value -> value -> outcome value;
  py_mul : value -> value -> outcome value;
  py_truediv : value -> value -> outcome value;
  (** [a < b], [a <= b], [a > b], [a == b] taken as a condition *)
  py_lt : value -> value -> outcome bool;
  py_le : value -> value -> outcome bool;
  py_gt : value -> value -> outcome bool;
  py_eq : value -> value -> outcome bool;
  (** [len(set(vs))] *)
  py_distinct : list value -> outcome nat
}.

Record analysis : Type := {
  insights : list string;
  recommendations : list string;
  alerts : list string
}.

Section Engine.
Context {runtime : PyRuntime} {values : PyValues}.

(** A row: [dict(r)] of a BigQuery [Row]. *)
Abbreviation row := (gmap string value).

(** [r.get(column, dflt)] *)
Definition row_get (r : row) (column : string) (dflt : value) : value :=
  default dflt (r !! column).

(** [r[column]] *)
Definition row_getitem (r : row) (column : string) : outcome value :=
  match r !! column with
  | Some v => Return v
  | None => Raise KeyError
  end.

(** [label in str(r.get(column, ''))]; [str('')] is [''] *)
Definition has_label (label column : string) (r : row) : outcome bool :=
  obind (match r !! column with
         | Some v => py_str v
         | None => Return ""
         end)
        (fun text => Return (py_in label text)).

(** [[r for r in rows if label in str(r.get(column, ''))]] *)
Definition rows_with (label column : string) (rows : list row) : outcome (list row) :=
  ofilter (has_label label column) rows.

(** [max(items, key=key)] *)
Fixpoint max_loop (key : row -> value) (items : list row) (maxitem : row) (maxval : value)
  : outcome row :=
  match items with
  | [] => Return maxitem
  | item :: rest =>
      obind (py_gt (key item) maxval) (fun bigger =>
      if bigger then max_loop key rest item (key item)
      else max_loop key rest maxitem maxval)
  end.

Definition py_max (key : row -> value) (items : list row) : outcome row :=
  match items with
  | [] => Raise ValueError
  | first :: rest => max_loop key rest first (key first)
  end.

(** An empty list is false. *)
Definition nonempty {A} (l : list A) : bool :=
  match l with
  | [] => false
  | _ :: _ => true
  end.

(** *** Insight synthesizer *)

Local Open Scope exec_scope.

Definition append_insight (s : string) : exec analysis unit :=
  modify (fun a => {| insights := insights a ++ [s];
                      recommendations := recommendations a;
                      alerts := alerts a |}).

Definition append_recommendation (s : string) : exec analysis unit :=
  modify (fun a => {| insights := insights a;
                      recommendations := recommendations a ++ [s];
                      alerts := alerts a |}).

Definition append_alert (s : string) : exec analysis unit :=
  modify (fun a => {| insights := insights a;
                      recommendations := recommendations a;
                      alerts := alerts a ++ [s] |}).

Definition analyze_competitor_tracking (rows : list row) : exec analysis unit :=
  let! strong_advantages :=
    lift (rows_with "💰 Strong Price Advantage" "competitive_position" rows) in
  let! price_disadvantages :=
    lift (rows_with "🔴 Price Disadvantage" "competitive_position" rows) in
  when (nonempty strong_advantages)
    (append_insight ("💰 " +:+ str_of_nat (length strong_advantages)
                     +:+ " kategoride güçlü fiyat avantajımız var")) ;;
  when (nonempty price_disadvantages)
    (append_alert ("🔴 " +:+ str_of_nat (length price_disadvantages)
                   +:+ " kategoride fiyat dezavantajımız bulunuyor") ;;
     append_recommendation "Fiyat dezavantajı olan kategorilerde strateji revizyonu yapın") ;;
  let! premium_positions :=
    lift (rows_with "💎 Premium Value Proposition" "value_proposition" rows) in
  when (nonempty premium_positions)
    (append_insight ("💎 " +:+ str_of_nat (length premium_positions)
                     +:+ " kategoride premium değer önerisi sunuyoruz")) ;;
  let! promo_pressure :=
    lift (rows_with "⚠️ Competitor Promotional Pressure" "promotional_environment" rows) in
  when (nonempty promo_pressure)
    (append_alert ("⚠️ " +:+ str_of_nat (length promo_pressure)
                   +:+ " kategoride rakip promosyon baskısı var") ;;
     append_recommendation "Rakip promosyonlarına karşı hızlı response stratejileri geliştirin") ;;
  let price_gaps :=
    omap (fun r => match r !! "price_gap_pct" with
                          | Some v => if py_is_none v then None else Some v
                          | None => None
                          end) rows in
  when (nonempty price_gaps)
    (let! total := lift (py_sum price_gaps) in
     let! avg_gap := lift (py_truediv total (v_int (Z.of_nat (length price_gaps)))) in
     let! below := lift (py_lt avg_gap (v_int (-10))) in
     if below then
       let! magnitude := lift (py_abs avg_gap) in
       let! text := lift (py_format magnitude (FmtFixed false 1)) in
       append_insight ("📊 Ortalama fiyat avantajımız: %" +:+ text +:+ " rakiplerden düşük")
     else
       let! above := lift (py_gt avg_gap (v_int 10)) in
       if above then
         let! text := lift (py_format avg_gap (FmtFixed false 1)) in
         append_insight ("📊 Ortalama fiyat dezavantajımız: %" +:+ text +:+ " rakiplerden yüksek")
       else
         let! text := lift (py_format avg_gap (FmtFixed false 1)) in
         append_insight ("⚖️ Rakiplerle ortalama fiyat paritesi: %" +:+ text)).

Definition analyze_campaign_performance (rows : list row) : exec analysis unit :=
  let! excellent_roi :=
    lift (rows_with "🏆 Excellent Campaign ROI" "campaign_performance_tier" rows) in
  let! poor_performance :=
    lift (rows_with "📉 Poor Campaign Performance" "campaign_performance_tier" rows) in
  when (nonempty excellent_roi)
    (let! top_campaign := lift (py_max (fun x => row_get x "roi_pct" (v_int 0)) excellent_roi) in
     let! name := lift (row_getitem top_campaign "campaign_name") in
     let! name_text := lift (py_format name FmtPlain) in
     let! roi := lift (row_getitem top_campaign "roi_pct") in
     let! roi_text := lift (py_format roi FmtPlain) in
     append_insight ("🏆 En başarılı kampanya: " +:+ name_text
                     +:+ " (ROI: %" +:+ roi_text +:+ ")")) ;;
  when (nonempty poor_performance)
    (append_alert ("📉 " +:+ str_of_nat (length poor_performance)
                   +:+ " kampanya düşük performans gösteriyor") ;;
     append_recommendation "Düşük ROI'li kampanya tiplerini analiz edin ve optimize edin") ;;
  let! efficient_acquisition :=
    lift (rows_with "🎯 Efficient Customer Acquisition" "acquisition_effectiveness" rows) in
  when (nonempty efficient_acquisition)
    (append_insight ("🎯 " +:+ str_of_nat (length efficient_acquisition)
                     +:+ " kampanya verimli müşteri kazanımı sağlıyor")) ;;
  let! excellent_retention :=
    lift (rows_with "🔁 Excellent Customer Retention" "retention_performance" rows) in
  when (nonempty excellent_retention)
    (append_insight ("🔁 " +:+ str_of_nat (length excellent_retention)
                     +:+ " kampanya mükemmel müşteri tutma oranı gösteriyor")) ;;
  let! total_revenue :=
    lift (py_sum (map (fun r => row_get r "revenue_generated" (v_int 0)) rows)) in
  let! total_cost :=
    lift (py_sum (map (fun r => row_get r "campaign_cost" (v_int 0)) rows)) in
  let! positive := lift (py_gt total_cost (v_int 0)) in
  when positive
    (let! ratio := lift (py_truediv total_revenue total_cost) in
     let! net := lift (py_sub ratio (v_int 1)) in
     let! overall_roi := lift (py_mul net (v_int 100)) in
     let! text := lift (py_format overall_roi (FmtFixed false 1)) in
     append_insight ("📊 Toplam kampanya ROI: %" +:+ text)).

Definition analyze_price_elasticity (rows : list row) : exec analysis unit :=
  let! price_increase_opps :=
    lift (rows_with "📈 Strong Price Increase Opportunity" "pricing_strategy" rows) in
  let! under_priced :=
    lift (rows_with "💰 Under-priced Product" "price_optimization_status" rows) in
  when (nonempty price_increase_opps)
    (append_insight ("📈 " +:+ str_of_nat (length price_increase_opps)
                     +:+ " kategoride güçlü fiyat artırım fırsatı") ;;
     append_recommendation "Fiyat artırım fırsatlarını değerlendirin ve pilot testler yapın") ;;
  when (nonempty under_priced)
    (append_insight ("💰 " +:+ str_of_nat (length under_priced)
                     +:+ " ürün kategori optimal fiyatın altında") ;;
     append_recommendation "Under-priced kategorilerde fiyat optimizasyonu yapın") ;;
  let! high_revenue_impact :=
    lift (rows_with "🚀 High Revenue Impact Potential" "revenue_opportunity_level" rows) in
  when (nonempty high_revenue_impact)
    (append_insight ("🚀 " +:+ str_of_nat (length high_revenue_impact)
                     +:+ " kategori yüksek gelir etkisi potansiyeli taşıyor") ;;
     append_recommendation "Yüksek etki potansiyelli kategorilerde A/B testleri başlatın") ;;
  let! low_sensitivity :=
    lift (rows_with "💎 Low Price Sensitivity" "sensitivity_classification" rows) in
  when (nonempty low_sensitivity)
    (append_insight ("💎 " +:+ str_of_nat (length low_sensitivity)
                     +:+ " kategori düşük fiyat hassasiyeti gösteriyor (premium fırsat)") ;;
     append_recommendation
       "Düşük hassasiyetli kategorilerde premium pricing stratejileri değerlendirin").

Definition analyze_promotional_calendar (rows : list row) : exec analysis unit :=
  let! high_impact_low_cost :=
    lift (rows_with "🚀 High Impact Low Cost" "campaign_priority_tier" rows) in
  let! high_impact :=
    lift (rows_with "⭐ High Impact Campaign" "campaign_priority_tier" rows) in
  when (nonempty high_impact_low_cost)
    (append_insight ("🚀 " +:+ str_of_nat (length high_impact_low_cost)
                     +:+ " kampanya yüksek etki düşük maliyet kategorisinde") ;;
     append_recommendation "High impact low cost kampanyaları öncelikle execute edin") ;;
  append_insight ("⭐ Toplam " +:+ str_of_nat (length (high_impact ++ high_impact_low_cost))
                  +:+ " yüksek etkili kampanya planlandı") ;;
  let! competitive_battlegrounds :=
    lift (rows_with "⚔️ Competitive Battleground" "competitive_intensity" rows) in
  when (nonempty competitive_battlegrounds)
    (append_alert ("⚔️ " +:+ str_of_nat (length competitive_battlegrounds)
                   +:+ " kampanya yoğun rekabetli ortamda") ;;
     append_recommendation
       "Yoğun rekabetli kampanyalar için diferansiyasyon stratejileri geliştirin") ;;
  let! total_budget :=
    lift (py_sum (map (fun r => row_get r "budget_usd" (v_int 0)) rows)) in
  let! major_investments :=
    lift (rows_with "💰 Major Campaign Investment" "budget_scale" rows) in
  let! budget_text := lift (py_format total_budget (FmtFixed true 0)) in
  append_insight ("💰 Toplam planlanan kampanya bütçesi: $" +:+ budget_text) ;;
  when (nonempty major_investments)
    (append_insight ("💰 " +:+ str_of_nat (length major_investments)
                     +:+ " major investment kampanyası planlandı")) ;;
  let! flash_campaigns :=
    lift (rows_with "🚀 Flash Campaign" "duration_strategy" rows) in
  let! extended_campaigns :=
    lift (rows_with "📅 Extended Campaign Period" "duration_strategy" rows) in
  when (nonempty flash_campaigns)
    (append_insight ("🚀 " +:+ str_of_nat (length flash_campaigns)
                     +:+ " flash kampanya planlandı")) ;;
  when (nonempty extended_campaigns)
    (append_insight ("📅 " +:+ str_of_nat (length extended_campaigns)
                     +:+ " uzun dönemli kampanya planlandı")).

(** The [if]/[elif] chain inside the [try]. *)
Definition analyze_rows (rows : list row) (query_type : json) : exec analysis unit :=
  if eq_str query_type "competitor_tracking" then analyze_competitor_tracking rows
  else if eq_str query_type "campaign_performance" then analyze_campaign_performance rows
  else if eq_str query_type "price_elasticity" then analyze_price_elasticity rows
  else if eq_str query_type "promotional_calendar" then analyze_promotional_calendar rows
  else ret tt.

(** [try: body except Exception as e: logger.error(...)]: every class of
    [exn] is an [Exception]; the handler logs and falls through. *)
Definition try_except_log {S} (body : exec S unit) : exec S unit :=
  fun s => match body s with
           | (s', Return _) => (s', Return tt)
           | (s', Raise _) => (s', Return tt)
           end.

Definition no_data_analysis : analysis :=
  {| insights := ["Belirtilen kriterlere uygun pricing verisi bulunamadı"];
     recommendations := ["Tarih aralığını veya kriterleri genişletin"];
     alerts := [] |}.

Definition empty_analysis : analysis :=
  {| insights := []; recommendations := []; alerts := [] |}.

(** The three slices of the final [return]. *)
Definition truncate (a : analysis) : analysis :=
  {| insights := take 10 (insights a);
     recommendations := take 5 (recommendations a);
     alerts := take 5 (alerts a) |}.

(** The lists as the [try] statement leaves them, and how its body ended. *)
Definition run_analysis (rows : list row) (query_type : json) : analysis * outcome unit :=
  analyze_rows rows query_type empty_analysis.

Definition analyze_pricing_results (rows : list row) (query_type : json) : outcome analysis :=
  if negb (nonempty rows) then Return no_data_analysis
  else
    snd ((try_except_log (analyze_rows rows query_type) ;;
          let! a := get in
          ret (truncate a)) empty_analysis).

(** *** Summary calculator *)

Inductive summary_value : Type :=
| SumCount (n : nat)
| SumQueryType (q : json)
| SumText (s : string)
| SumValue (v : value).

(** [sum(r.get(column, 0) for r in rows) / len(rows) if rows else 0] *)
Definition mean_of (column : string) (rows : list row) : outcome value :=
  if nonempty rows then
    obind (py_sum (map (fun r => row_get r column (v_int 0)) rows)) (fun total =>
    py_truediv total (v_int (Z.of_nat (length rows))))
  else Return (v_int 0).

(** [len(set(r.get(column) for r in rows))] *)
Definition unique_count (column : string) (rows : list row) : outcome nat :=
  py_distinct (map (fun r => row_get r column v_none) rows).

(** The [dict] display passed to [summary.update], entry by entry. *)
Definition summary_fields (rows : list row) (query_type : json)
  : outcome (list (string * summary_value)) :=
  if eq_str query_type "competitor_tracking" then
    obind (unique_count "competitor" rows) (fun unique_competitors =>
    obind (unique_count "market" rows) (fun unique_markets =>
    obind (mean_of "price_gap_pct" rows) (fun avg_price_gap =>
    obind (ofilter (fun r => py_le (row_get r "price_gap_pct" (v_int 0)) (v_int (-15))) rows)
          (fun advantages =>
    Return [ ("unique_competitors", SumCount unique_competitors);
             ("unique_markets", SumCount unique_markets);
             ("avg_price_gap", SumValue avg_price_gap);
             ("competitive_advantages", SumCount (length advantages)) ]))))
  else if eq_str query_type "campaign_performance" then
    obind (unique_count "campaign_name" rows) (fun unique_campaigns =>
    obind (py_sum (map (fun r => row_get r "revenue_generated" (v_int 0)) rows))
          (fun total_revenue =>
    obind (py_sum (map (fun r => row_get r "campaign_cost" (v_int 0)) rows)) (fun total_cost =>
    obind (mean_of "roi_pct" rows) (fun avg_roi =>
    Return [ ("unique_campaigns", SumCount unique_campaigns);
             ("total_revenue", SumValue total_revenue);
             ("total_cost", SumValue total_cost);
             ("avg_roi", SumValue avg_roi) ]))))
  else if eq_str query_type "price_elasticity" then
    obind (unique_count "market" rows) (fun unique_markets =>
    obind (mean_of "elasticity_coefficient" rows) (fun avg_elasticity =>
    obind (ofilter (fun r => py_eq (row_get r "recommendation" v_none) (v_str "Increase Price"))
                   rows) (fun increases =>
    Return [ ("price_points_analyzed", SumCount (length rows));
             ("unique_markets", SumCount unique_markets);
             ("avg_elasticity", SumValue avg_elasticity);
             ("price_increase_opportunities", SumCount (length increases)) ])))
  else if eq_str query_type "promotional_calendar" then
    obind (py_sum (map (fun r => row_get r "budget_usd" (v_int 0)) rows)) (fun total_budget =>
    obind (mean_of "expected_uplift_pct" rows) (fun avg_expected_uplift =>
    obind (unique_count "target_market" rows) (fun unique_markets =>
    Return [ ("planned_campaigns", SumCount (length rows));
             ("total_budget", SumValue total_budget);
             ("avg_expected_uplift", SumValue avg_expected_uplift);
             ("unique_markets", SumCount unique_markets) ])))
  else Return [].

(** [summary.update(fields)] *)
Definition dict_update {A} (d : gmap string A) (fields : list (string * A)) : gmap string A :=
  foldl (fun m kv => <[ kv.1 := kv.2 ]> m) d fields.

Definition update_summary (rows : list row) (query_type : json)
  : exec (gmap string summary_value) unit :=
  let! fields := lift (summary_fields rows query_type) in
  modify (fun summary => dict_update summary fields).

(** [now] is [datetime.utcnow().isoformat()]. *)
Definition calculate_pricing_summary (now : string) (rows : list row) (query_type : json)
  : outcome (gmap string summary_value) :=
  if negb (nonempty rows) then Return {[ "total_records" := SumCount 0 ]}
  else
    let summary : gmap string summary_value :=
      list_to_map [ ("total_records", SumCount (length rows));
                    ("query_type", SumQueryType query_type);
                    ("timestamp", SumText now) ] in
    snd ((try_except_log (update_summary rows query_type) ;; get) summary).

(** The summary as it stands before the [try]. *)
Definition base_summary (now : string) (rows : list row) (query_type : json)
  : gmap string summary_value :=
  list_to_map [ ("total_records", SumCount (length rows));
                ("query_type", SumQueryType query_type);
                ("timestamp", SumText now) ].

End Engine.

(** ** Request orchestrator *)

(** The warehouse client: [bigquery.Client], the job configuration (byte
    ceiling and labels), [client.query] and [job.result()], with the rows
    as [dict]s.  Any step of it may raise. *)
Class Warehouse {values : PyValues} : Type := {
  (** [total_bytes_processed], [total_bytes_billed], [cache_hit] of the job *)
  job_stats : Type;
  run_query : sql -> list query_param -> Z -> list (string * json)
              -> outcome (list (gmap string value) * job_stats)
}.

(** What the handler has decided when it turns to the warehouse. *)
Record query_plan : Type := {
  plan_query_type : json;
  plan_limit : Z;
  plan_query_func : query_func;
  plan_sql : sql;
  plan_params : list query_param
}.

(** [error] stands for [str(e)]; [error_type] is [type(e).__name__]. *)
Record failure_body : Type := {
  error : exn;
  error_type : string;
  failed_query_type : json
}.

Section Planning.
Context {runtime : PyRuntime}.

(** [body.get("query_type") or detect_query_intent(question)] *)
Definition resolve_query_type (body question : json) : outcome json :=
  obind (py_get body "query_type" JNull) (fun given =>
  if truthy given then Return given
  else obind (detect_query_intent question) (fun intent => Return (JStr intent))).

(** The [question] field as the interface types it: absent, null or a string. *)
Definition question_is_text (question : option json) : Prop :=
  match question with
  | None | Some JNull | Some (JStr _) => True
  | Some _ => False
  end.

(** [min(int(body.get("limit", 100)), 500)] *)
Definition effective_limit (body : json) : outcome Z :=
  obind (py_get body "limit" (JInt 100)) (fun requested =>
  obind (py_int requested) (fun n => Return (Z.min n 500))).

Local Open Scope exec_scope.

(** The handler's [try] body down to the filled parameters.  The state is
    the local variable [query_type]: unbound ([None]) until its
    assignment has completed. *)
Definition plan_query (request_json : json) : exec (option json) query_plan :=
  let body := py_or request_json (JObj ∅) in
  let! question := lift (py_get body "question" (JStr "")) in
  let! query_type := lift (resolve_query_type body question) in
  modify (fun _ => Some query_type) ;;
  let! limit := lift (effective_limit body) in
  let! query_func := lift (get_query_func query_type) in
  let '(sql, params) := call_query_func query_func in
  let filled_params := fill_params params limit in
  ret {| plan_query_type := query_type;
         plan_limit := limit;
         plan_query_func := query_func;
         plan_sql := sql;
         plan_params := filled_params |}.

(** The first two assignments of the [try] body on their own: what
    [query_type] is bound to, or the exception that leaves it unbound. *)
Definition assign_query_type (request_json : json) : outcome json :=
  let body := py_or request_json (JObj ∅) in
  obind (py_get body "question" (JStr "")) (resolve_query_type body).

(** The [except Exception] clause of the handler. *)
Definition failure_envelope (locals : option json) (e : exn) : failure_body :=
  {| error := e;
     error_type := exn_name e;
     failed_query_type := default (JStr "unknown") locals |}.

End Planning.

Section Orchestrator.
Context {runtime : PyRuntime} {values : PyValues} {warehouse : Warehouse}.

Abbreviation row := (gmap string value).

Record success_body : Type := {
  ok_query_type : json;
  ok_limit : Z;
  ok_summary : gmap string summary_value;
  ok_insights : list string;
  ok_recommendations : list string;
  ok_alerts : list string;
  ok_row_count : nat;
  ok_rows : list row;
  ok_metadata : job_stats
}.

(** The JSON body with its status code: 200 with [success: true], or 500
    with [success: false]. *)
Inductive http_response : Type :=
| Http200 (body : success_body)
| Http500 (body : failure_body).

Definition status_code (r : http_response) : Z :=
  match r with
  | Http200 _ => 200
  | Http500 _ => 500
  end.

Definition success (r : http_response) : bool :=
  match r with
  | Http200 _ => true
  | Http500 _ => false
  end.

Definition maximum_bytes_billed : Z := 5 * 1024 * 1024 * 1024.

Local Open Scope exec_scope.

(** The whole [try] body: plan, run the job, analyse, build the response. *)
Definition handle (now : string) (request_json : json) : exec (option json) success_body :=
  let! plan := plan_query request_json in
  let query_type := plan_query_type plan in
  let! job := lift (run_query (plan_sql plan) (plan_params plan) maximum_bytes_billed
                              [ ("agent", JStr "pricing_intel"); ("query_type", query_type) ]) in
  let rows := job.1 in
  let! analysis := lift (analyze_pricing_results rows query_type) in
  let! summary := lift (calculate_pricing_summary now rows query_type) in
  ret {| ok_query_type := query_type;
         ok_limit := plan_limit plan;
         ok_summary := summary;
         ok_insights := insights analysis;
         ok_recommendations := recommendations analysis;
         ok_alerts := alerts analysis;
         ok_row_count := length rows;
         ok_rows := rows;
         ok_metadata := job.2 |}.

(** [request_json] is [request.get_json(silent=True)], with [JNull] for
    [None]; [now] is the clock reading the summary takes.  The response is
    kept as a record: [json.dumps] with [default=str] serialises whatever
    the rows hold, so the final statement of the [try] does not raise. *)
Definition pricing_intel_query (now : string) (request_json : json) : http_response :=
  match handle now request_json None with
  | (_, Return response) => Http200 response
  | (locals, Raise e) => Http500 (failure_envelope locals e)
  end.

End Orchestrator.

(** ** The classifier as the specification words it

    The four categories in their fixed priority order, and what it means
    for a question to match one. *)

Inductive Category : Type :=
| CompetitorTracking
| CampaignPerformance
| PriceElasticity
| PromotionalCalendar.

Definition category_key (c : Category) : string :=
  match c with
  | CompetitorTracking => "competitor_tracking"
  | CampaignPerformance => "campaign_performance"
  | PriceElasticity => "price_elasticity"
  | PromotionalCalendar => "promotional_calendar"
  end.

Definition priority_order : list Category :=
  [CompetitorTracking; CampaignPerformance; PriceElasticity; PromotionalCalendar].

Definition default_category : Category := CompetitorTracking.

(** The question contains the term. *)
Definition contains (q term : string) : Prop :=
  exists before after, q = before +:+ term +:+ after.

(** A keyword group matches if the question contains any one of its
    alternative terms. *)
Definition group_matches (q group : string) : Prop :=
  exists term, In term (split "|" group) /\ contains q term.

(** A category matches if any of its keyword groups matches. *)
Definition category_matches (q : string) (groups : list string) : Prop :=
  exists group, In group groups /\ group_matches q group.

(** [intent] is the first entry of [table] that matches [q], or the
    default when none does. *)
Definition first_match (q : string) (table : list (string * list string)) (intent : string)
  : Prop :=
  (exists earlier groups later,
      table = earlier ++ (intent, groups) :: later
      /\ category_matches q groups
      /\ Forall (fun entry => ~ category_matches q entry.2) earlier)
  \/ (Forall (fun entry => ~ category_matches q entry.2) table
      /\ intent = category_key default_category).

(** ** The label-based rules of the synthesizer

    Each rule filters the rows on one label of one column and, under an
    [if] on the filtered list, appends a message that carries the count
    (and, for some, a recommendation).  The constructors bear the names of
    the source's lists.  Two appends of the source stand outside this
    table: the top-campaign insight of [excellent_roi], which is guarded
    but shows a name instead of a count, and the total of high-impact
    campaigns, which is appended under no [if]. *)

Inductive label_rule : Type :=
| strong_advantages
| price_disadvantages
| premium_positions
| promo_pressure
| poor_performance
| efficient_acquisition
| excellent_retention
| price_increase_opps
| under_priced
| high_revenue_impact
| low_sensitivity
| high_impact_low_cost
| competitive_battlegrounds
| major_investments
| flash_campaigns
| extended_campaigns.

Definition rule_category (r : label_rule) : Category :=
  match r with
  | strong_advantages | price_disadvantages | premium_positions | promo_pressure =>
      CompetitorTracking
  | poor_performance | efficient_acquisition | excellent_retention =>
      CampaignPerformance
  | price_increase_opps | under_priced | high_revenue_impact | low_sensitivity =>
      PriceElasticity
  | high_impact_low_cost | competitive_battlegrounds | major_investments
  | flash_campaigns | extended_campaigns =>
      PromotionalCalendar
  end.

Definition rule_label (r : label_rule) : string :=
  match r with
  | strong_advantages => "💰 Strong Price Advantage"
  | price_disadvantages => "🔴 Price Disadvantage"
  | premium_positions => "💎 Premium Value Proposition"
  | promo_pressure => "⚠️ Competitor Promotional Pressure"
  | poor_performance => "📉 Poor Campaign Performance"
  | efficient_acquisition => "🎯 Efficient Customer Acquisition"
  | excellent_retention => "🔁 Excellent Customer Retention"
  | price_increase_opps => "📈 Strong Price Increase Opportunity"
  | under_priced => "💰 Under-priced Product"
  | high_revenue_impact => "🚀 High Revenue Impact Potential"
  | low_sensitivity => "💎 Low Price Sensitivity"
  | high_impact_low_cost => "🚀 High Impact Low Cost"
  | competitive_battlegrounds => "⚔️ Competitive Battleground"
  | major_investments => "💰 Major Campaign Investment"
  | flash_campaigns => "🚀 Flash Campaign"
  | extended_campaigns => "📅 Extended Campaign Period"
  end.

Definition rule_column (r : label_rule) : string :=
  match r with
  | strong_advantages | price_disadvantages => "competitive_position"
  | premium_positions => "value_proposition"
  | promo_pressure => "promotional_environment"
  | poor_performance => "campaign_performance_tier"
  | efficient_acquisition => "acquisition_effectiveness"
  | excellent_retention => "retention_performance"
  | price_increase_opps => "pricing_strategy"
  | under_priced => "price_optimization_status"
  | high_revenue_impact => "revenue_opportunity_level"
  | low_sensitivity => "sensitivity_classification"
  | high_impact_low_cost => "campaign_priority_tier"
  | competitive_battlegrounds => "competitive_intensity"
  | major_investments => "budget_scale"
  | flash_campaigns | extended_campaigns => "duration_strategy"
  end.

(** The emoji that opens the rule's message, and the text after the count. *)
Definition rule_prefix (r : label_rule) : string :=
  match r with
  | strong_advantages | under_priced | major_investments => "💰 "
  | price_disadvantages => "🔴 "
  | premium_positions | low_sensitivity => "💎 "
  | promo_pressure => "⚠️ "
  | poor_performance => "📉 "
  | efficient_acquisition => "🎯 "
  | excellent_retention => "🔁 "
  | price_increase_opps => "📈 "
  | high_revenue_impact | high_impact_low_cost | flash_campaigns => "🚀 "
  | competitive_battlegrounds => "⚔️ "
  | extended_campaigns => "📅 "
  end.

Definition rule_suffix (r : label_rule) : string :=
  match r with
  | strong_advantages => " kategoride güçlü fiyat avantajımız var"
  | price_disadvantages => " kategoride fiyat dezavantajımız bulunuyor"
  | premium_positions => " kategoride premium değer önerisi sunuyoruz"
  | promo_pressure => " kategoride rakip promosyon baskısı var"
  | poor_performance => " kampanya düşük performans gösteriyor"
  | efficient_acquisition => " kampanya verimli müşteri kazanımı sağlıyor"
  | excellent_retention => " kampanya mükemmel müşteri tutma oranı gösteriyor"
  | price_increase_opps => " kategoride güçlü fiyat artırım fırsatı"
  | under_priced => " ürün kategori optimal fiyatın altında"
  | high_revenue_impact => " kategori yüksek gelir etkisi potansiyeli taşıyor"
  | low_sensitivity => " kategori düşük fiyat hassasiyeti gösteriyor (premium fırsat)"
  | high_impact_low_cost => " kampanya yüksek etki düşük maliyet kategorisinde"
  | competitive_battlegrounds => " kampanya yoğun rekabetli ortamda"
  | major_investments => " major investment kampanyası planlandı"
  | flash_campaigns => " flash kampanya planlandı"
  | extended_campaigns => " uzun dönemli kampanya planlandı"
  end.

(** The message of rule [r] for a count of [n]. *)
Definition rule_message (r : label_rule) (n : nat) : string :=
  rule_prefix r +:+ str_of_nat n +:+ rule_suffix r.

(** The recommendation appended with the message, for the rules that have one. *)
Definition rule_recommendation (r : label_rule) : option string :=
  match r with
  | price_disadvantages =>
      Some "Fiyat dezavantajı olan kategorilerde strateji revizyonu yapın"
  | promo_pressure =>
      Some "Rakip promosyonlarına karşı hızlı response stratejileri geliştirin"
  | poor_performance =>
      Some "Düşük ROI'li kampanya tiplerini analiz edin ve optimize edin"
  | price_increase_opps =>
      Some "Fiyat artırım fırsatlarını değerlendirin ve pilot testler yapın"
  | under_priced =>
      Some "Under-priced kategorilerde fiyat optimizasyonu yapın"
  | high_revenue_impact =>
      Some "Yüksek etki potansiyelli kategorilerde A/B testleri başlatın"
  | low_sensitivity =>
      Some "Düşük hassasiyetli kategorilerde premium pricing stratejileri değerlendirin"
  | high_impact_low_cost =>
      Some "High impact low cost kampanyaları öncelikle execute edin"
  | competitive_battlegrounds =>
      Some "Yoğun rekabetli kampanyalar için diferansiyasyon stratejileri geliştirin"
  | strong_advantages | premium_positions | efficient_acquisition | excellent_retention
  | major_investments | flash_campaigns | extended_campaigns => None
  end.

(** How the top-campaign insight begins. *)
Definition top_campaign_prefix : string := "🏆 En başarılı kampanya: ".

(** The insight appended on every promotional-calendar run that gets to it. *)
Definition high_impact_total_message (n : nat) : string :=
  "⭐ Toplam " +:+ str_of_nat n +:+ " yüksek etkili kampanya planlandı".

(** One of the three average-gap insights. *)
Definition average_gap_insight (s : string) : Prop :=
  exists text,
    s = "📊 Ortalama fiyat avantajımız: %" +:+ text +:+ " rakiplerden düşük"
    \/ s = "📊 Ortalama fiyat dezavantajımız: %" +:+ text +:+ " rakiplerden yüksek"
    \/ s = "⚖️ Rakiplerle ortalama fiyat paritesi: %" +:+ text.

Section RuleSoundness.
Context {values : PyValues}.

(** The rows rule [r] counts. *)
Definition rule_rows (r : label_rule) (rows : list (gmap string value))
  : outcome (list (gmap string value)) :=
  rows_with (rule_label r) (rule_column r) rows.

(** A message is backed by the rows: if it is the message of a rule, its
    count is the number of rows with the rule's label, and is not zero;
    if it is a top-campaign insight, some row has the excellent-ROI label. *)
Definition backed_message (rows : list (gmap string value)) (s : string) : Prop :=
  (forall r n, s = rule_message r n ->
     exists matching, rule_rows r rows = Return matching
                      /\ length matching = n /\ n <> O)
  /\ (startswith top_campaign_prefix s = true ->
      exists matching,
        rows_with "🏆 Excellent Campaign ROI" "campaign_performance_tier" rows
        = Return matching
        /\ matching <> []).

Definition backed_recommendation (rows : list (gmap string value)) (s : string) : Prop :=
  forall r, rule_recommendation r = Some s ->
    exists matching, rule_rows r rows = Return matching /\ matching <> [].

(** The invariant of the synthesizer's three lists.  The total of
    high-impact campaigns is exempt: it is no rule's message. *)
Definition backed (rows : list (gmap string value)) (a : analysis) : Prop :=
  Forall (backed_message rows) (insights a)
  /\ Forall (backed_message rows) (alerts a)
  /\ Forall (backed_recommendation rows) (recommendations a).

End RuleSoundness.

(** [a] holds the lists of [a0] with, possibly, more appended at their ends. *)
Definition grows_from (a0 a : analysis) : Prop :=
  insights a0 `prefix_of` insights a
  /\ recommendations a0 `prefix_of` recommendations a
  /\ alerts a0 `prefix_of` alerts a.

(** The label filters of the synthesizer, as (label, column), in source
    order: the sixteen of the rules, the excellent-ROI one of the
    top-campaign insight and the high-impact one of the total. *)
Definition label_filters : list (string * string) :=
  [ ("💰 Strong Price Advantage", "competitive_position");
    ("🔴 Price Disadvantage", "competitive_position");
    ("💎 Premium Value Proposition", "value_proposition");
    ("⚠️ Competitor Promotional Pressure", "promotional_environment");
    ("🏆 Excellent Campaign ROI", "campaign_performance_tier");
    ("📉 Poor Campaign Performance", "campaign_performance_tier");
    ("🎯 Efficient Customer Acquisition", "acquisition_effectiveness");
    ("🔁 Excellent Customer Retention", "retention_performance");
    ("📈 Strong Price Increase Opportunity", "pricing_strategy");
    ("💰 Under-priced Product", "price_optimization_status");
    ("🚀 High Revenue Impact Potential", "revenue_opportunity_level");
    ("💎 Low Price Sensitivity", "sensitivity_classification");
    ("🚀 High Impact Low Cost", "campaign_priority_tier");
    ("⭐ High Impact Campaign", "campaign_priority_tier");
    ("⚔️ Competitive Battleground", "competitive_intensity");
    ("💰 Major Campaign Investment", "budget_scale");
    ("🚀 Flash Campaign", "duration_strategy");
    ("📅 Extended Campaign Period", "duration_strategy") ].

Section LabelledRows.
Context {values : PyValues}.

(** [str] of a text cell is the text. *)
Definition text_cells_print_themselves : Prop :=
  forall s : string, py_str (v_str s) = Return s.

(** The row holds, in [column], the label the warehouse computed for [r]. *)
Definition labelled {A} (column : string) (label_of : A -> string)
    (row : gmap string value) (r : A) : Prop :=
  row !! column = Some (v_str (label_of r)).

End LabelledRows.

(** What a statement adds to the three lists, at most. *)
Definition adds_at_most {A} (i r a : nat) (m : exec analysis A) : Prop :=
  forall s,
    (length (insights (m s).1) <= length (insights s) + i)%nat
    /\ (length (recommendations (m s).1) <= length (recommendations s) + r)%nat
    /\ (length (alerts (m s).1) <= length (alerts s) + a)%nat.

(** There are at least as many recommendations as alerts. *)
Definition advised (a : analysis) : Prop :=
  (length (alerts a) <= length (recommendations a))%nat.

(** ** A reference interpretation

    CPython 3.11 on the cells a BigQuery row holds in these tables (None,
    bool, int, float, str), an in-memory warehouse, and a runtime whose
    Unicode tables stay closed.  The theorems do not depend on it; it
    lets the model run on concrete requests and rows. *)

Module Reference.

Inductive cell : Type :=
| CNone
| CBool (b : bool)
| CInt (n : Z)
| CFloat (x : spec_float)
| CStr (s : string).

(** *** Numbers *)

Inductive number : Type :=
| NInt (n : Z)
| NFloat (x : spec_float).

(** A [bool] is an [int]. *)
Definition number_of (c : cell) : option number :=
  match c with
  | CBool b => Some (NInt (if b then 1 else 0))
  | CInt n => Some (NInt n)
  | CFloat x => Some (NFloat x)
  | CNone | CStr _ => None
  end.

(** [float(n)]: nearest, ties to even; too large an [int] is an error. *)
Definition float_of_int (n : Z) : outcome spec_float :=
  match binary_normalize 53 1024 n 0 false with
  | S754_infinity _ => Raise OverflowError
  | x => Return x
  end.

Definition to_float (a : number) : outcome spec_float :=
  match a with
  | NInt n => float_of_int n
  | NFloat x => Return x
  end.

Definition arith (on_int : Z -> Z -> Z) (on_float : spec_float -> spec_float -> spec_float)
  (a b : cell) : outcome cell :=
  match number_of a, number_of b with
  | Some (NInt x), Some (NInt y) => Return (CInt (on_int x y))
  | Some x, Some y =>
      obind (to_float x) (fun fx =>
      obind (to_float y) (fun fy => Return (CFloat (on_float fx fy))))
  | _, _ => Raise TypeError
  end.

Fixpoint repeat_string (s : string) (n : nat) : string :=
  match n with
  | O => EmptyString
  | S n' => s +:+ repeat_string s n'
  end.

(** [s * n]: the count has to fit [Py_ssize_t] (storage is not bounded here). *)
Definition repeat_str (s : string) (count : Z) : outcome cell :=
  if (count <? - 2 ^ 63) || (2 ^ 63 - 1 <? count) then Raise OverflowError
  else Return (CStr (repeat_string s (Z.to_nat count))).

Definition add (a b : cell) : outcome cell :=
  match a, b with
  | CStr s, CStr t => Return (CStr (s +:+ t))
  | _, _ => arith Z.add (SFadd 53 1024) a b
  end.

Definition sub : cell -> cell -> outcome cell := arith Z.sub (SFsub 53 1024).

Definition mul (a b : cell) : outcome cell :=
  match a, number_of b, number_of a, b with
  | CStr s, Some (NInt n), _, _ => repeat_str s n
  | _, _, Some (NInt n), CStr s => repeat_str s n
  | _, _, _, _ => arith Z.mul (SFmul 53 1024) a b
  end.

(** [sum(vs)]: [0 + v1 + v2 + ...], left to right. *)
Fixpoint sum_from (acc : cell) (vs : list cell) : outcome cell :=
  match vs with
  | [] => Return acc
  | v :: rest => obind (add acc v) (fun acc' => sum_from acc' rest)
  end.

(** [x / y] on two [int]s: the correctly rounded quotient. *)
Definition int_truediv (x y : Z) : outcome cell :=
  let negate := xorb (x <? 0) (y <? 0) in
  if x =? 0 then Return (CFloat (S754_zero negate))
  else
    let a := Z.abs x in
    let b := Z.abs y in
    let shift := Z.max 0 (56 + Z.log2 b - Z.log2 a) in
    let q := (a * 2 ^ shift) / b in
    let sticky := if (a * 2 ^ shift) mod b =? 0 then 0 else 1 in
    let m := 2 * q + sticky in
    match binary_normalize 53 1024 (if negate then - m else m) (- shift - 1) negate with
    | S754_infinity _ => Raise OverflowError
    | r => Return (CFloat r)
    end.

Definition is_zero (x : spec_float) : bool :=
  match x with
  | S754_zero _ => true
  | _ => false
  end.

Definition truediv (a b : cell) : outcome cell :=
  match number_of a, number_of b with
  | Some (NInt x), Some (NInt y) =>
      if y =? 0 then Raise ZeroDivisionError else int_truediv x y
  | Some x, Some y =>
      obind (to_float x) (fun fx =>
      obind (to_float y) (fun fy =>
      if is_zero fy then Raise ZeroDivisionError
      else Return (CFloat (SFdiv 53 1024 fx fy))))
  | _, _ => Raise TypeError
  end.

Definition absolute (a : cell) : outcome cell :=
  match number_of a with
  | Some (NInt x) => Return (CInt (Z.abs x))
  | Some (NFloat x) => Return (CFloat (SFabs x))
  | None => Raise TypeError
  end.

(** An [int] against a [float], exactly. *)
Definition compare_int_float (z : Z) (x : spec_float) : option comparison :=
  match x with
  | S754_nan => None
  | S754_infinity negative => Some (if negative then Gt else Lt)
  | S754_zero _ => Some (z ?= 0)
  | S754_finite negative m e =>
      let v := if negative then Zneg m else Zpos m in
      if 0 <=? e then Some (z ?= v * 2 ^ e) else Some (z * 2 ^ (- e) ?= v)
  end.

Definition compare_numbers (a b : number) : option comparison :=
  match a, b with
  | NInt x, NInt y => Some (x ?= y)
  | NFloat x, NFloat y => SFcompare x y
  | NInt x, NFloat y => compare_int_float x y
  | NFloat x, NInt y => option_map CompOpp (compare_int_float y x)
  end.

(** [<], [<=], [>]: numbers with numbers, [str] with [str] (byte order is
    code-point order), anything else is a [TypeError]. *)
Definition ordered (test : comparison -> bool) (a b : cell) : outcome bool :=
  match number_of a, number_of b with
  | Some x, Some y =>
      Return (match compare_numbers x y with
              | Some c => test c
              | None => false
              end)
  | _, _ =>
      match a, b with
      | CStr s, CStr t => Return (test (String.compare s t))
      | _, _ => Raise TypeError
      end
  end.

Definition is_lt (c : comparison) : bool := match c with Lt => true | _ => false end.
Definition is_le (c : comparison) : bool := match c with Gt => false | _ => true end.
Definition is_gt (c : comparison) : bool := match c with Gt => true | _ => false end.

(** [a == b] *)
Definition equal (a b : cell) : bool :=
  match number_of a, number_of b with
  | Some x, Some y =>
      match compare_numbers x y with
      | Some Eq => true
      | _ => false
      end
  | _, _ =>
      match a, b with
      | CStr s, CStr t => String.eqb s t
      | CNone, CNone => true
      | _, _ => false
      end
  end.

(** [len(set(vs))], every cell its own object: a NaN equals nothing. *)
Fixpoint distinct (seen vs : list cell) : nat :=
  match vs with
  | [] => length seen
  | v :: rest =>
      if existsb (equal v) seen then distinct seen rest
      else distinct (v :: seen) rest
  end.

(** *** Text *)

Definition str_of_Z (z : Z) : string := NilZero.string_of_int (Z.to_int z).

Fixpoint repeat_char (c : ascii) (n : nat) : string :=
  match n with
  | O => EmptyString
  | S n' => String c (repeat_char c n')
  end.

Definition strlen (s : string) : Z := Z.of_nat (String.length s).

(** [str(n)] under the default digit limit. *)
Definition str_of_int (n : Z) : outcome string :=
  if 4300 <? strlen (str_of_Z (Z.abs n)) then Raise ValueError
  else Return (str_of_Z n).

(** Order of [a * 2^ea] against [d * 10^k]. *)
Definition compare_bin_dec (a ea d k : Z) : comparison :=
  (a * 2 ^ Z.max ea 0 * 10 ^ Z.max (- k) 0) ?= (d * 10 ^ Z.max k 0 * 2 ^ Z.max (- ea) 0).

(** [m * 2^e / 10^k] as a fraction of integers. *)
Definition scaled (m e k : Z) : Z * Z :=
  (m * 2 ^ Z.max e 0 * 10 ^ Z.max (- k) 0, 2 ^ Z.max (- e) 0 * 10 ^ Z.max k 0).

Definition round_half_even (num den : Z) : Z :=
  let q := num / den in
  match 2 * (num mod den) ?= den with
  | Lt => q
  | Gt => q + 1
  | Eq => if Z.even q then q else q + 1
  end.

(** Thousands separators of [,]. *)
Fixpoint group_thousands (digits : list ascii) (n : nat) : string :=
  match digits with
  | [] => EmptyString
  | c :: rest =>
      let tail := group_thousands rest (Nat.pred n) in
      if Nat.eqb (Nat.modulo (Nat.pred n) 3) 0 && negb (Nat.eqb n 1)
      then String c (String "," tail)
      else String c tail
  end.

(** [format(x, ".pf")] and [format(x, ",.pf")] *)
Definition format_fixed (grouping : bool) (p : nat) (x : spec_float) : string :=
  let body (negative : bool) (scaled_value : Z) : string :=
    let digits := str_of_Z scaled_value in
    let padded := repeat_char "0" (S p - String.length digits) +:+ digits in
    let split_at := (String.length padded - p)%nat in
    let whole := String.substring 0 split_at padded in
    let fraction := String.substring split_at p padded in
    let whole' := if grouping
                  then group_thousands (list_ascii_of_string whole) (String.length whole)
                  else whole in
    (if negative then "-" else "") +:+ whole'
    +:+ (if Nat.eqb p 0 then "" else "." +:+ fraction) in
  match x with
  | S754_nan => "nan"
  | S754_infinity negative => if negative then "-inf" else "inf"
  | S754_zero negative => body negative 0
  | S754_finite negative m e =>
      let '(num, den) := scaled (Zpos m) e (- Z.of_nat p) in
      body negative (round_half_even num den)
  end.

(** [floor(log10(m * 2^e))] *)
Definition log10_floor (m e : Z) : Z :=
  let up j := match compare_bin_dec m e 1 (j + 1) with Lt => j | _ => j + 1 end in
  let down j := match compare_bin_dec m e 1 j with Lt => j - 1 | _ => j end in
  down (down (up (up (((Z.log2 m + e) * 30103) / 100000)))).

(** The [n]-digit decimal nearest [m * 2^e] that rounds back to it, if any:
    its digits as an integer and its power of ten. *)
Definition candidate (m e : Z) (e10 n : Z) : option (Z * Z) :=
  let low := if (m =? 2 ^ 52) && (-1074 <? e) then 4 * m - 1 else 4 * m - 2 in
  let high := 4 * m + 2 in
  let inclusive := Z.even m in
  let k := e10 - n + 1 in
  let '(num, den) := scaled m e k in
  let lo := num / den in
  let hi := lo + 1 in
  let inside d :=
    match compare_bin_dec low (e - 2) d k, compare_bin_dec high (e - 2) d k with
    | Lt, Gt => true
    | Eq, Gt | Lt, Eq => inclusive
    | _, _ => false
    end in
  match inside lo, inside hi with
  | true, true =>
      match compare_bin_dec (2 * m) e (2 * lo + 1) k with
      | Lt => Some (lo, k)
      | Gt => Some (hi, k)
      | Eq => Some (if Z.even lo then lo else hi, k)
      end
  | true, false => Some (lo, k)
  | false, true => Some (hi, k)
  | false, false => None
  end.

Fixpoint shortest (fuel : nat) (m e e10 n : Z) : Z * Z :=
  match fuel with
  | O => let '(num, den) := scaled m e (e10 - 16) in (round_half_even num den, e10 - 16)
  | S fuel' =>
      match candidate m e e10 n with
      | Some r => r
      | None => shortest fuel' m e e10 (n + 1)
      end
  end.

Fixpoint strip_zeros_rev (digits : list ascii) : list ascii :=
  match digits with
  | "0"%char :: rest => strip_zeros_rev rest
  | _ => digits
  end.

Definition strip_trailing_zeros (s : string) : string :=
  string_of_list_ascii (rev (strip_zeros_rev (rev (list_ascii_of_string s)))).

(** [repr(x)]: the shortest digits that round back to [x]. *)
Definition repr_float (x : spec_float) : string :=
  match x with
  | S754_nan => "nan"
  | S754_infinity negative => if negative then "-inf" else "inf"
  | S754_zero negative => if negative then "-0.0" else "0.0"
  | S754_finite negative m e =>
      let e10 := log10_floor (Zpos m) e in
      let '(d, k) := shortest 17 (Zpos m) e e10 1 in
      let all_digits := str_of_Z d in
      let decpt := k + strlen all_digits in
      let digits := strip_trailing_zeros all_digits in
      let n := strlen digits in
      let sign := if negative then "-" else "" in
      if (-4 <? decpt) && (decpt <=? 16) then
        if decpt <=? 0 then
          sign +:+ "0." +:+ repeat_char "0" (Z.to_nat (- decpt)) +:+ digits
        else if n <=? decpt then
          sign +:+ digits +:+ repeat_char "0" (Z.to_nat (decpt - n)) +:+ ".0"
        else
          sign +:+ String.substring 0 (Z.to_nat decpt) digits +:+ "."
          +:+ String.substring (Z.to_nat decpt) (Z.to_nat (n - decpt)) digits
      else
        let exponent := decpt - 1 in
        let exp_digits := str_of_Z (Z.abs exponent) in
        sign +:+ String.substring 0 1 digits
        +:+ (if 1 <? n then "." +:+ String.substring 1 (Z.to_nat (n - 1)) digits else "")
        +:+ "e" +:+ (if exponent <? 0 then "-" else "+")
        +:+ repeat_char "0" (2 - String.length exp_digits) +:+ exp_digits
  end.

Definition str_of_cell (c : cell) : outcome string :=
  match c with
  | CNone => Return "None"
  | CBool b => Return (if b then "True" else "False")
  | CInt n => str_of_int n
  | CFloat x => Return (repr_float x)
  | CStr s => Return s
  end.

Definition format_cell (c : cell) (spec : format_spec) : outcome string :=
  match spec with
  | FmtPlain => str_of_cell c
  | FmtFixed grouping p =>
      match c with
      | CNone => Raise TypeError
      | CStr _ => Raise ValueError
      | _ =>
          match number_of c with
          | Some a => obind (to_float a) (fun x => Return (format_fixed grouping p x))
          | None => Raise TypeError
          end
      end
  end.

#[export] Instance cells : PyValues := {|
  value := cell;
  v_none := CNone;
  v_int := CInt;
  v_str := CStr;
  py_is_none := fun c => match c with CNone => true | _ => false end;
  py_str := str_of_cell;
  py_format := format_cell;
  py_sum := sum_from (CInt 0);
  py_abs := absolute;
  py_sub := sub;
  py_mul := mul;
  py_truediv := truediv;
  py_lt := ordered is_lt;
  py_le := ordered is_le;
  py_gt := ordered is_gt;
  py_eq := fun a b => Return (equal a b);
  py_distinct := fun vs => Return (distinct [] vs)
|}.

(** The Unicode tables are not modelled: this runtime is for requests in
    ASCII, on which they are never consulted. *)
#[export] Instance ascii_runtime : PyRuntime := {|
  unicode_lower := fun s => s;
  unicode_int := fun _ => Raise ValueError;
  int_max_str_digits := 4300
|}.

(** *** Rows of the expected types *)

Definition is_float (c : cell) : bool :=
  match c with
  | CFloat _ => true
  | _ => false
  end.

(** The column holds a FLOAT64, not NULL. *)
Definition float_column (column : string) (r : gmap string (@value cells)) : Prop :=
  match r !! column with
  | Some (CFloat _) => True
  | _ => False
  end.

(** The column holds text or NULL, or is absent. *)
Definition text_or_null (column : string) (r : gmap string (@value cells)) : Prop :=
  match r !! column with
  | None | Some CNone | Some (CStr _) => True
  | Some _ => False
  end.

(** The column is there, with text or NULL. *)
Definition text_column (column : string) (r : gmap string (@value cells)) : Prop :=
  match r !! column with
  | Some CNone | Some (CStr _) => True
  | _ => False
  end.

(** Rows as the four queries return them, as far as the synthesizer reads
    them: the labels are text, the measures FLOAT64. *)
Definition competitor_shaped (r : gmap string (@value cells)) : Prop :=
  text_or_null "competitive_position" r
  /\ text_or_null "value_proposition" r
  /\ text_or_null "promotional_environment" r
  /\ match r !! "price_gap_pct" with
     | None | Some CNone | Some (CFloat _) => True
     | Some _ => False
     end.

Definition campaign_shaped (r : gmap string (@value cells)) : Prop :=
  text_or_null "campaign_performance_tier" r
  /\ text_or_null "acquisition_effectiveness" r
  /\ text_or_null "retention_performance" r
  /\ text_column "campaign_name" r
  /\ float_column "roi_pct" r
  /\ float_column "revenue_generated" r
  /\ float_column "campaign_cost" r.

Definition elasticity_shaped (r : gmap string (@value cells)) : Prop :=
  text_or_null "pricing_strategy" r
  /\ text_or_null "price_optimization_status" r
  /\ text_or_null "revenue_opportunity_level" r
  /\ text_or_null "sensitivity_classification" r.

Definition promotion_shaped (r : gmap string (@value cells)) : Prop :=
  text_or_null "campaign_priority_tier" r
  /\ text_or_null "competitive_intensity" r
  /\ text_or_null "budget_scale" r
  /\ text_or_null "duration_strategy" r
  /\ float_column "budget_usd" r.

Definition shaped (c : Category) : gmap string (@value cells) -> Prop :=
  match c with
  | CompetitorTracking => competitor_shaped
  | CampaignPerformance => campaign_shaped
  | PriceElasticity => elasticity_shaped
  | PromotionalCalendar => promotion_shaped
  end.

(** The measures the summary of a category sums or averages. *)
Definition summary_measures (c : Category) : list string :=
  match c with
  | CompetitorTracking => ["price_gap_pct"]
  | CampaignPerformance => ["revenue_generated"; "campaign_cost"; "roi_pct"]
  | PriceElasticity => ["elasticity_coefficient"]
  | PromotionalCalendar => ["budget_usd"; "expected_uplift_pct"]
  end.

(** An in-memory warehouse: one table per query, cut at [@limit], which
    has to be a non-negative INT64. *)
Definition limit_of (params : list query_param) : option Z :=
  match filter (fun p => String.eqb (param_name p) "limit") params with
  | p :: _ => param_value p
  | [] => None
  end.

Definition table_warehouse (table : sql -> list (gmap string cell)) : Warehouse := {|
  job_stats := unit;
  run_query := fun query params _ _ =>
    match limit_of params with
    | Some n => if n <? 0 then Raise (OtherException "BadRequest")
                else Return (take (Z.to_nat n) (table query), tt)
    | None => Raise (OtherException "BadRequest")
    end
|}.

(** *** Sample rows *)

Definition advantage_row : gmap string cell :=
  list_to_map [ ("competitor", CStr "Zara"); ("market", CStr "Turkey");
                ("price_gap_pct", CFloat (float_of_Z (-20)));
                ("competitive_position", CStr "💰 Strong Price Advantage");
                ("promotional_environment", CStr "📊 Standard Competitive Environment");
                ("value_proposition", CStr "💎 Premium Value Proposition") ].

Definition disadvantage_row : gmap string cell :=
  list_to_map [ ("competitor", CStr "Mango"); ("market", CStr "Germany");
                ("price_gap_pct", CFloat (float_of_Z 12));
                ("competitive_position", CStr "🔴 Price Disadvantage");
                ("promotional_environment", CStr "⚠️ Competitor Promotional Pressure");
                ("value_proposition", CStr "✅ Quality Parity") ].

(** A row whose price gap is text. *)
Definition malformed_row : gmap string cell :=
  list_to_map [ ("competitor", CStr "LC Waikiki"); ("price_gap_pct", CStr "n/a") ].

(** A planned campaign of the third priority tier. *)
Definition planned_campaign : gmap string cell :=
  list_to_map [ ("campaign_name", CStr "Winter Suits"); ("target_market", CStr "Turkey");
                ("expected_uplift_pct", CFloat (float_of_Z 32));
                ("budget_usd", CFloat (float_of_Z 15000));
                ("campaign_priority_tier", CStr "📈 Good Impact Campaign");
                ("competitive_intensity", CStr "✅ Low Competitive Pressure");
                ("budget_scale", CStr "💵 Standard Campaign Budget");
                ("duration_strategy", CStr "🗓️ Standard Campaign Period") ].

(** A row whose price gap is NULL. *)
Definition unpriced_row : gmap string cell :=
  list_to_map [ ("competitor", CStr "Koton"); ("market", CStr "Turkey");
                ("price_gap_pct", CNone);
                ("competitive_position", CStr "📊 Neutral Position") ].

(** A planned campaign of the second priority tier. *)
Definition costly_campaign : gmap string cell :=
  list_to_map [ ("campaign_name", CStr "New Year Gala"); ("target_market", CStr "Germany");
                ("expected_uplift_pct", CFloat (float_of_Z 45));
                ("budget_usd", CFloat (float_of_Z 30000));
                ("campaign_priority_tier", CStr "⭐ High Impact Campaign") ].

(** Two campaigns, one of them of the first performance tier. *)
Definition winter_sale : gmap string cell :=
  list_to_map [ ("campaign_name", CStr "Winter Sale");
                ("roi_pct", CFloat (float_of_Z 520));
                ("revenue_generated", CFloat (float_of_Z 62000));
                ("campaign_cost", CFloat (float_of_Z 10000));
                ("campaign_performance_tier", CStr "🏆 Excellent Campaign ROI");
                ("acquisition_effectiveness", CStr "📈 Good Customer Acquisition");
                ("retention_performance", CStr "✅ Good Customer Retention") ].

Definition spring_sale : gmap string cell :=
  list_to_map [ ("campaign_name", CStr "Spring Sale");
                ("roi_pct", CFloat (float_of_Z 150));
                ("revenue_generated", CFloat (float_of_Z 25000));
                ("campaign_cost", CFloat (float_of_Z 10000));
                ("campaign_performance_tier", CStr "📉 Poor Campaign Performance");
                ("acquisition_effectiveness", CStr "📉 Low Acquisition Campaign");
                ("retention_performance", CStr "📈 Low Customer Retention") ].

Definition sample_tables (query : sql) : list (gmap string cell) :=
  match query with
  | CompetitorTrackingQuery => [advantage_row; disadvantage_row; malformed_row]
  | PromotionalCalendarQuery => [planned_campaign]
  | CampaignPerformanceQuery | PriceElasticityQuery => []
  end.

Definition sample_warehouse : Warehouse := table_warehouse sample_tables.

Definition sample_now : string := "2024-12-15T09:00:00".

End Reference.

(** * Properties *)

(** ** Strings *)

Section StringFacts.

Lemma startswith_spec (p s : string) :
  startswith p s = true <-> exists rest, s = p +:+ rest.
Proof.
  revert s; induction p as [|a p IH]; intros s; simpl.
  - split; [intros _; now exists s | reflexivity].
  - destruct s as [|b s].
    + split; [discriminate | intros [rest Hrest]; discriminate].
    + destruct (Ascii.eqb_spec a b) as [->|Hne].
      * rewrite IH. split; intros [rest Hrest]; exists rest.
        -- now rewrite Hrest.
        -- now injection Hrest.
      * split; [discriminate | intros [rest Hrest]; injection Hrest; congruence].
Qed.

Lemma py_in_spec (needle hay : string) :
  py_in needle hay = true <-> contains hay needle.
Proof.
  unfold contains. induction hay as [|c hay IH].
  - simpl. rewrite orb_false_r, startswith_spec. split.
    + intros [rest Hrest]. now exists EmptyString, rest.
    + intros ([|b before] & after & Heq); [now exists after | discriminate].
  - cbn [py_in]. rewrite orb_true_iff, startswith_spec, IH. split.
    + intros [[rest Hrest] | (before & after & Heq)].
      * now exists EmptyString, rest.
      * exists (String c before), after. simpl. now rewrite Heq.
    + intros ([|b before] & after & Heq).
      * left. now exists after.
      * right. injection Heq as _ Heq. now exists before, after.
Qed.

Lemma append_cancel_l (p a b : string) : p +:+ a = p +:+ b -> a = b.
Proof. induction p as [|c p IH]; simpl; [auto | intros [= Heq]; auto]. Qed.

Lemma string_of_uint_digits (d : Decimal.uint) :
  all_digits (NilEmpty.string_of_uint d) = true.
Proof. induction d; simpl; auto. Qed.

Lemma str_of_nat_digits (n : nat) : all_digits (str_of_nat n) = true.
Proof. apply string_of_uint_digits. Qed.

Lemma str_of_nat_inj (m n : nat) : str_of_nat m = str_of_nat n -> m = n.
Proof.
  unfold str_of_nat. intros Heq.
  apply DecimalNat.Unsigned.to_uint_inj.
  apply (f_equal NilEmpty.uint_of_string) in Heq.
  rewrite !NilEmpty.usu in Heq. congruence.
Qed.

(** Digits end where the first space stands. *)
Lemma digits_then_space (a b x y : string) :
  all_digits a = true -> all_digits b = true ->
  a +:+ String " " x = b +:+ String " " y -> a = b /\ x = y.
Proof.
  revert b. induction a as [|c a IH]; intros [|c' b]; simpl.
  - intros _ _ [= ->]. auto.
  - intros _ Hb [= <- _]. discriminate.
  - intros Ha _ [= -> _]. discriminate.
  - intros [_ Ha]%andb_prop [_ Hb]%andb_prop [= -> Heq].
    destruct (IH b Ha Hb Heq) as [-> ->]. auto.
Qed.

(** A count followed by a space begins with a digit or, were the count
    empty, with that space. *)
Lemma digits_then_space_head (a x y : string) (c : ascii) :
  all_digits a = true ->
  a +:+ String " " x = String c y -> is_digit c = true \/ c = " "%char.
Proof.
  destruct a as [|c' a]; simpl.
  - intros _ [= <- _]. now right.
  - intros [Hc _]%andb_prop [= <- _]. now left.
Qed.

End StringFacts.

(** ** Intent classifier *)

Section ClassifierFacts.
Context {runtime : PyRuntime}.

Lemma pattern_hits_spec (q pattern : string) :
  pattern_hits q pattern = true <-> group_matches q pattern.
Proof.
  unfold pattern_hits, group_matches. rewrite existsb_exists.
  split; intros (term & Hin & Hterm); exists term; split; auto;
    now apply py_in_spec.
Qed.

Lemma category_hits_spec (q : string) (groups : list string) :
  existsb (pattern_hits q) groups = true <-> category_matches q groups.
Proof.
  unfold category_matches. rewrite existsb_exists.
  split; intros (group & Hin & Hgroup); exists group; split; auto;
    now apply pattern_hits_spec.
Qed.

Lemma scan_patterns_first_match (q : string) (table : list (string * list string))
    (intent : string) :
  default (category_key default_category) (scan_patterns q table) = intent ->
  first_match q table intent.
Proof.
  revert intent. induction table as [|[name groups] table IH]; simpl; intros intent Hscan.
  - right. split; [constructor | now symmetry].
  - destruct (existsb (pattern_hits q) groups) eqn:Hhit.
    + simpl in Hscan. subst name.
      left. exists [], groups, table. repeat split; auto.
      now apply category_hits_spec.
    + assert (Hmiss : ~ category_matches q groups).
      { rewrite <- category_hits_spec, Hhit. discriminate. }
      destruct (IH intent Hscan)
        as [(earlier & groups' & later & Htable & Hmatch & Hearlier) | [Hnone Hdefault]].
      * left. exists ((name, groups) :: earlier), groups', later.
        split; [now rewrite Htable|]. split; [assumption|]. now constructor.
      * right. split; [now constructor | assumption].
Qed.

Lemma scan_patterns_key (q : string) :
  exists c, In c priority_order
            /\ default "competitor_tracking" (scan_patterns q patterns) = category_key c.
Proof.
  unfold patterns, priority_order. simpl.
  repeat match goal with
         | |- context [if ?b then _ else _] => destruct b
         end; simpl; eauto 10.
Qed.

Lemma detect_query_intent_text (s : string) :
  detect_query_intent (JStr s)
  = Return (default "competitor_tracking" (scan_patterns (str_lower s) patterns)).
Proof.
  unfold detect_query_intent, py_or. simpl.
  destruct s as [|c s]; reflexivity.
Qed.

Lemma patterns_follow_priority_order :
  map fst patterns = map category_key priority_order.
Proof. reflexivity. Qed.

(** C4.  The classifier returns a category for the empty string, for an
    absent question and for every string: the default CompetitorTracking
    for the first two, and in general the first category of the fixed
    priority order one of whose keyword groups has a term contained in
    the lower-cased question, or the default when no category matches. *)
Theorem C4_classifier_total_first_match :
  detect_query_intent (JStr "") = Return (category_key default_category)
  /\ detect_query_intent JNull = Return (category_key default_category)
  /\ map fst patterns = map category_key priority_order
  /\ forall s : string,
       exists intent,
         detect_query_intent (JStr s) = Return intent
         /\ first_match (str_lower s) patterns intent.
Proof.
  split; [reflexivity|]. split; [reflexivity|]. split; [reflexivity|].
  intros s. eexists. split.
  - apply detect_query_intent_text.
  - now apply scan_patterns_first_match.
Qed.

End ClassifierFacts.

(** ** Request planning *)

Section PlanningFacts.
Context {runtime : PyRuntime}.

Lemma truthy_dict_with_key (fields : gmap string json) (key : string) (v : json) :
  fields !! key = Some v -> truthy (JObj fields) = true.
Proof.
  intros Hkey. simpl. destruct (size fields) eqn:Hsize; [|reflexivity].
  apply map_size_empty_inv in Hsize. subst fields.
  now rewrite lookup_empty in Hkey.
Qed.

(** [request.get_json(silent=True) or {}] leaves a [dict] as it is. *)
Lemma body_of_dict (fields : gmap string json) :
  py_or (JObj fields) (JObj ∅) = JObj fields.
Proof.
  unfold py_or. simpl. destruct (size fields) eqn:Hsize; [|reflexivity].
  apply map_size_empty_inv in Hsize. now subst fields.
Qed.

(** The plan of a [dict] request, statement by statement. *)
Lemma plan_query_dict (fields : gmap string json) :
  plan_query (JObj fields) None =
  match resolve_query_type (JObj fields) (default (JStr "") (fields !! "question")) with
  | Raise e => (None, Raise e)
  | Return query_type =>
      match effective_limit (JObj fields) with
      | Raise e => (Some query_type, Raise e)
      | Return limit =>
          match get_query_func query_type with
          | Raise e => (Some query_type, Raise e)
          | Return query_func =>
              (Some query_type,
               Return {| plan_query_type := query_type;
                         plan_limit := limit;
                         plan_query_func := query_func;
                         plan_sql := (call_query_func query_func).1;
                         plan_params := fill_params (call_query_func query_func).2 limit |})
          end
      end
  end.
Proof.
  unfold plan_query. rewrite body_of_dict.
  unfold bind, lift, modify, ret. simpl.
  destruct (resolve_query_type _ _) as [query_type|e]; [|reflexivity].
  destruct (effective_limit _) as [limit|e]; [|reflexivity].
  destruct (get_query_func _) as [query_func|e]; [|reflexivity].
  now destruct query_func.
Qed.

Lemma fill_params_limit (f : query_func) (limit : Z) :
  fill_params (call_query_func f).2 limit
  = [ {| param_name := "limit"; param_type := "INT64"; param_value := Some limit |} ].
Proof. now destruct f. Qed.

(** A plan, once made, carries the effective limit in its one parameter. *)
Lemma plan_query_limit (request : json) (locals : option json) (plan : query_plan) :
  plan_query request None = (locals, Return plan) ->
  effective_limit (py_or request (JObj ∅)) = Return (plan_limit plan)
  /\ plan_params plan
     = [ {| param_name := "limit"; param_type := "INT64";
            param_value := Some (plan_limit plan) |} ].
Proof.
  unfold plan_query, bind, lift, modify, ret.
  destruct (py_get _ "question" _) as [question|e]; [|discriminate].
  destruct (resolve_query_type _ _) as [query_type|e]; [|discriminate].
  destruct (effective_limit _) as [limit|e]; [|discriminate].
  destruct (get_query_func _) as [query_func|e]; [|discriminate].
  destruct (call_query_func query_func) as [text params] eqn:Hcall.
  intros [= _ <-]. simpl. split; [reflexivity|].
  replace params with (call_query_func query_func).2 by now rewrite Hcall.
  apply fill_params_limit.
Qed.

(** C2.  The limit is [min(requested, 500)]: only the upper clamp, so
    10000 becomes 500 and -5 stays -5; a body without the field gets 100;
    and the value so computed is the one the query's [limit] parameter is
    filled with. *)
Theorem C2_effective_limit (fields : gmap string json) :
  (forall n : Z,
      effective_limit (JObj (<["limit" := JInt n]> fields)) = Return (Z.min n 500))
  /\ effective_limit (JObj (<["limit" := JInt 10000]> fields)) = Return 500
  /\ effective_limit (JObj (<["limit" := JInt (-5)]> fields)) = Return (-5)
  /\ effective_limit (JObj (delete "limit" fields)) = Return 100
  /\ forall request locals plan,
       plan_query request None = (locals, Return plan) ->
       effective_limit (py_or request (JObj ∅)) = Return (plan_limit plan)
       /\ plan_params plan
          = [ {| param_name := "limit"; param_type := "INT64";
                 param_value := Some (plan_limit plan) |} ].
Proof.
  assert (Hgiven : forall n : Z,
             effective_limit (JObj (<["limit" := JInt n]> fields)) = Return (Z.min n 500)).
  { intros n. unfold effective_limit. simpl. now rewrite lookup_insert_eq. }
  split; [exact Hgiven|].
  split; [apply (Hgiven 10000)|].
  split; [apply (Hgiven (-5))|].
  split.
  - unfold effective_limit. simpl. now rewrite lookup_delete_eq.
  - apply plan_query_limit.
Qed.

Lemma resolve_given (fields : gmap string json) (given question : json) :
  fields !! "query_type" = Some given -> truthy given = true ->
  resolve_query_type (JObj fields) question = Return given.
Proof.
  intros Hgiven Htruthy. unfold resolve_query_type. simpl.
  now rewrite Hgiven; simpl; rewrite Htruthy.
Qed.

Lemma unrecognized_is_no_key (s : string) :
  s ∉ recognized_aliases -> query_functions !! s = None.
Proof. intros Hs. now apply not_elem_of_list_to_map_1. Qed.

(** With a question of its declared type the assignment of [query_type]
    completes. *)
Lemma resolve_query_type_text (fields : gmap string json) :
  question_is_text (fields !! "question") ->
  exists query_type,
    resolve_query_type (JObj fields) (default (JStr "") (fields !! "question"))
    = Return query_type.
Proof.
  intros Htext. unfold resolve_query_type. cbn [py_get obind].
  destruct (truthy (default JNull (fields !! "query_type")));
    [eexists; reflexivity|].
  destruct (fields !! "question") as [q|];
    cbn [default from_option id question_is_text] in *.
  - destruct q; try contradiction.
    + unfold detect_query_intent, py_or. cbn [truthy py_lower obind].
      eexists; reflexivity.
    + rewrite detect_query_intent_text. cbn [obind]. eexists; reflexivity.
  - rewrite detect_query_intent_text. cbn [obind]. eexists; reflexivity.
Qed.

(** C1, as amended.  A non-empty [query_type] string that is none of the
    eight aliases is kept as the query type, whatever the question says;
    the lookup does not fail on it but falls back to the competitor-tracking
    builder, which is the one the plan then carries. *)
Theorem C1_unrecognized_query_type_gets_default_builder
    (fields : gmap string json) (s : string) :
  fields !! "query_type" = Some (JStr s) ->
  s <> "" ->
  s ∉ recognized_aliases ->
  (forall question, resolve_query_type (JObj fields) question = Return (JStr s))
  /\ get_query_func (JStr s) = Return sql_competitor_tracking
  /\ forall limit,
       effective_limit (JObj fields) = Return limit ->
       plan_query (JObj fields) None
       = (Some (JStr s),
          Return {| plan_query_type := JStr s;
                    plan_limit := limit;
                    plan_query_func := sql_competitor_tracking;
                    plan_sql := CompetitorTrackingQuery;
                    plan_params :=
                      [ {| param_name := "limit"; param_type := "INT64";
                           param_value := Some limit |} ] |}).
Proof.
  intros Hgiven Hnonempty Hunknown.
  assert (Htruthy : truthy (JStr s) = true).
  { simpl. destruct (String.eqb_spec s ""); [contradiction | reflexivity]. }
  assert (Hresolve : forall question,
             resolve_query_type (JObj fields) question = Return (JStr s)).
  { intros question. now apply resolve_given. }
  assert (Hfunc : get_query_func (JStr s) = Return sql_competitor_tracking).
  { simpl. now rewrite unrecognized_is_no_key. }
  split; [exact Hresolve|]. split; [exact Hfunc|].
  intros limit Hlimit.
  now rewrite plan_query_dict, Hresolve, Hlimit, Hfunc.
Qed.

Lemma detect_query_intent_key (question : json) (intent : string) :
  detect_query_intent question = Return intent ->
  exists c, In c priority_order /\ intent = category_key c.
Proof.
  unfold detect_query_intent.
  destruct (py_lower _) as [q|e]; cbn [obind]; [|discriminate].
  destruct (scan_patterns_key q) as (c & Hc & Hkey).
  rewrite Hkey. clear Hkey. intros [= <-].
  exists c. split; [exact Hc | reflexivity].
Qed.

Lemma category_key_has_builder (c : Category) :
  exists f, query_functions !! category_key c = Some f.
Proof. destruct c; eexists; vm_compute; reflexivity. Qed.

(** C10.  Whatever the classifier returns is the key of one of the four
    categories, and each of those is a key of [query_functions]; so when
    the query type comes from classification (the body's [query_type] is
    absent, empty or otherwise false), the lookup finds a builder and the
    default of [.get] is not what it returns for want of a key. *)
Theorem C10_classified_intent_has_a_builder :
  (forall (question : json) (intent : string),
      detect_query_intent question = Return intent ->
      In intent (map category_key priority_order)
      /\ exists f, query_functions !! intent = Some f)
  /\ (forall s : string, exists intent, detect_query_intent (JStr s) = Return intent)
  /\ forall (body question given query_type : json),
       py_get body "query_type" JNull = Return given ->
       truthy given = false ->
       resolve_query_type body question = Return query_type ->
       exists intent f,
         query_type = JStr intent
         /\ detect_query_intent question = Return intent
         /\ query_functions !! intent = Some f
         /\ get_query_func query_type = Return f.
Proof.
  assert (Hkey : forall question intent,
             detect_query_intent question = Return intent ->
             In intent (map category_key priority_order)
             /\ exists f, query_functions !! intent = Some f).
  { intros question intent Hdetect.
    destruct (detect_query_intent_key _ _ Hdetect) as (c & Hc & ->).
    split; [now apply in_map | apply category_key_has_builder]. }
  split; [exact Hkey|]. split.
  - intros s. eexists. apply detect_query_intent_text.
  - intros body question given query_type Hget Hfalse.
    unfold resolve_query_type. rewrite Hget. simpl. rewrite Hfalse.
    destruct (detect_query_intent question) as [intent|e] eqn:Hdetect; simpl; [|discriminate].
    intros [= <-].
    destruct (Hkey _ _ Hdetect) as [_ [f Hf]].
    exists intent, f. repeat split; auto. simpl. now rewrite Hf.
Qed.

End PlanningFacts.

(** ** Request failures *)

Section OrchestratorFacts.
Context {runtime : PyRuntime} {values : PyValues} {warehouse : Warehouse}.

(** An exception before the warehouse is reached becomes the 500 envelope,
    with the query type as far as it was assigned. *)
Lemma failed_plan_is_a_500 (now : string) (request : json) (locals : option json) (e : exn) :
  plan_query request None = (locals, Raise e) ->
  pricing_intel_query now request = Http500 (failure_envelope locals e).
Proof.
  intros Hplan. unfold pricing_intel_query, handle, bind. now rewrite Hplan.
Qed.

Lemma limit_rejected (fields : gmap string json) (v : json) (e : exn) :
  fields !! "limit" = Some v -> py_int v = Raise e ->
  effective_limit (JObj fields) = Raise e.
Proof.
  intros Hlimit Hint. unfold effective_limit. simpl. rewrite Hlimit. simpl.
  now rewrite Hint.
Qed.

(** C9.  A [limit] that [int()] rejects makes the request fail with the
    500 envelope, never a success and never a fallback to 100.  The
    assignment of [query_type] stands before the conversion: once it has
    completed - as it does whenever the question is absent, null or a
    string - the envelope carries the conversion's exception class as
    [error_type], and that query type.  When the assignment itself
    raises, the conversion is not reached: the envelope carries the
    assignment's exception and the query type "unknown". *)
Theorem C9_rejected_limit_is_a_failure
    (now : string) (fields : gmap string json) (v : json) (e : exn) :
  fields !! "limit" = Some v ->
  py_int v = Raise e ->
  status_code (pricing_intel_query now (JObj fields)) = 500
  /\ success (pricing_intel_query now (JObj fields)) = false
  /\ (forall query_type,
        resolve_query_type (JObj fields) (default (JStr "") (fields !! "question"))
        = Return query_type ->
        pricing_intel_query now (JObj fields)
        = Http500 {| error := e;
                     error_type := exn_name e;
                     failed_query_type := query_type |})
  /\ (question_is_text (fields !! "question") ->
      exists query_type,
        pricing_intel_query now (JObj fields)
        = Http500 {| error := e;
                     error_type := exn_name e;
                     failed_query_type := query_type |})
  /\ (forall e',
        resolve_query_type (JObj fields) (default (JStr "") (fields !! "question"))
        = Raise e' ->
        pricing_intel_query now (JObj fields)
        = Http500 {| error := e';
                     error_type := exn_name e';
                     failed_query_type := JStr "unknown" |}).
Proof.
  intros Hlimit Hint.
  pose proof (limit_rejected _ _ _ Hlimit Hint) as Hreject.
  pose proof (plan_query_dict fields) as Hplan.
  rewrite Hreject in Hplan.
  pose proof (resolve_query_type_text fields) as Htext.
  destruct (resolve_query_type _ _) as [query_type|e'] eqn:Hresolve;
    rewrite (failed_plan_is_a_500 _ _ _ _ Hplan).
  - split; [reflexivity|]. split; [reflexivity|]. split; [|split].
    + now intros ? [= <-].
    + intros _. now exists query_type.
    + discriminate.
  - split; [reflexivity|]. split; [reflexivity|]. split; [|split].
    + discriminate.
    + intros Hquestion. destruct (Htext Hquestion) as [? [=]].
    + now intros ? [= <-].
Qed.

End OrchestratorFacts.

(** ** Competitor-tracking labels *)

Section LabelFacts.
Import Sql.

(** C6.  With a price gap of -31 and a "Very Positive" market-share
    impact the competitive position is the dominant one: its arm stands
    first, although the broader strong-advantage arm holds of the row too. *)
Theorem C6_dominant_position_comes_first (flag quality brand : option string) :
  let r := {| price_gap_pct := Some (float_of_Z (-31));
              market_share_impact := Some "Very Positive";
              promotion_flag := flag;
              quality_comparison := quality;
              brand_positioning := brand |} in
  competitive_position r = "🏆 Dominant Market Position"
  /\ competitive_position r <> "💰 Strong Price Advantage"
  /\ sql_and (sql_le (price_gap_pct r)
                     (Some SuvariPricingMetrics.PRICE_ADVANTAGE_THRESHOLD))
             (sql_in (market_share_impact r) ["Positive"; "Very Positive"])
     = Some true.
Proof.
  cbv zeta. split; [reflexivity|]. split; [|reflexivity].
  change (competitive_position _) with "🏆 Dominant Market Position".
  discriminate.
Qed.

End LabelFacts.

(** ** The state-and-exception monad *)

Section ExecFacts.
Context {S : Type} (P : S -> Prop).

Lemma preserves_ret {A} (a : A) : preserves P (ret a).
Proof. now intros s Hs. Qed.

Lemma preserves_lift {A} (o : outcome A) : preserves P (lift o).
Proof. now intros s Hs. Qed.

Lemma preserves_modify (f : S -> S) :
  (forall s, P s -> P (f s)) -> preserves P (modify f).
Proof. intros Hf s Hs. now apply Hf. Qed.

Lemma preserves_bind {A B} (m : exec S A) (k : A -> exec S B) :
  preserves P m -> (forall a, preserves P (k a)) -> preserves P (bind m k).
Proof.
  intros Hm Hk s Hs. unfold bind. specialize (Hm s Hs).
  destruct (m s) as [s' [a|e]]; simpl in *; [now apply Hk | assumption].
Qed.

(** Past a pure step that returned, its result is known. *)
Lemma preserves_bind_lift {A B} (o : outcome A) (k : A -> exec S B) :
  (forall a, o = Return a -> preserves P (k a)) -> preserves P (bind (lift o) k).
Proof.
  intros Hk s Hs. unfold bind, lift.
  destruct o as [a|e]; simpl; [now apply (Hk a) | assumption].
Qed.

Lemma preserves_when (c : bool) (body : exec S unit) :
  (c = true -> preserves P body) -> preserves P (when c body).
Proof. destruct c; simpl; intros Hbody; [now apply Hbody | apply preserves_ret]. Qed.

(** A raise leaves the continuation unrun and the state as it was reached. *)
Lemma bind_raise {A B} (m : exec S A) (k : A -> exec S B) (s s' : S) (e : exn) :
  m s = (s', Raise e) -> bind m k s = (s', Raise e).
Proof. intros Hm. unfold bind. now rewrite Hm. Qed.

Lemma try_except_log_returns (body : exec S unit) (s : S) :
  try_except_log body s = ((body s).1, Return tt).
Proof. unfold try_except_log. now destruct (body s) as [s' [[]|e]]. Qed.

End ExecFacts.

(** ** Rule messages *)

Section RuleFacts.

#[local] Arguments str_of_nat : simpl never.
#[local] Arguments String.append !_ _ / : simpl nomatch.

(** No two rules share a message, and a message shows its count. *)
Lemma rule_message_inj (r r' : label_rule) (m n : nat) :
  rule_message r m = rule_message r' n -> r = r' /\ m = n.
Proof.
  unfold rule_message. intros Heq.
  destruct r, r'; simpl in Heq; try discriminate Heq;
    repeat match type of Heq with
           | String _ _ = String _ _ => injection Heq as Heq
           end;
    (apply digits_then_space in Heq; [| apply str_of_nat_digits ..]);
    destruct Heq as [Hcount Hsuffix];
    try discriminate Hsuffix;
    (split; [reflexivity | now apply str_of_nat_inj]).
Qed.

Lemma rule_message_not_top_campaign (r : label_rule) (n : nat) :
  startswith top_campaign_prefix (rule_message r n) = false.
Proof. now destruct r. Qed.

Lemma rule_recommendation_inj (r r' : label_rule) (s : string) :
  rule_recommendation r = Some s -> rule_recommendation r' = Some s -> r = r'.
Proof.
  intros Hr Hr'.
  destruct r; simpl in Hr; try discriminate Hr;
    destruct r'; simpl in Hr'; try discriminate Hr';
    first [ reflexivity | rewrite <- Hr in Hr'; discriminate Hr' ].
Qed.

End RuleFacts.

(** ** Insight synthesizer *)

Section SynthesizerFacts.
Context {values : PyValues}.

#[local] Arguments str_of_nat : simpl never.
#[local] Arguments String.append !_ _ / : simpl nomatch.

Abbreviation row := (gmap string value).

Lemma nonempty_length {A} (l : list A) : nonempty l = true -> length l <> O.
Proof. now destruct l. Qed.

Lemma nonempty_not_nil {A} (l : list A) : nonempty l = true -> l <> [].
Proof. now destruct l. Qed.

(** *** What the appended strings are *)

Lemma rule_backed (r : label_rule) (rows matching : list row) :
  rule_rows r rows = Return matching ->
  nonempty matching = true ->
  backed_message rows (rule_message r (length matching)).
Proof.
  intros Hrows Hsome. split.
  - intros r' n [<- <-]%rule_message_inj.
    exists matching. auto using nonempty_length.
  - now rewrite rule_message_not_top_campaign.
Qed.

Lemma rule_recommendation_backed (r : label_rule) (s : string) (rows matching : list row) :
  rule_recommendation r = Some s ->
  rule_rows r rows = Return matching ->
  nonempty matching = true ->
  backed_recommendation rows s.
Proof.
  intros Hs Hrows Hsome r' Hr'.
  rewrite (rule_recommendation_inj r' r s Hr' Hs).
  exists matching. auto using nonempty_not_nil.
Qed.

Lemma top_campaign_backed (rows matching : list row) (rest : string) :
  rows_with "🏆 Excellent Campaign ROI" "campaign_performance_tier" rows = Return matching ->
  nonempty matching = true ->
  backed_message rows (top_campaign_prefix +:+ rest).
Proof.
  intros Hrows Hsome. split.
  - intros r n Heq. unfold rule_message in Heq. now destruct r.
  - intros _. exists matching. auto using nonempty_not_nil.
Qed.

(** A string that is no rule's message and no top-campaign insight needs
    no backing. *)
Lemma unruled_backed (rows : list row) (s : string) :
  (forall r n, s <> rule_message r n) ->
  startswith top_campaign_prefix s = false ->
  backed_message rows s.
Proof.
  intros Hrule Htop. split.
  - intros r n Heq. now destruct (Hrule r n).
  - rewrite Htop. discriminate.
Qed.

Lemma average_gap_unruled (label rest : string) (r : label_rule) (n : nat) :
  In label ["📊 Ortalama fiyat avantajımız: %"; "📊 Ortalama fiyat dezavantajımız: %";
            "⚖️ Rakiplerle ortalama fiyat paritesi: %"; "📊 Toplam kampanya ROI: %"] ->
  label +:+ rest <> rule_message r n.
Proof.
  unfold rule_message.
  intros [<- | [<- | [<- | [<- | []]]]] Heq; now destruct r.
Qed.

Lemma high_impact_total_unruled (count : nat) (r : label_rule) (n : nat) :
  high_impact_total_message count <> rule_message r n.
Proof. unfold high_impact_total_message, rule_message. intros Heq. now destruct r. Qed.

Lemma budget_total_unruled (rest : string) (r : label_rule) (n : nat) :
  "💰 Toplam planlanan kampanya bütçesi: $" +:+ rest <> rule_message r n.
Proof.
  unfold rule_message. intros Heq.
  destruct r; simpl in Heq; try discriminate Heq;
    repeat match type of Heq with
           | String _ _ = String _ _ => injection Heq as Heq
           end;
    first [ symmetry in Heq;
            apply digits_then_space_head in Heq; [| apply str_of_nat_digits]
          | apply digits_then_space_head in Heq; [| apply str_of_nat_digits] ];
    now destruct Heq.
Qed.

(** *** The invariant along the four bodies *)

Lemma backed_append_insight (rows : list row) (s : string) :
  backed_message rows s -> preserves (backed rows) (append_insight s).
Proof.
  intros Hs. apply preserves_modify. intros a (Hi & Ha & Hr).
  repeat split; simpl; auto. apply Forall_app. auto.
Qed.

Lemma backed_append_alert (rows : list row) (s : string) :
  backed_message rows s -> preserves (backed rows) (append_alert s).
Proof.
  intros Hs. apply preserves_modify. intros a (Hi & Ha & Hr).
  repeat split; simpl; auto. apply Forall_app. auto.
Qed.

Lemma backed_append_recommendation (rows : list row) (s : string) :
  backed_recommendation rows s -> preserves (backed rows) (append_recommendation s).
Proof.
  intros Hs. apply preserves_modify. intros a (Hi & Ha & Hr).
  repeat split; simpl; auto. apply Forall_app. auto.
Qed.

(** Every statement only appends. *)
Lemma grows_append_insight (a0 : analysis) (s : string) :
  preserves (grows_from a0) (append_insight s).
Proof.
  apply preserves_modify. intros a (Hi & Hr & Ha).
  repeat split; simpl; auto. now apply prefix_app_r.
Qed.

Lemma grows_append_recommendation (a0 : analysis) (s : string) :
  preserves (grows_from a0) (append_recommendation s).
Proof.
  apply preserves_modify. intros a (Hi & Hr & Ha).
  repeat split; simpl; auto. now apply prefix_app_r.
Qed.

Lemma grows_append_alert (a0 : analysis) (s : string) :
  preserves (grows_from a0) (append_alert s).
Proof.
  apply preserves_modify. intros a (Hi & Hr & Ha).
  repeat split; simpl; auto. now apply prefix_app_r.
Qed.

(** Walks a body statement by statement; for the invariant [backed], what
    is left is one goal for each string the body may append. *)
Ltac walk_body :=
  repeat first
    [ apply preserves_bind_lift; intros ? ?
    | apply preserves_bind; [ | intros ? ]
    | apply preserves_when; intros ?
    | apply preserves_ret
    | match goal with
      | |- preserves _ (if ?c then _ else _) => destruct c
      end
    | apply backed_append_insight
    | apply backed_append_alert
    | apply backed_append_recommendation
    | apply grows_append_insight
    | apply grows_append_alert
    | apply grows_append_recommendation ].

(** Finds the rule, or the lemma, that accounts for an appended string. *)
Ltac by_rule r :=
  first [ apply (rule_backed r); [ exact_rows | assumption ]
        | eapply (rule_recommendation_backed r); [ reflexivity | exact_rows | assumption ] ]
with exact_rows :=
  match goal with
  | Hrows : rows_with _ _ _ = Return _ |- _ => exact Hrows
  end.

Ltac account :=
  first [ by_rule strong_advantages | by_rule price_disadvantages
        | by_rule premium_positions | by_rule promo_pressure
        | by_rule poor_performance | by_rule efficient_acquisition
        | by_rule excellent_retention | by_rule price_increase_opps
        | by_rule under_priced | by_rule high_revenue_impact
        | by_rule low_sensitivity | by_rule high_impact_low_cost
        | by_rule competitive_battlegrounds | by_rule major_investments
        | by_rule flash_campaigns | by_rule extended_campaigns
        | eapply top_campaign_backed; [ exact_rows | assumption ]
        | apply unruled_backed;
          [ intros ? ?;
            first [ apply average_gap_unruled; simpl; tauto
                  | apply high_impact_total_unruled
                  | apply budget_total_unruled ]
          | reflexivity ] ].

Lemma analyze_competitor_tracking_backed (rows : list row) :
  preserves (backed rows) (analyze_competitor_tracking rows).
Proof. unfold analyze_competitor_tracking. cbv zeta. walk_body; account. Qed.

Lemma analyze_campaign_performance_backed (rows : list row) :
  preserves (backed rows) (analyze_campaign_performance rows).
Proof. unfold analyze_campaign_performance. walk_body; account. Qed.

Lemma analyze_price_elasticity_backed (rows : list row) :
  preserves (backed rows) (analyze_price_elasticity rows).
Proof. unfold analyze_price_elasticity. walk_body; account. Qed.

Lemma analyze_promotional_calendar_backed (rows : list row) :
  preserves (backed rows) (analyze_promotional_calendar rows).
Proof. unfold analyze_promotional_calendar. walk_body; account. Qed.

Lemma analyze_rows_backed (rows : list row) (query_type : json) :
  preserves (backed rows) (analyze_rows rows query_type).
Proof.
  unfold analyze_rows.
  repeat match goal with
         | |- preserves _ (if ?c then _ else _) => destruct c
         end;
    auto using analyze_competitor_tracking_backed, analyze_campaign_performance_backed,
               analyze_price_elasticity_backed, analyze_promotional_calendar_backed,
               preserves_ret.
Qed.

Lemma analyze_rows_grows (rows : list row) (query_type : json) (a0 : analysis) :
  preserves (grows_from a0) (analyze_rows rows query_type).
Proof.
  unfold analyze_rows, analyze_competitor_tracking, analyze_campaign_performance,
    analyze_price_elasticity, analyze_promotional_calendar.
  cbv zeta. walk_body.
Qed.

Lemma grows_from_refl (a : analysis) : grows_from a a.
Proof. repeat split; reflexivity. Qed.

(** *** The function as a whole *)

(** With rows, the result is the truncation of what the [try] statement
    left in the three lists, whether its body ran to its end or raised. *)
Lemma analyze_pricing_results_rows (rows : list row) (query_type : json) :
  rows <> [] ->
  analyze_pricing_results rows query_type
  = Return (truncate (run_analysis rows query_type).1).
Proof.
  intros Hrows. unfold analyze_pricing_results, run_analysis.
  destruct rows as [|r rows]; [contradiction|]. simpl negb. cbv iota.
  unfold bind at 1. rewrite try_except_log_returns. reflexivity.
Qed.

Lemma run_analysis_backed (rows : list row) (query_type : json) :
  backed rows (run_analysis rows query_type).1.
Proof.
  apply analyze_rows_backed. repeat split; constructor.
Qed.

(** C3.  With no rows the synthesizer returns, for every query type, the
    one "no data found" insight, the one generic recommendation and no
    alert. *)
Theorem C3_no_rows_fixed_fallback (query_type : json) :
  exists a,
    analyze_pricing_results [] query_type = Return a
    /\ insights a = ["Belirtilen kriterlere uygun pricing verisi bulunamadı"]
    /\ recommendations a = ["Tarih aralığını veya kriterleri genişletin"]
    /\ alerts a = []
    /\ length (insights a) = 1%nat
    /\ length (recommendations a) = 1%nat
    /\ length (alerts a) = 0%nat.
Proof. exists no_data_analysis. repeat split. Qed.

(** C8.  The result never holds more than 10 insights, 5 recommendations
    and 5 alerts; with rows, each of its lists is the prefix of that
    length of the list the rules appended to, and the rules only ever
    append at the end. *)
Theorem C8_results_are_bounded_prefixes (rows : list row) (query_type : json) :
  exists a,
    analyze_pricing_results rows query_type = Return a
    /\ (length (insights a) <= 10)%nat
    /\ (length (recommendations a) <= 5)%nat
    /\ (length (alerts a) <= 5)%nat
    /\ (rows <> [] ->
        let appended := (run_analysis rows query_type).1 in
        insights a = take 10 (insights appended)
        /\ recommendations a = take 5 (recommendations appended)
        /\ alerts a = take 5 (alerts appended)
        /\ grows_from a appended)
    /\ forall a0, grows_from a0 (analyze_rows rows query_type a0).1.
Proof.
  assert (Hgrows : forall a0, grows_from a0 (analyze_rows rows query_type a0).1).
  { intros a0. apply analyze_rows_grows, grows_from_refl. }
  destruct rows as [|r rows].
  - exists no_data_analysis. split; [reflexivity|]. simpl.
    split; [lia|]. split; [lia|]. split; [lia|]. split; [contradiction | exact Hgrows].
  - eexists. split; [now apply analyze_pricing_results_rows|].
    cbn [truncate insights recommendations alerts].
    rewrite !length_take.
    split; [lia|]. split; [lia|]. split; [lia|]. split; [|exact Hgrows].
    intros _. cbv zeta. unfold grows_from.
    cbn [truncate insights recommendations alerts].
    repeat split; apply prefix_take.
Qed.

Lemma truncate_backed (rows : list row) (a : analysis) :
  backed rows a -> backed rows (truncate a).
Proof. intros (Hi & Ha & Hr). repeat split; now apply Forall_take. Qed.

(** What comes after the first guarded rule of the promotional-calendar
    body: the total is appended whatever the counts are, first or second
    in the list, and stays there. *)
Lemma total_after_first_rule (c : bool) (message recommendation total : string)
    (rest : unit -> exec analysis unit) :
  (forall u a0, preserves (grows_from a0) (rest u)) ->
  total ∈ take 10 (insights
    ((when c (append_insight message ;; append_recommendation recommendation) ;;
      bind (append_insight total) rest)%exec empty_analysis).1).
Proof.
  intros Hrest.
  destruct c; unfold when, bind, append_insight, append_recommendation, modify, ret;
    cbn [fst snd insights recommendations alerts empty_analysis app];
    match goal with
    | |- _ ∈ take 10 (insights (rest tt ?s).1) =>
        destruct (Hrest tt s s (grows_from_refl s)) as [[more Hmore] _];
        rewrite Hmore
    end;
    cbn [insights app take]; set_solver.
Qed.

Lemma bind_lift_return {S A B} (a : A) (k : A -> exec S B) (s : S) :
  bind (lift (Return a)) k s = k a s.
Proof. reflexivity. Qed.

Lemma high_impact_total_appended (rows hilc hi : list row) :
  rule_rows high_impact_low_cost rows = Return hilc ->
  rows_with "⭐ High Impact Campaign" "campaign_priority_tier" rows = Return hi ->
  high_impact_total_message (length (hi ++ hilc))
  ∈ take 10 (insights (analyze_promotional_calendar rows empty_analysis).1).
Proof.
  unfold rule_rows. cbn [rule_label rule_column]. intros Hhilc Hhi.
  unfold analyze_promotional_calendar.
  rewrite Hhilc, bind_lift_return, Hhi, bind_lift_return.
  apply total_after_first_rule. intros _ a0. walk_body.
Qed.

(** C5, as amended.  With rows, every message of a label-based rule in the
    insights or alerts carries the number of rows that have the rule's
    label - which the filter computed without raising - and that number
    is not zero; a rule's recommendation, and the top-campaign insight,
    are present only when rows have the label.  The one exception is by
    design: the promotional-calendar total of high-impact campaigns stands
    under no [if] and is in the result whenever its two filters return,
    also for a count of zero. *)
Theorem C5_guarded_rules_report_matching_rows
    (rows : list row) (query_type : json) (a : analysis) :
  rows <> [] ->
  analyze_pricing_results rows query_type = Return a ->
  (forall r n,
      rule_message r n ∈ insights a ++ alerts a ->
      exists matching,
        rule_rows r rows = Return matching /\ length matching = n /\ n <> O)
  /\ (forall r s,
        rule_recommendation r = Some s ->
        s ∈ recommendations a ->
        exists matching, rule_rows r rows = Return matching /\ matching <> [])
  /\ (forall s,
        s ∈ insights a ->
        startswith top_campaign_prefix s = true ->
        exists matching,
          rows_with "🏆 Excellent Campaign ROI" "campaign_performance_tier" rows
          = Return matching
          /\ matching <> [])
  /\ (forall hilc hi,
        query_type = JStr "promotional_calendar" ->
        rule_rows high_impact_low_cost rows = Return hilc ->
        rows_with "⭐ High Impact Campaign" "campaign_priority_tier" rows = Return hi ->
        high_impact_total_message (length (hi ++ hilc)) ∈ insights a).
Proof.
  intros Hrows Ha.
  rewrite (analyze_pricing_results_rows _ _ Hrows) in Ha. injection Ha as <-.
  destruct (truncate_backed _ _ (run_analysis_backed rows query_type))
    as (Hinsights & Halerts & Hrecommendations).
  rewrite Forall_forall in Hinsights, Halerts, Hrecommendations.
  split; [|split; [|split]].
  - intros r n [Hin | Hin]%elem_of_app.
    + now apply (Hinsights _ Hin).
    + now apply (Halerts _ Hin).
  - intros r s Hs Hin. now apply (Hrecommendations _ Hin).
  - intros s Hin Htop. now apply (Hinsights _ Hin).
  - intros hilc hi -> Hhilc Hhi.
    now apply high_impact_total_appended.
Qed.

End SynthesizerFacts.

(** ** Summary calculator and the request as a whole *)

Section SummaryFacts.
Context {runtime : PyRuntime} {values : PyValues} {warehouse : Warehouse}.

Abbreviation row := (gmap string value).

Lemma dict_update_lookup_other {A} (fields : list (string * A)) (d : gmap string A)
    (key : string) :
  Forall (fun kv => kv.1 <> key) fields ->
  dict_update d fields !! key = d !! key.
Proof.
  unfold dict_update. revert d.
  induction fields as [|[k v] fields IH]; intros d Hkeys; [reflexivity|].
  inversion Hkeys as [|? ? Hk Hrest]; subst. simpl in *.
  rewrite IH by assumption. now apply lookup_insert_ne.
Qed.

(** No category-specific field is called [total_records]. *)
Lemma summary_fields_keys (rows : list row) (query_type : json)
    (fields : list (string * summary_value)) :
  summary_fields rows query_type = Return fields ->
  Forall (fun kv => kv.1 <> "total_records") fields.
Proof.
  unfold summary_fields.
  repeat match goal with
         | |- context [if ?c then _ else _] => destruct c
         end;
    repeat match goal with
           | |- context [obind ?o _] => destruct o; cbn [obind]
           end;
    intros Hfields; try discriminate Hfields;
    injection Hfields as <-; repeat constructor; discriminate.
Qed.

Lemma update_summary_keeps_total (rows : list row) (query_type : json) (n : nat) :
  preserves (fun summary : gmap string summary_value =>
               summary !! "total_records" = Some (SumCount n))
            (update_summary rows query_type).
Proof.
  unfold update_summary. apply preserves_bind_lift. intros fields Hfields.
  apply preserves_modify. intros summary Htotal.
  rewrite dict_update_lookup_other; [assumption|].
  now apply (summary_fields_keys rows query_type).
Qed.

Lemma calculate_pricing_summary_returns (now : string) (rows : list row) (query_type : json) :
  exists summary,
    calculate_pricing_summary now rows query_type = Return summary
    /\ summary !! "total_records" = Some (SumCount (length rows)).
Proof.
  unfold calculate_pricing_summary. destruct rows as [|r rows]; simpl negb; cbv iota.
  - eexists. split; [reflexivity|]. apply lookup_singleton_eq.
  - unfold bind at 1. rewrite try_except_log_returns. unfold get. simpl snd.
    eexists. split; [reflexivity|].
    apply update_summary_keeps_total. apply lookup_insert_eq.
Qed.

(** C7.  Neither function raises, whatever the rows hold.  The
    synthesizer returns the truncation of the lists as its [try] statement
    left them, which is where its body stopped if it raised; the summary
    returned always has [total_records], the number of rows.  So once the
    warehouse has answered, the request succeeds. *)
Theorem C7_synthesis_and_summary_never_raise
    (now : string) (rows : list row) (query_type : json) :
  (exists a,
      analyze_pricing_results rows query_type = Return a
      /\ (rows <> [] -> a = truncate (run_analysis rows query_type).1))
  /\ (exists summary,
        calculate_pricing_summary now rows query_type = Return summary
        /\ summary !! "total_records" = Some (SumCount (length rows)))
  /\ (forall request locals plan job,
        plan_query request None = (locals, Return plan) ->
        run_query (plan_sql plan) (plan_params plan) maximum_bytes_billed
                  [ ("agent", JStr "pricing_intel");
                    ("query_type", plan_query_type plan) ]
        = Return job ->
        exists body,
          pricing_intel_query now request = Http200 body
          /\ ok_rows body = job.1
          /\ analyze_pricing_results job.1 (plan_query_type plan)
             = Return {| insights := ok_insights body;
                         recommendations := ok_recommendations body;
                         alerts := ok_alerts body |}
          /\ calculate_pricing_summary now job.1 (plan_query_type plan)
             = Return (ok_summary body)).
Proof.
  assert (Hanalysis : forall rows' query_type',
             exists a, analyze_pricing_results rows' query_type' = Return a
                       /\ (rows' <> [] -> a = truncate (run_analysis rows' query_type').1)).
  { intros rows' query_type'. destruct rows' as [|r rows'].
    - exists no_data_analysis. split; [reflexivity | contradiction].
    - eexists. split; [now apply analyze_pricing_results_rows | reflexivity]. }
  split; [apply Hanalysis|]. split; [apply calculate_pricing_summary_returns|].
  intros request locals plan job Hplan Hjob.
  destruct (Hanalysis job.1 (plan_query_type plan)) as (a & Ha & _).
  destruct (calculate_pricing_summary_returns now job.1 (plan_query_type plan))
    as (summary & Hsummary & _).
  unfold pricing_intel_query, handle.
  unfold bind at 1. rewrite Hplan.
  unfold bind at 1. unfold lift at 1. rewrite Hjob.
  unfold bind at 1. unfold lift at 1. rewrite Ha.
  unfold bind at 1. unfold lift at 1. rewrite Hsummary.
  unfold ret. eexists. split; [reflexivity|]. simpl.
  destruct a. auto.
Qed.

End SummaryFacts.

(** ** More on the classifier: shadowed keywords *)

Section ClassifierShadowing.
Context {runtime : PyRuntime}.

Lemma append_assoc (a b c : string) : (a +:+ b) +:+ c = a +:+ b +:+ c.
Proof.
  induction a as [|x a IH]; [reflexivity|].
  change (String x ((a +:+ b) +:+ c) = String x (a +:+ b +:+ c)). now rewrite IH.
Qed.

Lemma contains_trans (q term part : string) :
  contains q term -> contains term part -> contains q part.
Proof.
  intros (before & after & ->) (before' & after' & ->).
  exists (before +:+ before'), (after' +:+ after).
  now rewrite !append_assoc.
Qed.

(** A term that contains another is found only where the other is. *)
Lemma py_in_part (part term q : string) :
  py_in part term = true -> py_in term q = true -> py_in part q = true.
Proof.
  rewrite !py_in_spec. intros Hpart Hterm. exact (contains_trans _ _ _ Hterm Hpart).
Qed.

Lemma scan_patterns_competitor (q : string) :
  existsb (pattern_hits q)
          [ "competitor|rakip|competition"; "price|fiyat|pricing"; "market|pazar";
            "positioning|konum"; "comparison|karşılaştırma"; "advantage|avantaj" ] = true ->
  scan_patterns q patterns = Some "competitor_tracking".
Proof. intros Hhit. unfold patterns. cbn [scan_patterns]. now rewrite Hhit. Qed.

(** X1.  The campaign group "marketing|pazarlama" never decides: "marketing"
    contains "market" and "pazarlama" contains "pazar", both terms of the
    competitor-tracking group "market|pazar", which stands earlier.  So a
    question that mentions marketing is classified as competitor tracking. *)
Theorem X1_marketing_questions_are_competitor_tracking (s : string) :
  pattern_hits (str_lower s) "marketing|pazarlama" = true ->
  detect_query_intent (JStr s) = Return "competitor_tracking"
  /\ pattern_hits (str_lower s) "market|pazar" = true.
Proof.
  intros Hhit.
  assert (Hmarket : pattern_hits (str_lower s) "market|pazar" = true).
  { revert Hhit. unfold pattern_hits.
    change (split "|" "marketing|pazarlama") with ["marketing"; "pazarlama"].
    change (split "|" "market|pazar") with ["market"; "pazar"].
    cbn [existsb]. rewrite !orb_false_r, !orb_true_iff.
    intros [Hterm | Hterm]; [left | right];
      (eapply py_in_part; [|exact Hterm]); reflexivity. }
  split; [|exact Hmarket].
  rewrite detect_query_intent_text, scan_patterns_competitor; [reflexivity|].
  cbn [existsb]. rewrite Hmarket. now rewrite !orb_true_r.
Qed.

(** X2.  The term "kar" stands in the campaign group "roi|kar|return" and
    again in the price-elasticity group "margin|kar".  The campaign
    category comes first, so a question that contains "kar" is never
    classified as price elasticity (nor as promotional calendar). *)
Theorem X2_kar_never_selects_price_elasticity (s : string) :
  py_in "kar" (str_lower s) = true ->
  detect_query_intent (JStr s) = Return "competitor_tracking"
  \/ detect_query_intent (JStr s) = Return "campaign_performance".
Proof.
  intros Hkar. rewrite detect_query_intent_text.
  unfold patterns. cbn [scan_patterns].
  destruct (existsb (pattern_hits (str_lower s)) _); [now left|].
  right.
  assert (Hhit : pattern_hits (str_lower s) "roi|kar|return" = true).
  { unfold pattern_hits.
    change (split "|" "roi|kar|return") with ["roi"; "kar"; "return"].
    cbn [existsb]. rewrite Hkar. now rewrite orb_true_r. }
  cbn [existsb]. rewrite Hhit. now rewrite !orb_true_r.
Qed.

End ClassifierShadowing.

(** ** More on the orchestrator: bodies, failures and the response *)

Section OrchestratorPaths.
Context {runtime : PyRuntime} {values : PyValues} {warehouse : Warehouse}.

Lemma py_or_idempotent (request : json) :
  py_or (py_or request (JObj ∅)) (JObj ∅) = py_or request (JObj ∅).
Proof.
  unfold py_or. destruct (truthy request) eqn:Hrequest; [now rewrite Hrequest | reflexivity].
Qed.

Lemma plan_query_body (request : json) :
  plan_query request = plan_query (py_or request (JObj ∅)).
Proof. unfold plan_query. now rewrite py_or_idempotent. Qed.

Lemma pricing_intel_query_body (now : string) (request : json) :
  pricing_intel_query now request = pricing_intel_query now (py_or request (JObj ∅)).
Proof. unfold pricing_intel_query, handle. now rewrite plan_query_body. Qed.

Lemma plan_query_empty :
  plan_query (JObj ∅) None
  = (Some (JStr "competitor_tracking"),
     Return {| plan_query_type := JStr "competitor_tracking";
               plan_limit := 100;
               plan_query_func := sql_competitor_tracking;
               plan_sql := CompetitorTrackingQuery;
               plan_params :=
                 [ {| param_name := "limit"; param_type := "INT64";
                      param_value := Some 100 |} ] |}).
Proof. rewrite plan_query_dict. reflexivity. Qed.

(** X3.  [request.get_json(silent=True) or {}]: a body that is absent,
    unparsable or any false JSON value (null, false, 0, "", [], {}) is
    handled as the empty object: the competitor-tracking query with the
    default limit of 100. *)
Theorem X3_falsy_request_is_the_empty_request (now : string) (request : json) :
  truthy request = false ->
  pricing_intel_query now request = pricing_intel_query now (JObj ∅)
  /\ plan_query request None
     = (Some (JStr "competitor_tracking"),
        Return {| plan_query_type := JStr "competitor_tracking";
                  plan_limit := 100;
                  plan_query_func := sql_competitor_tracking;
                  plan_sql := CompetitorTrackingQuery;
                  plan_params :=
                    [ {| param_name := "limit"; param_type := "INT64";
                         param_value := Some 100 |} ] |}).
Proof.
  intros Hfalse.
  assert (Hbody : py_or request (JObj ∅) = JObj ∅).
  { unfold py_or. now rewrite Hfalse. }
  split.
  - now rewrite pricing_intel_query_body, Hbody.
  - rewrite plan_query_body, Hbody. apply plan_query_empty.
Qed.

Lemma plan_query_not_object (request : json) :
  truthy request = true -> is_object request = false ->
  plan_query request None = (None, Raise AttributeError).
Proof.
  intros Htrue Hobject. unfold plan_query, py_or. rewrite Htrue.
  destruct request; try discriminate Hobject; reflexivity.
Qed.

(** X4.  A body that is true and no object (a non-empty array or string,
    a non-zero number, [true]) has no [get]: the request fails with the
    500 envelope, error type AttributeError, and - [query_type] not yet
    being bound - the query type "unknown". *)
Theorem X4_non_object_body_fails_before_query_type (now : string) (request : json) :
  truthy request = true ->
  is_object request = false ->
  pricing_intel_query now request
  = Http500 {| error := AttributeError;
               error_type := "AttributeError";
               failed_query_type := JStr "unknown" |}.
Proof.
  intros Htrue Hobject.
  now rewrite (failed_plan_is_a_500 _ _ _ _ (plan_query_not_object _ Htrue Hobject)).
Qed.

Lemma detect_query_intent_not_text (question : json) :
  truthy question = true -> is_text question = false ->
  detect_query_intent question = Raise AttributeError.
Proof.
  intros Htrue Htext. unfold detect_query_intent, py_or. rewrite Htrue.
  destruct question; try discriminate Htext; reflexivity.
Qed.

(** X5.  With no usable [query_type] in the body, a [question] that is
    true and no string (a number, an array, an object) reaches
    [.lower()] in the classifier: the request fails with AttributeError
    and the query type "unknown". *)
Theorem X5_question_of_wrong_type_fails_before_query_type
    (now : string) (fields : gmap string json) (question : json) :
  fields !! "question" = Some question ->
  truthy question = true ->
  is_text question = false ->
  truthy (default JNull (fields !! "query_type")) = false ->
  pricing_intel_query now (JObj fields)
  = Http500 {| error := AttributeError;
               error_type := "AttributeError";
               failed_query_type := JStr "unknown" |}.
Proof.
  intros Hquestion Htrue Htext Hgiven.
  assert (Hplan : plan_query (JObj fields) None = (None, Raise AttributeError)).
  { rewrite plan_query_dict, Hquestion. unfold resolve_query_type.
    cbn [py_get obind default from_option id]. rewrite Hgiven.
    now rewrite (detect_query_intent_not_text _ Htrue Htext). }
  now rewrite (failed_plan_is_a_500 _ _ _ _ Hplan).
Qed.

Lemma plan_query_locals (request : json) (locals : option json) (plan : query_plan) :
  plan_query request None = (locals, Return plan) ->
  locals = Some (plan_query_type plan).
Proof.
  unfold plan_query, bind, lift, modify, ret.
  destruct (py_get _ "question" _) as [question|e]; [|discriminate].
  destruct (resolve_query_type _ _) as [query_type|e]; [|discriminate].
  destruct (effective_limit _) as [limit|e]; [|discriminate].
  destruct (get_query_func _) as [query_func|e]; [|discriminate].
  destruct (call_query_func query_func) as [text params].
  now intros [= <- <-].
Qed.

Lemma plan_query_assigned (request : json) (locals : option json) (plan : query_plan) :
  plan_query request None = (locals, Return plan) ->
  assign_query_type request = Return (plan_query_type plan).
Proof.
  unfold plan_query, assign_query_type, bind, lift, modify, ret.
  destruct (py_get _ "question" _) as [question|e]; cbn [obind]; [|discriminate].
  destruct (resolve_query_type _ _) as [query_type|e]; [|discriminate].
  destruct (effective_limit _) as [limit|e]; [|discriminate].
  destruct (get_query_func _) as [query_func|e]; [|discriminate].
  destruct (call_query_func query_func) as [text params].
  now intros [= _ <-].
Qed.

(** The locals a failed plan leaves tell how far the assignment got. *)
Lemma plan_query_failure (request : json) (locals : option json) (e : exn) :
  plan_query request None = (locals, Raise e) ->
  match locals with
  | None => assign_query_type request = Raise e
  | Some query_type => assign_query_type request = Return query_type
  end.
Proof.
  unfold plan_query, assign_query_type, bind, lift, modify, ret.
  destruct (py_get _ "question" _) as [question|e0]; cbn [obind]; [|now intros [= <- <-]].
  destruct (resolve_query_type _ _) as [query_type|e0]; [|now intros [= <- <-]].
  destruct (effective_limit _) as [limit|e0]; [|now intros [= <- <-]].
  destruct (get_query_func _) as [query_func|e0]; [|now intros [= <- <-]].
  destruct (call_query_func query_func) as [text params]. discriminate.
Qed.

(** Past the plan nothing assigns [query_type] again. *)
Lemma handle_locals (now : string) (request : json) (locals locals' : option json)
    (plan : query_plan) (result : outcome success_body) :
  plan_query request None = (locals, Return plan) ->
  handle now request None = (locals', result) ->
  locals' = locals.
Proof.
  intros Hplan. unfold handle.
  unfold bind at 1. rewrite Hplan.
  unfold bind, lift, ret.
  destruct (run_query _ _ _ _) as [job|e]; [|now intros [= <- _]].
  destruct (analyze_pricing_results _ _) as [a|e]; [|now intros [= <- _]].
  destruct (calculate_pricing_summary _ _ _) as [summary|e]; now intros [= <- _].
Qed.

(** X6.  The 500 envelope, whatever failed: its [error_type] is the class
    name of the exception, and its [query_type] is the value the request
    resolved to if the assignment of [query_type] completed - "unknown"
    only when the exception is the one that assignment itself raised. *)
Theorem X6_failure_names_the_query_type_once_assigned
    (now : string) (request : json) (body : failure_body) :
  pricing_intel_query now request = Http500 body ->
  error_type body = exn_name (error body)
  /\ match assign_query_type request with
     | Return query_type => failed_query_type body = query_type
     | Raise e => failed_query_type body = JStr "unknown" /\ error body = e
     end.
Proof.
  unfold pricing_intel_query.
  destruct (handle now request None) as [locals' [response|e]] eqn:Hhandle; [discriminate|].
  intros [= <-]. split; [reflexivity|]. cbn [failure_envelope failed_query_type error].
  destruct (plan_query request None) as [locals [plan|e']] eqn:Hplan.
  - rewrite (handle_locals _ _ _ _ _ _ Hplan Hhandle).
    rewrite (plan_query_locals _ _ _ Hplan), (plan_query_assigned _ _ _ Hplan).
    reflexivity.
  - unfold handle in Hhandle. unfold bind at 1 in Hhandle. rewrite Hplan in Hhandle.
    injection Hhandle as <- <-.
    pose proof (plan_query_failure _ _ _ Hplan) as Hfailure.
    destruct locals as [query_type|]; rewrite Hfailure; [reflexivity | now split].
Qed.

(** X7.  An exception of the warehouse client (building the client or the
    job, running the query, fetching the rows) becomes the 500 envelope
    with that exception's class name and the planned query type; the
    synthesizer and the summary are not reached. *)
Theorem X7_warehouse_failure_is_reported
    (now : string) (request : json) (locals : option json) (plan : query_plan) (e : exn) :
  plan_query request None = (locals, Return plan) ->
  run_query (plan_sql plan) (plan_params plan) maximum_bytes_billed
            [ ("agent", JStr "pricing_intel"); ("query_type", plan_query_type plan) ]
  = Raise e ->
  pricing_intel_query now request
  = Http500 {| error := e;
               error_type := exn_name e;
               failed_query_type := plan_query_type plan |}.
Proof.
  intros Hplan Hjob.
  pose proof (plan_query_locals _ _ _ Hplan) as ->.
  unfold pricing_intel_query, handle.
  unfold bind at 1. rewrite Hplan.
  unfold bind at 1. unfold lift at 1. rewrite Hjob.
  reflexivity.
Qed.

(** X8.  A [query_type] that is a non-empty array or object is kept by
    the [or], passes the limit conversion and then fails the builder
    lookup: a [list] or [dict] cannot be a [dict] key.  The response is
    the 500 envelope with TypeError, echoing the value. *)
Theorem X8_unhashable_query_type_fails_the_lookup
    (now : string) (fields : gmap string json) (query_type : json) (limit : Z) :
  fields !! "query_type" = Some query_type ->
  truthy query_type = true ->
  is_container query_type = true ->
  effective_limit (JObj fields) = Return limit ->
  pricing_intel_query now (JObj fields)
  = Http500 {| error := TypeError;
               error_type := "TypeError";
               failed_query_type := query_type |}.
Proof.
  intros Hgiven Htrue Hcontainer Hlimit.
  assert (Hplan : plan_query (JObj fields) None = (Some query_type, Raise TypeError)).
  { rewrite plan_query_dict, (resolve_given _ _ _ Hgiven Htrue), Hlimit.
    now destruct query_type. }
  now rewrite (failed_plan_is_a_500 _ _ _ _ Hplan).
Qed.

(** X9.  A 200 response is coherent: [row_count] is the number of rows it
    carries and equals the summary's [total_records]; the limit it echoes
    is the effective one and at most 500; its query type is the one the
    request resolved to; and its insights, recommendations, alerts and
    summary are those of the synthesizer and the summary calculator on
    the rows it carries. *)
Theorem X9_success_response_is_coherent
    (now : string) (request : json) (body : success_body) :
  pricing_intel_query now request = Http200 body ->
  ok_row_count body = length (ok_rows body)
  /\ ok_summary body !! "total_records" = Some (SumCount (ok_row_count body))
  /\ ok_limit body <= 500
  /\ effective_limit (py_or request (JObj ∅)) = Return (ok_limit body)
  /\ assign_query_type request = Return (ok_query_type body)
  /\ analyze_pricing_results (ok_rows body) (ok_query_type body)
     = Return {| insights := ok_insights body;
                 recommendations := ok_recommendations body;
                 alerts := ok_alerts body |}
  /\ calculate_pricing_summary now (ok_rows body) (ok_query_type body)
     = Return (ok_summary body).
Proof.
  unfold pricing_intel_query, handle.
  unfold bind at 1.
  destruct (plan_query request None) as [locals [plan|e]] eqn:Hplan; [|discriminate].
  unfold bind, lift, ret.
  destruct (run_query _ _ _ _) as [job|e]; [|discriminate].
  destruct (analyze_pricing_results _ _) as [a|e] eqn:Ha; [|discriminate].
  destruct (calculate_pricing_summary _ _ _) as [summary|e] eqn:Hsummary; [|discriminate].
  intros [= <-]. cbn [ok_row_count ok_rows ok_summary ok_limit ok_query_type
                       ok_insights ok_recommendations ok_alerts].
  destruct (plan_query_limit _ _ _ Hplan) as [Hlimit _].
  split; [reflexivity|]. split.
  { destruct (calculate_pricing_summary_returns now job.1 (plan_query_type plan))
      as (summary' & Hsummary' & Htotal).
    congruence. }
  split.
  { revert Hlimit. unfold effective_limit.
    destruct (py_get _ _ _) as [requested|e]; cbn [obind]; [|discriminate].
    destruct (py_int requested) as [n|e]; cbn [obind]; [|discriminate].
    intros [= <-]. lia. }
  split; [exact Hlimit|]. split; [exact (plan_query_assigned _ _ _ Hplan)|].
  split; [now destruct a | exact Hsummary].
Qed.

End OrchestratorPaths.

(** ** More on [int()]: a count written out and read back *)

Section IntFacts.
Context {runtime : PyRuntime}.

Lemma scan_digits_uint (d : Decimal.uint) (acc : Z) (ndigits : nat) :
  0 <= acc ->
  scan_digits (NilEmpty.string_of_uint d) false acc ndigits
  = Return (Z.of_nat (Nat.of_uint_acc d (Z.to_nat acc)),
            (ndigits + Decimal.nb_digits d)%nat, "").
Proof.
  revert acc ndigits.
  induction d as [|d IH|d IH|d IH|d IH|d IH|d IH|d IH|d IH|d IH|d IH];
    intros acc ndigits Hacc;
    [ cbn [NilEmpty.string_of_uint scan_digits Nat.of_uint_acc Decimal.nb_digits];
      now rewrite Z2Nat.id, Nat.add_0_r | .. ];
    cbn [NilEmpty.string_of_uint scan_digits Nat.of_uint_acc Decimal.nb_digits];
    change (Ascii.eqb _ "_") with false; cbv iota;
    match goal with
    | |- context [digit_value ?c] =>
        let v := eval vm_compute in (digit_value c) in
        change (digit_value c) with v
    end;
    cbv iota; (rewrite IH by lia);
    rewrite Nat.add_succ_r, Nat.tail_mul_spec; simpl Nat.add;
    repeat f_equal; lia.
Qed.

Lemma string_of_uint_length (d : Decimal.uint) :
  String.length (NilEmpty.string_of_uint d) = Decimal.nb_digits d.
Proof. induction d; simpl; congruence. Qed.

Lemma string_of_uint_ascii (d : Decimal.uint) :
  all_ascii (NilEmpty.string_of_uint d) = true.
Proof. induction d; simpl; auto. Qed.

Lemma to_uint_not_nil (n : nat) : Nat.to_uint n <> Decimal.Nil.
Proof.
  intros Hnil. pose proof (f_equal Nat.of_uint Hnil) as Hzero.
  rewrite DecimalNat.Unsigned.of_to in Hzero. subst n. discriminate Hnil.
Qed.

Lemma int_of_uint_string (d : Decimal.uint) :
  d <> Decimal.Nil ->
  (Decimal.nb_digits d <= str_digits_check_threshold)%nat ->
  int_of_ascii_str (NilEmpty.string_of_uint d) = Return (Z.of_nat (Nat.of_uint d)).
Proof.
  intros Hnil Hshort. unfold int_of_ascii_str.
  destruct d as [|d|d|d|d|d|d|d|d|d|d]; [contradiction | ..];
    cbn [NilEmpty.string_of_uint lstrip];
    match goal with
    | |- context [is_space ?c] => change (is_space c) with false
    end;
    cbv iota beta;
    match type of Hnil with
    | ?u <> _ => pose proof (scan_digits_uint u 0 0 (Z.le_refl 0)) as Hscan
    end;
    cbn [NilEmpty.string_of_uint] in Hscan; rewrite Hscan; clear Hscan;
    cbn [obind Nat.add Z.to_nat];
    change (Nat.of_uint_acc ?u 0) with (Nat.of_uint u);
    cbn [Decimal.nb_digits] in *; cbn [Nat.eqb];
    (replace (str_digits_check_threshold <? _)%nat with false
       by (symmetry; apply Nat.ltb_ge; exact Hshort));
    reflexivity.
Qed.

(** X10.  [int(str(n)) == n]: a count written out in decimal, as the
    synthesizer writes its counts, is what [int()] reads back, provided
    its digits stay within the 640 below which the interpreter's digit
    limit is not consulted.  So a [limit] given as such a string is the
    limit given as that number. *)
Theorem X10_decimal_text_limit_is_read_back (n : nat) (fields : gmap string json) :
  (String.length (str_of_nat n) <= 640)%nat ->
  py_int (JStr (str_of_nat n)) = Return (Z.of_nat n)
  /\ effective_limit (JObj (<["limit" := JStr (str_of_nat n)]> fields))
     = Return (Z.min (Z.of_nat n) 500).
Proof.
  intros Hshort.
  assert (Hint : py_int (JStr (str_of_nat n)) = Return (Z.of_nat n)).
  { unfold py_int, int_of_str, str_of_nat in *.
    rewrite string_of_uint_ascii, int_of_uint_string.
    - now rewrite DecimalNat.Unsigned.of_to.
    - apply to_uint_not_nil.
    - now rewrite <- string_of_uint_length. }
  split; [exact Hint|].
  unfold effective_limit. cbn [py_get obind]. rewrite lookup_insert_eq.
  cbn [default from_option id]. now rewrite Hint.
Qed.

End IntFacts.

(** ** More on the synthesizer and the summary *)

Section SynthesizerBounds.
Context {values : PyValues}.

Lemma adds_ret {A} (x : A) : adds_at_most 0 0 0 (ret x).
Proof. intros s. simpl. lia. Qed.

Lemma adds_lift {A} (o : outcome A) : adds_at_most 0 0 0 (lift o).
Proof. intros s. simpl. lia. Qed.

Lemma adds_bind {A B} (i1 r1 a1 i2 r2 a2 : nat) (m : exec analysis A)
    (k : A -> exec analysis B) :
  adds_at_most i1 r1 a1 m -> (forall x, adds_at_most i2 r2 a2 (k x)) ->
  adds_at_most (i1 + i2) (r1 + r2) (a1 + a2) (bind m k).
Proof.
  intros Hm Hk s. unfold bind. specialize (Hm s).
  destruct (m s) as [s' [x|e]]; simpl in *.
  - specialize (Hk x s'). lia.
  - lia.
Qed.

Lemma adds_when (i r a : nat) (c : bool) (body : exec analysis unit) :
  adds_at_most i r a body -> adds_at_most i r a (when c body).
Proof. intros Hbody s. destruct c; simpl; [apply Hbody | lia]. Qed.

Lemma adds_if {A} (i1 r1 a1 i2 r2 a2 : nat) (c : bool) (m1 m2 : exec analysis A) :
  adds_at_most i1 r1 a1 m1 -> adds_at_most i2 r2 a2 m2 ->
  adds_at_most (Nat.max i1 i2) (Nat.max r1 r2) (Nat.max a1 a2) (if c then m1 else m2).
Proof. intros H1 H2 s. destruct c; [specialize (H1 s) | specialize (H2 s)]; lia. Qed.

Lemma adds_append_insight (s : string) : adds_at_most 1 0 0 (append_insight s).
Proof. intros a. simpl. rewrite length_app. simpl. lia. Qed.

Lemma adds_append_recommendation (s : string) : adds_at_most 0 1 0 (append_recommendation s).
Proof. intros a. simpl. rewrite length_app. simpl. lia. Qed.

Lemma adds_append_alert (s : string) : adds_at_most 0 0 1 (append_alert s).
Proof. intros a. simpl. rewrite length_app. simpl. lia. Qed.

Lemma adds_weaken {A} (i r a i' r' a' : nat) (m : exec analysis A) :
  adds_at_most i r a m -> (i <= i')%nat -> (r <= r')%nat -> (a <= a')%nat ->
  adds_at_most i' r' a' m.
Proof. intros Hm Hi Hr Ha s. specialize (Hm s). lia. Qed.

(** Adds up what the statements of a body can append. *)
Ltac count_body :=
  repeat first
    [ eapply adds_bind; [ | intros ? ]
    | eapply adds_when
    | apply adds_ret
    | apply adds_lift
    | apply adds_append_insight
    | apply adds_append_recommendation
    | apply adds_append_alert
    | eapply adds_if ].

Lemma analyze_competitor_tracking_adds (rows : list (gmap string value)) :
  adds_at_most 3 2 2 (analyze_competitor_tracking rows).
Proof.
  unfold analyze_competitor_tracking. cbv zeta.
  eapply adds_weaken; [count_body | simpl; lia ..].
Qed.

Lemma analyze_campaign_performance_adds (rows : list (gmap string value)) :
  adds_at_most 4 1 1 (analyze_campaign_performance rows).
Proof.
  unfold analyze_campaign_performance.
  eapply adds_weaken; [count_body | simpl; lia ..].
Qed.

Lemma analyze_price_elasticity_adds (rows : list (gmap string value)) :
  adds_at_most 4 4 0 (analyze_price_elasticity rows).
Proof.
  unfold analyze_price_elasticity.
  eapply adds_weaken; [count_body | simpl; lia ..].
Qed.

Lemma analyze_promotional_calendar_adds (rows : list (gmap string value)) :
  adds_at_most 6 2 1 (analyze_promotional_calendar rows).
Proof.
  unfold analyze_promotional_calendar.
  eapply adds_weaken; [count_body | simpl; lia ..].
Qed.

Lemma analyze_rows_adds (rows : list (gmap string value)) (query_type : json) :
  adds_at_most 6 4 2 (analyze_rows rows query_type).
Proof.
  unfold analyze_rows.
  repeat match goal with
         | |- adds_at_most _ _ _ (if ?c then _ else _) => destruct c
         end.
  - eapply adds_weaken; [apply analyze_competitor_tracking_adds | lia ..].
  - eapply adds_weaken; [apply analyze_campaign_performance_adds | lia ..].
  - eapply adds_weaken; [apply analyze_price_elasticity_adds | lia ..].
  - eapply adds_weaken; [apply analyze_promotional_calendar_adds | lia ..].
  - eapply adds_weaken; [apply adds_ret | lia ..].
Qed.

(** With rows, the result is the three lists as the body left them. *)
Lemma analyze_pricing_results_untruncated (rows : list (gmap string value))
    (query_type : json) :
  rows <> [] ->
  analyze_pricing_results rows query_type = Return (run_analysis rows query_type).1.
Proof.
  intros Hrows.
  pose proof (analyze_rows_adds rows query_type empty_analysis) as (Hi & Hr & Ha).
  fold (run_analysis rows query_type) in Hi, Hr, Ha.
  cbn [empty_analysis insights recommendations alerts length Nat.add] in Hi, Hr, Ha.
  rewrite analyze_pricing_results_rows by assumption.
  unfold truncate. rewrite !take_ge by lia.
  now destruct (run_analysis rows query_type).1.
Qed.

(** X12.  The slices of the final [return] never cut anything: no branch
    can append more than 6 insights, 4 recommendations and 2 alerts, so
    with rows the result is the three lists exactly as the rules left
    them. *)
Theorem X12_slices_never_cut (rows : list (gmap string value)) (query_type : json) :
  exists a,
    analyze_pricing_results rows query_type = Return a
    /\ (length (insights a) <= 6)%nat
    /\ (length (recommendations a) <= 4)%nat
    /\ (length (alerts a) <= 2)%nat
    /\ (rows <> [] -> a = (run_analysis rows query_type).1).
Proof.
  destruct rows as [|r rows].
  - exists no_data_analysis. split; [reflexivity|]. simpl.
    repeat split; try lia. contradiction.
  - pose proof (analyze_rows_adds (r :: rows) query_type empty_analysis) as (Hi & Hr & Ha).
    fold (run_analysis (r :: rows) query_type) in Hi, Hr, Ha.
    cbn [empty_analysis insights recommendations alerts length Nat.add] in Hi, Hr, Ha.
    exists (run_analysis (r :: rows) query_type).1.
    split; [now apply analyze_pricing_results_untruncated|]. auto.
Qed.

(** *** Alerts and their recommendations *)

Lemma advised_append_insight (s : string) : preserves advised (append_insight s).
Proof. apply preserves_modify. unfold advised. now intros a Ha. Qed.

Lemma advised_append_recommendation (s : string) :
  preserves advised (append_recommendation s).
Proof.
  apply preserves_modify. unfold advised. intros a Ha. simpl.
  rewrite length_app. lia.
Qed.

(** An alert is appended together with its recommendation; nothing between
    the two appends can raise. *)
Lemma advised_alert_with_recommendation (alert recommendation : string) :
  preserves advised (append_alert alert ;; append_recommendation recommendation)%exec.
Proof.
  intros a Ha. unfold advised in *. simpl. rewrite !length_app. simpl. lia.
Qed.

Ltac walk_advised :=
  repeat first
    [ apply advised_alert_with_recommendation
    | apply preserves_bind_lift; intros ? ?
    | apply preserves_bind; [ | intros ? ]
    | apply preserves_when; intros ?
    | apply preserves_ret
    | match goal with
      | |- preserves _ (if ?c then _ else _) => destruct c
      end
    | apply advised_append_insight
    | apply advised_append_recommendation ].

Lemma analyze_rows_advised (rows : list (gmap string value)) (query_type : json) :
  preserves advised (analyze_rows rows query_type).
Proof.
  unfold analyze_rows, analyze_competitor_tracking, analyze_campaign_performance,
    analyze_price_elasticity, analyze_promotional_calendar.
  cbv zeta. walk_advised.
Qed.

(** X13.  No alert without a recommendation: every alert is appended
    together with a recommendation, so the result never holds more alerts
    than recommendations - also when a later statement raises. *)
Theorem X13_no_alert_without_recommendation
    (rows : list (gmap string value)) (query_type : json) :
  exists a,
    analyze_pricing_results rows query_type = Return a
    /\ (length (alerts a) <= length (recommendations a))%nat
    /\ forall a0,
         (length (alerts a0) <= length (recommendations a0))%nat ->
         (length (alerts (analyze_rows rows query_type a0).1)
          <= length (recommendations (analyze_rows rows query_type a0).1))%nat.
Proof.
  assert (Hbody : forall a0, advised a0 -> advised (analyze_rows rows query_type a0).1).
  { intros a0. apply analyze_rows_advised. }
  destruct rows as [|r rows].
  - exists no_data_analysis. split; [reflexivity|]. split; [simpl; lia | exact Hbody].
  - eexists. split; [now apply analyze_pricing_results_rows|]. split; [|exact Hbody].
    assert (Hrun : advised (run_analysis (r :: rows) query_type).1).
    { apply Hbody. unfold advised. simpl. lia. }
    unfold advised in Hrun. cbn [truncate alerts recommendations].
    rewrite !length_take. lia.
Qed.

End SynthesizerBounds.

Section SynthesizerTypes.
Context {values : PyValues}.

#[local] Arguments str_of_nat : simpl never.
#[local] Arguments String.append !_ _ / : simpl nomatch.

Lemma eq_str_category (query_type : json) (c : Category) :
  query_type <> JStr (category_key c) -> eq_str query_type (category_key c) = false.
Proof.
  intros Hne. destruct query_type; try reflexivity. simpl.
  destruct (String.eqb_spec s (category_key c)); [congruence | reflexivity].
Qed.

(** With rows, the summary is the base summary, updated with the
    category-specific fields if computing them did not raise. *)
Lemma calculate_pricing_summary_rows (now : string) (rows : list (gmap string value))
    (query_type : json) :
  rows <> [] ->
  calculate_pricing_summary now rows query_type
  = Return match summary_fields rows query_type with
           | Return fields => dict_update (base_summary now rows query_type) fields
           | Raise _ => base_summary now rows query_type
           end.
Proof.
  intros Hrows. unfold calculate_pricing_summary.
  destruct rows as [|r rows]; [contradiction|]. simpl negb. cbv iota.
  unfold bind at 1. rewrite try_except_log_returns. unfold get. cbn [snd].
  unfold update_summary, bind, lift, modify. fold (base_summary now (r :: rows) query_type).
  now destruct (summary_fields _ _).
Qed.

(** X11.  The synthesizer and the summary know only the four category
    keys.  For any other query type - the four aliases the builder table
    accepts among them - rows yield no insight, no recommendation and no
    alert, and the summary stays at its three base fields. *)
Theorem X11_other_query_types_get_no_insights
    (now : string) (rows : list (gmap string value)) (query_type : json) :
  rows <> [] ->
  (forall c, query_type <> JStr (category_key c)) ->
  analyze_pricing_results rows query_type = Return empty_analysis
  /\ calculate_pricing_summary now rows query_type
     = Return (base_summary now rows query_type).
Proof.
  intros Hrows Hother.
  pose proof (eq_str_category _ CompetitorTracking (Hother _)) as H1.
  pose proof (eq_str_category _ CampaignPerformance (Hother _)) as H2.
  pose proof (eq_str_category _ PriceElasticity (Hother _)) as H3.
  pose proof (eq_str_category _ PromotionalCalendar (Hother _)) as H4.
  cbn [category_key] in *. split.
  - rewrite analyze_pricing_results_rows by assumption.
    unfold run_analysis, analyze_rows. now rewrite H1, H2, H3, H4.
  - rewrite calculate_pricing_summary_rows by assumption.
    unfold summary_fields. now rewrite H1, H2, H3, H4.
Qed.

(** A comprehension with a test keeps, in order, the items that passed. *)
Lemma ofilter_sublist {A} (p : A -> outcome bool) (l ys : list A) :
  ofilter p l = Return ys ->
  ys `sublist_of` l /\ Forall (fun x => p x = Return true) ys.
Proof.
  revert ys. induction l as [|x l IH]; intros ys; cbn [ofilter].
  - intros [= <-]. split; constructor.
  - destruct (p x) as [b|e] eqn:Hp; cbn [obind]; [|discriminate].
    destruct (ofilter p l) as [zs|e]; cbn [obind]; [|discriminate].
    destruct (IH zs eq_refl) as [Hsub Hall].
    intros [= <-]. destruct b.
    + split; [now constructor | now constructor].
    + split; [now constructor | assumption].
Qed.

Lemma no_data_is_no_rule_message (r : label_rule) (n : nat) :
  rule_message r n <> "Belirtilen kriterlere uygun pricing verisi bulunamadı".
Proof. unfold rule_message. intros Heq. now destruct r. Qed.

(** X14.  The count a rule's message reports is at least 1 and at most
    the number of rows the warehouse returned. *)
Theorem X14_reported_counts_are_within_the_rows
    (rows : list (gmap string value)) (query_type : json) (a : analysis)
    (r : label_rule) (n : nat) :
  analyze_pricing_results rows query_type = Return a ->
  rule_message r n ∈ insights a ++ alerts a ->
  (1 <= n <= length rows)%nat.
Proof.
  intros Ha Hin. destruct rows as [|r0 rows].
  - injection Ha as <-. cbn [no_data_analysis insights alerts app] in Hin.
    apply list_elem_of_singleton in Hin. now apply no_data_is_no_rule_message in Hin.
  - rewrite analyze_pricing_results_rows in Ha by discriminate. injection Ha as <-.
    destruct (truncate_backed _ _ (run_analysis_backed (r0 :: rows) query_type))
      as (Hinsights & Halerts & _).
    rewrite Forall_forall in Hinsights, Halerts.
    assert (Hbacked : backed_message (r0 :: rows) (rule_message r n)).
    { apply elem_of_app in Hin as [Hin | Hin]; auto. }
    destruct (proj1 Hbacked r n eq_refl) as (matching & Hmatching & <- & Hsome).
    apply ofilter_sublist in Hmatching as [Hsub _].
    apply sublist_length in Hsub. lia.
Qed.

(** The keys of the category-specific fields, by category. *)
Lemma summary_fields_names (rows : list (gmap string value)) (query_type : json)
    (fields : list (string * summary_value)) :
  summary_fields rows query_type = Return fields ->
  In fields.*1
     [ [ "unique_competitors"; "unique_markets"; "avg_price_gap"; "competitive_advantages" ];
       [ "unique_campaigns"; "total_revenue"; "total_cost"; "avg_roi" ];
       [ "price_points_analyzed"; "unique_markets"; "avg_elasticity";
         "price_increase_opportunities" ];
       [ "planned_campaigns"; "total_budget"; "avg_expected_uplift"; "unique_markets" ];
       [] ].
Proof.
  unfold summary_fields.
  repeat match goal with
         | |- context [if ?c then _ else _] => destruct c
         end;
    repeat match goal with
           | |- context [obind ?o _] => destruct o; cbn [obind]
           end;
    intros Hfields; try discriminate Hfields;
    injection Hfields as <-; cbn [fmap list_fmap fst]; simpl; tauto.
Qed.

Lemma dict_update_lookup {A} (fields : list (string * A)) (d : gmap string A)
    (key : string) (v : A) :
  NoDup fields.*1 -> (key, v) ∈ fields -> dict_update d fields !! key = Some v.
Proof.
  unfold dict_update. revert d.
  induction fields as [|[k w] fields IH]; intros d Hkeys Hin.
  - now apply elem_of_nil in Hin.
  - cbn [fmap list_fmap fst] in Hkeys. apply NoDup_cons in Hkeys as [Hfresh Hkeys].
    apply elem_of_cons in Hin as [[= -> ->] | Hin]; cbn [foldl fst snd].
    + fold (dict_update (<[k := w]> d) fields).
      rewrite dict_update_lookup_other; [apply lookup_insert_eq|].
      apply Forall_forall. intros [k' w'] Hin' Heq. cbn [fst] in Heq. subst k'.
      apply Hfresh. apply (list_elem_of_fmap_2 fst _ _ Hin').
    + now apply IH.
Qed.

(** X15.  With rows, the summary always carries [total_records],
    [query_type] and [timestamp] as first set, and its category-specific
    fields come all or none: [summary.update] is handed a complete [dict],
    so if computing any one field raises, none is added. *)
Theorem X15_summary_is_all_or_nothing
    (now : string) (rows : list (gmap string value)) (query_type : json) :
  rows <> [] ->
  exists summary,
    calculate_pricing_summary now rows query_type = Return summary
    /\ summary !! "total_records" = Some (SumCount (length rows))
    /\ summary !! "query_type" = Some (SumQueryType query_type)
    /\ summary !! "timestamp" = Some (SumText now)
    /\ match summary_fields rows query_type with
       | Return fields =>
           forall key v, (key, v) ∈ fields -> summary !! key = Some v
       | Raise _ => summary = base_summary now rows query_type
       end.
Proof.
  intros Hrows. eexists. split; [now apply calculate_pricing_summary_rows|].
  destruct (summary_fields rows query_type) as [fields|e] eqn:Hfields.
  - pose proof (summary_fields_names _ _ _ Hfields) as Hnames.
    assert (Hbase : forall key,
               In key ["total_records"; "query_type"; "timestamp"] ->
               Forall (fun kv : string * summary_value => kv.1 <> key) fields).
    { intros key Hkey. apply Forall_forall. intros [k w] Hin Heq.
      cbn [fst] in Heq. subst k.
      apply (list_elem_of_fmap_2 fst) in Hin. cbn [fst] in Hin.
      simpl in Hnames, Hkey.
      repeat match goal with
             | H : _ \/ _ |- _ => destruct H as [H | H]
             | H : False |- _ => destruct H
             end;
        subst; rewrite <- Hnames in Hin; revert Hin;
        apply (bool_decide_unpack _); vm_compute; exact I. }
    rewrite !dict_update_lookup_other by (apply Hbase; simpl; tauto).
    split; [reflexivity|]. split; [reflexivity|]. split; [reflexivity|].
    intros key v Hin. apply dict_update_lookup; [|assumption].
    simpl in Hnames.
    repeat match goal with
           | H : _ \/ _ |- _ => destruct H as [H | H]
           | H : False |- _ => destruct H
           end;
      rewrite <- Hnames; apply (bool_decide_unpack _); vm_compute; exact I.
  - repeat split; reflexivity.
Qed.

End SynthesizerTypes.

(** ** More on the labels: what the filters of the synthesizer select *)

Section LabelExpressions.
Import Sql.

Lemma sql_and_false_l (b : sql_bool) : sql_and (Some false) b = Some false.
Proof. now destruct b as [[]|]. Qed.

Lemma sql_and_false_r (a : sql_bool) : sql_and a (Some false) = Some false.
Proof. now destruct a as [[]|]. Qed.

Lemma sql_and_true (a b : sql_bool) :
  sql_and a b = Some true <-> a = Some true /\ b = Some true.
Proof. destruct a as [[]|], b as [[]|]; simpl; intuition congruence. Qed.

Lemma sql_and_not_true_l (a b : sql_bool) : a <> Some true -> sql_and a b <> Some true.
Proof. rewrite sql_and_true. tauto. Qed.

Lemma sql_case_skip {A} (c : sql_bool) (v : A) (arms : list (sql_bool * A)) (otherwise : A) :
  c <> Some true -> sql_case ((c, v) :: arms) otherwise = sql_case arms otherwise.
Proof. destruct c as [[]|]; [congruence | reflexivity ..]. Qed.

Lemma sql_le_unknown_l (x y : option spec_float) : unknown x -> sql_le x y <> Some true.
Proof. intros [-> | ->]; destruct y as [[]|]; discriminate. Qed.

Lemma sql_le_unknown_r (x y : option spec_float) : unknown y -> sql_le x y <> Some true.
Proof. intros [-> | ->]; destruct x as [[]|]; discriminate. Qed.

(** Splits a label expression into the cases of its conditions. *)
Ltac case_split :=
  unfold sql_case;
  repeat match goal with
         | |- context [match ?c with _ => _ end] => destruct c
         end.

(** X16.  The filters of the synthesizer test [label in str(...)], a
    substring test.  On the labels the four queries compute it is an
    exact one: whatever label a [CASE] expression yields for a column, it
    contains the label a filter of that column looks for only if it is
    that label.  No row is picked up for a label it does not carry. *)
Theorem X16_label_filters_are_exact (label column : string) (r : result_row) (text : string) :
  (label, column) ∈ label_filters ->
  (column, text) ∈ label_columns r ->
  py_in label text = true ->
  text = label.
Proof.
  intros Hfilter Hcolumn.
  unfold label_filters in Hfilter.
  repeat (apply elem_of_cons in Hfilter as [[= -> ->] | Hfilter]);
    [ .. | now apply elem_of_nil in Hfilter ];
    destruct r as [r|r|r|r]; cbn [label_columns] in Hcolumn;
    repeat (apply elem_of_cons in Hcolumn as [Hcolumn | Hcolumn]);
    try (now apply elem_of_nil in Hcolumn);
    try discriminate Hcolumn;
    injection Hcolumn as ->;
    unfold competitive_position, promotional_environment, value_proposition,
      campaign_performance_tier, acquisition_effectiveness, retention_performance,
      pricing_strategy, price_optimization_status, revenue_opportunity_level,
      sensitivity_classification, campaign_priority_tier, competitive_intensity,
      budget_scale, duration_strategy;
    case_split; vm_compute; intros Hin; first [reflexivity | discriminate Hin].
Qed.

(** The filters the rule table names are among them. *)
Lemma rule_filters_listed (r : label_rule) : (rule_label r, rule_column r) ∈ label_filters.
Proof. destruct r; apply (bool_decide_unpack _); vm_compute; exact I. Qed.

(** *** Thresholds *)

(** The mantissa comparison of [SFcompare] is the one of [Pos.compare]. *)
Lemma compare_cont_eq (c : comparison) (p q : positive) :
  PosDef.Pos.compare_cont c p q = Pos.compare_cont c p q.
Proof. revert c q. induction p; intros c [q|q|]; simpl; auto. Qed.

Lemma compare_cont_Eq (p q : positive) :
  PosDef.Pos.compare_cont Eq p q = (p ?= q)%positive.
Proof. apply compare_cont_eq. Qed.

(** Decides the comparisons of exponents and mantissas a goal mentions. *)
Ltac compare_cases :=
  repeat match goal with
         | |- context [PosDef.Pos.compare_cont Eq ?a ?b] =>
             rewrite (compare_cont_Eq a b)
         | |- context [Z.compare ?a ?b] =>
             destruct (Z.compare_spec a b); try (exfalso; lia)
         | |- context [Pos.compare ?a ?b] =>
             let H := fresh "H" in
             destruct (Pos.compare_spec a b) as [H|H|H];
             [ apply (f_equal Zpos) in H | apply Pos2Z.pos_lt_pos in H ..];
             try (exfalso; lia)
         end;
  try reflexivity; try discriminate.

Lemma float_15 : float_of_Z 15 = S754_finite false 8444249301319680 (-49).
Proof. vm_compute. reflexivity. Qed.

Lemma float_10 : float_of_Z 10 = S754_finite false 5629499534213120 (-49).
Proof. vm_compute. reflexivity. Qed.

Lemma float_minus_15 : float_of_Z (-15) = S754_finite true 8444249301319680 (-49).
Proof. vm_compute. reflexivity. Qed.

Lemma float_minus_30 : float_of_Z (-30) = S754_finite true 8444249301319680 (-48).
Proof. vm_compute. reflexivity. Qed.

(** Where a value stands against 15 decides where it stands against -30,
    -15 and 10. *)
Lemma above_fifteen (x : spec_float) :
  SFltb (float_of_Z 15) x = true ->
  SFleb x (float_of_Z (-30)) = false
  /\ SFleb x (float_of_Z (-15)) = false
  /\ SFleb x (float_of_Z 15) = false
  /\ SFleb (float_of_Z 10) x = true.
Proof.
  rewrite float_15, float_10, float_minus_15, float_minus_30.
  unfold SFltb, SFleb, SFcompare.
  destruct x as [[]|[]| |[] m e]; try discriminate; try (intros _; repeat split; reflexivity).
  intros Habove. repeat split; revert Habove; compare_cases.
Qed.

Lemma not_above_fifteen (x : spec_float) :
  SFltb (float_of_Z 15) x = false ->
  SFleb (float_of_Z 10) x = true ->
  SFleb (float_of_Z (-15)) x = true /\ SFleb x (float_of_Z 15) = true.
Proof.
  rewrite float_15, float_10, float_minus_15.
  unfold SFltb, SFleb, SFcompare.
  destruct x as [[]|[]| |[] m e]; try discriminate.
  intros Habove Hten. split; revert Habove Hten; compare_cases.
Qed.

(** X17.  The price-disadvantage arm tests [price_gap_pct >= 10.0], but it
    stands after the parity arm, which takes every gap from -15 to 15.
    So a row is labelled a price disadvantage exactly when its gap is
    above 15: the threshold of 10 never decides. *)
Theorem X17_disadvantage_starts_above_the_parity_band (r : competitor_row) :
  competitive_position r = "🔴 Price Disadvantage"
  <-> exists x, price_gap_pct r = Some x /\ SFltb (float_of_Z 15) x = true.
Proof.
  unfold competitive_position, SuvariPricingMetrics.PRICE_ADVANTAGE_THRESHOLD,
    SuvariPricingMetrics.PRICE_DISADVANTAGE_THRESHOLD, sql_between, sql_ge, lit.
  destruct (price_gap_pct r) as [x|]; cbn [sql_le].
  - destruct (SFltb (float_of_Z 15) x) eqn:Habove.
    + destruct (above_fifteen x Habove) as (H30 & H15 & Hband & H10).
      rewrite H30, H15, Hband, H10, !sql_and_false_l, sql_and_false_r.
      cbn [sql_case]. split; [eauto | reflexivity].
    + split; [|intros (y & [= <-] & Hy); congruence].
      destruct (SFleb (float_of_Z 10) x) eqn:H10.
      * destruct (not_above_fifteen x Habove H10) as [Hlow Hhigh].
        rewrite Hlow, Hhigh. cbn [sql_and]. case_split; discriminate.
      * case_split; discriminate.
  - split; [|intros (y & [=] & _)]. case_split; discriminate.
Qed.

(** X18.  A measure that is NULL (or a NaN) makes every comparison of its
    [CASE] not TRUE, so the row gets the [ELSE] label.  For three columns
    that is a label the synthesizer acts on: a campaign without ROI counts
    as a poor performer, a product without elasticity as one of low price
    sensitivity, a promotion without duration as a flash campaign.  A
    competitor row without price gap is in neutral position. *)
Theorem X18_unknown_measures_take_the_else_label :
  (forall r, unknown (price_gap_pct r) -> competitive_position r = "📊 Neutral Position")
  /\ (forall r, unknown (roi_pct r) ->
        campaign_performance_tier r = "📉 Poor Campaign Performance")
  /\ (forall r, unknown (elasticity_coefficient r) ->
        sensitivity_classification r = "💎 Low Price Sensitivity")
  /\ (forall r, campaign_duration_days r = None -> duration_strategy r = "🚀 Flash Campaign").
Proof.
  split; [|split; [|split]].
  - intros r Hgap. unfold competitive_position, sql_between, sql_ge.
    rewrite !sql_case_skip;
      auto using sql_and_not_true_l, sql_le_unknown_l, sql_le_unknown_r.
  - intros r Hroi. unfold campaign_performance_tier, sql_ge.
    rewrite !sql_case_skip; auto using sql_le_unknown_r.
  - intros r He. unfold sensitivity_classification, sql_ge.
    rewrite !sql_case_skip; auto using sql_le_unknown_r.
  - intros r Hdays. unfold duration_strategy. now rewrite Hdays.
Qed.

End LabelExpressions.

(** ** The synthesizer on rows the warehouse labelled *)

Section LabelledRowFacts.
Import Sql.
Context {values : PyValues}.

Lemma rows_with_labelled {A} (label column : string) (label_of : A -> string)
    (test : A -> bool) (rows : list (gmap string value)) (rs : list A) :
  text_cells_print_themselves ->
  (forall r, py_in label (label_of r) = test r) ->
  Forall2 (labelled column label_of) rows rs ->
  exists matching,
    rows_with label column rows = Return matching
    /\ length matching = count_if test rs.
Proof.
  intros Hstr Htest Hrows. unfold rows_with.
  induction Hrows as [|row r rows rs Hrow Hrows (matching & Hmatching & Hlength)].
  - now exists [].
  - cbn [ofilter]. unfold has_label at 1. rewrite Hrow, Hstr. cbn [obind].
    rewrite Hmatching, Htest. cbn [obind count_if].
    destruct (test r); eexists; (split; [reflexivity|]); simpl; congruence.
Qed.

Lemma count_if_split {A} (test1 test2 both : A -> bool) (l : list A) :
  (forall x, both x = test1 x || test2 x) ->
  (forall x, test1 x && test2 x = false) ->
  (count_if test1 l + count_if test2 l = count_if both l)%nat.
Proof.
  intros Hboth Hapart. induction l as [|x l IH]; [reflexivity|].
  cbn [count_if]. rewrite Hboth. specialize (Hapart x).
  destruct (test1 x), (test2 x); try discriminate; simpl; lia.
Qed.

(** The two high-impact tiers, by uplift and budget. *)
Lemma priority_tier_filters (r : promotion_row) :
  py_in "🚀 High Impact Low Cost" (campaign_priority_tier r) = high_uplift r && low_cost r
  /\ py_in "⭐ High Impact Campaign" (campaign_priority_tier r)
     = high_uplift r && negb (low_cost r).
Proof.
  unfold campaign_priority_tier, high_uplift, low_cost.
  destruct (sql_ge (expected_uplift_pct r) _) as [[]|];
    destruct (sql_le (budget_usd r) _) as [[]|]; cbn [sql_and sql_case];
    try (split; reflexivity);
    unfold sql_case;
    repeat match goal with
           | |- context [match ?c with _ => _ end] => destruct c
           end; split; reflexivity.
Qed.

(** X19.  On rows that carry the priority tier the promotional-calendar
    query computed, the total of high-impact campaigns is the number of
    campaigns whose expected uplift is at least 40: the two lists the
    synthesizer concatenates are disjoint, so no campaign is counted
    twice, and the total is in the result. *)
Theorem X19_promotional_total_counts_high_uplift
    (rows : list (gmap string value)) (campaigns : list promotion_row) :
  text_cells_print_themselves ->
  rows <> [] ->
  Forall2 (labelled "campaign_priority_tier" campaign_priority_tier) rows campaigns ->
  exists a,
    analyze_pricing_results rows (JStr "promotional_calendar") = Return a
    /\ high_impact_total_message (count_if high_uplift campaigns) ∈ insights a.
Proof.
  intros Hstr Hrows Hlabelled.
  destruct (rows_with_labelled "🚀 High Impact Low Cost" "campaign_priority_tier"
              campaign_priority_tier (fun r => high_uplift r && low_cost r)
              rows campaigns Hstr)
    as (hilc & Hhilc & Hhilc_count); [apply priority_tier_filters | assumption |].
  destruct (rows_with_labelled "⭐ High Impact Campaign" "campaign_priority_tier"
              campaign_priority_tier (fun r => high_uplift r && negb (low_cost r))
              rows campaigns Hstr)
    as (hi & Hhi & Hhi_count); [apply priority_tier_filters | assumption |].
  eexists. split; [now apply analyze_pricing_results_rows|].
  replace (count_if high_uplift campaigns) with (length (hi ++ hilc)).
  - unfold run_analysis, analyze_rows. cbn [eq_str String.eqb Ascii.eqb Bool.eqb].
    cbn [truncate insights].
    now apply high_impact_total_appended.
  - rewrite length_app, Hhi_count, Hhilc_count.
    apply count_if_split; intros r; destruct (high_uplift r), (low_cost r); reflexivity.
Qed.

End LabelledRowFacts.

(** ** The summary on the reference cells *)

Section ReferenceFacts.
Import Reference.

(** [0 + v1 + ... + None + ...] does not get past the [None]. *)
Lemma sum_from_none (vs : list cell) (acc : cell) :
  CNone ∈ vs -> exists e, sum_from acc vs = Raise e.
Proof.
  revert acc. induction vs as [|v vs IH]; intros acc Hin.
  - now apply elem_of_nil in Hin.
  - cbn [sum_from]. apply elem_of_cons in Hin as [<- | Hin].
    + exists TypeError. now destruct acc.
    + destruct (add acc v) as [acc'|e]; cbn [obind]; [now apply IH | now exists e].
Qed.

(** X20.  The competitor summary sums [r.get('price_gap_pct', 0)] over all
    rows: the default covers a missing key, not a NULL.  One row whose
    price gap is NULL makes the sum raise, and the summary comes back
    with its three base fields and none of the category's. *)
Theorem X20_null_price_gap_voids_the_category_fields
    (now : string) (rows : list (gmap string value)) (row : gmap string value) :
  row ∈ rows ->
  row !! "price_gap_pct" = Some CNone ->
  calculate_pricing_summary now rows (JStr "competitor_tracking")
  = Return (base_summary now rows (JStr "competitor_tracking")).
Proof.
  intros Hin Hgap.
  assert (Hrows : rows <> []) by (intros ->; now apply elem_of_nil in Hin).
  rewrite calculate_pricing_summary_rows by assumption.
  assert (Hmean : exists e, mean_of "price_gap_pct" rows = Raise e).
  { unfold mean_of. destruct rows as [|r0 rows]; [contradiction|]. cbn [nonempty].
    destruct (sum_from_none
                (map (fun r => @row_get cells r "price_gap_pct" (CInt 0)) (r0 :: rows))
                (CInt 0)) as [e Hsum].
    - apply list_elem_of_In, in_map_iff. exists row.
      split; [|now apply list_elem_of_In].
      exact (f_equal (default (CInt 0)) Hgap).
    - exists e.
      match goal with
      | |- obind ?o _ = _ =>
          change o with (sum_from (CInt 0)
                           (map (fun r => @row_get cells r "price_gap_pct" (CInt 0))
                                (r0 :: rows)))
      end.
      now rewrite Hsum. }
  destruct Hmean as [e Hmean].
  unfold summary_fields. cbn [eq_str String.eqb Ascii.eqb Bool.eqb].
  destruct (unique_count "competitor" rows); cbn [obind]; [|reflexivity].
  destruct (unique_count "market" rows); cbn [obind]; [|reflexivity].
  now rewrite Hmean.
Qed.

End ReferenceFacts.

(** ** Statements that return *)

Section Finishing.
Context {S : Type}.

Lemma finishes_ret (Q : S -> Prop) : (forall s, Q s) -> finishes Q (ret tt).
Proof. intros HQ s. exists s. split; [reflexivity | apply HQ]. Qed.

Lemma finishes_modify (Q : S -> Prop) (f : S -> S) :
  (forall s, Q (f s)) -> finishes Q (modify f).
Proof. intros HQ s. exists (f s). split; [reflexivity | apply HQ]. Qed.

Lemma finishes_bind (Q : S -> Prop) (m : exec S unit) (k : unit -> exec S unit) :
  finishes (fun _ => True) m -> finishes Q (k tt) -> finishes Q (bind m k).
Proof.
  intros Hm Hk s. unfold bind. destruct (Hm s) as (s' & -> & _). apply Hk.
Qed.

Lemma finishes_bind_lift {A} (Q : S -> Prop) (o : outcome A) (a : A) (k : A -> exec S unit) :
  o = Return a -> finishes Q (k a) -> finishes Q (bind (lift o) k).
Proof. intros -> Hk s. apply Hk. Qed.

Lemma finishes_when (Q : S -> Prop) (c : bool) (body : exec S unit) :
  (c = true -> finishes Q body) -> (c = false -> forall s, Q s) ->
  finishes Q (when c body).
Proof.
  destruct c; intros Hbody Hskip; [now apply Hbody | now apply finishes_ret, Hskip].
Qed.

End Finishing.

(** ** Rows of the expected types, on the reference cells *)

Section TypedRows.
Import Reference.

(** Every count from 1 to 500 converts to a non-zero float. *)
Lemma small_counts_convert (n : nat) :
  (1 <= n <= 500)%nat ->
  exists f, float_of_int (Z.of_nat n) = Return f /\ is_zero f = false.
Proof.
  intros Hn.
  assert (Hall : forallb (fun k => match float_of_int (Z.of_nat k) with
                                   | Return f => negb (is_zero f)
                                   | Raise _ => false
                                   end) (seq 1 500) = true)
    by (vm_compute; reflexivity).
  rewrite forallb_forall in Hall. specialize (Hall n).
  destruct (float_of_int (Z.of_nat n)) as [f|e].
  - exists f. split; [reflexivity|]. apply negb_true_iff, Hall, in_seq. lia.
  - discriminate Hall. apply in_seq. lia.
Qed.

Lemma sum_from_floats (vs : list cell) (a : spec_float) :
  forallb is_float vs = true ->
  exists t, sum_from (CFloat a) vs = Return (CFloat t).
Proof.
  revert a. induction vs as [|v vs IH]; intros a Hvs; [now exists a|].
  cbn [forallb] in Hvs. apply andb_prop in Hvs as [Hv Hvs].
  destruct v; try discriminate Hv. cbn [sum_from add arith number_of to_float obind].
  now apply IH.
Qed.

Lemma sum_of_floats (vs : list cell) :
  vs <> [] -> forallb is_float vs = true ->
  exists t, sum_from (CInt 0) vs = Return (CFloat t).
Proof.
  destruct vs as [|v vs]; [contradiction|]. intros _ Hvs.
  cbn [forallb] in Hvs. apply andb_prop in Hvs as [Hv Hvs].
  destruct v; try discriminate Hv.
  change (sum_from (CInt 0) (CFloat x :: vs))
    with (sum_from (CFloat (SFadd 53 1024 (S754_zero false) x)) vs).
  now apply sum_from_floats.
Qed.

Lemma mean_of_floats (t : spec_float) (n : nat) :
  (1 <= n <= 500)%nat ->
  exists avg, truediv (CFloat t) (CInt (Z.of_nat n)) = Return (CFloat avg).
Proof.
  intros Hn. destruct (small_counts_convert n Hn) as (f & Hf & Hzero).
  unfold truediv. cbn [number_of to_float obind]. rewrite Hf. cbn [obind].
  rewrite Hzero. eauto.
Qed.

Lemma float_column_get (column : string) (r : gmap string value) :
  float_column column r -> exists x, @row_get cells r column (CInt 0) = CFloat x.
Proof.
  unfold float_column, row_get.
  destruct (r !! column) as [[| | |x|]|]; try contradiction. now exists x.
Qed.

Lemma column_floats (column : string) (rows : list (gmap string value)) :
  Forall (float_column column) rows ->
  forallb is_float (map (fun r => @row_get cells r column (CInt 0)) rows) = true.
Proof.
  induction 1 as [|r rows Hr _ IH]; [reflexivity|].
  cbn [map forallb]. destruct (float_column_get _ _ Hr) as [x ->]. exact IH.
Qed.

(** The sum of a FLOAT64 column: the [int] 0 of no rows, or a float. *)
Lemma sum_of_column (column : string) (rows : list (gmap string value)) :
  Forall (float_column column) rows ->
  sum_from (CInt 0) (map (fun r => @row_get cells r column (CInt 0)) rows)
  = Return (CInt 0) /\ rows = []
  \/ exists t,
       sum_from (CInt 0) (map (fun r => @row_get cells r column (CInt 0)) rows)
       = Return (CFloat t) /\ rows <> [].
Proof.
  intros Hrows. destruct rows as [|r rows]; [left; now split|]. right.
  destruct (sum_of_floats (map (fun r => @row_get cells r column (CInt 0)) (r :: rows)))
    as [t Ht]; [discriminate | now apply column_floats |].
  exists t. split; [exact Ht | discriminate].
Qed.

Lemma mean_of_column (column : string) (rows : list (gmap string value)) :
  rows <> [] -> (length rows <= 500)%nat ->
  Forall (float_column column) rows ->
  exists avg, mean_of column rows = Return (CFloat avg).
Proof.
  intros Hsome Hlength Hrows.
  destruct (sum_of_column column rows Hrows) as [[_ ->] | (t & Ht & _)]; [contradiction|].
  destruct (mean_of_floats t (length rows)) as [avg Havg].
  { destruct rows; [contradiction | simpl in *; lia]. }
  exists avg. unfold mean_of. destruct rows as [|r0 rows]; [contradiction|]. cbn [nonempty].
  change (py_sum ?vs) with (sum_from (CInt 0) vs).
  change (v_int ?z) with (CInt z).
  rewrite Ht. cbn [obind]. exact Havg.
Qed.

End TypedRows.

Section TypedSummary.
Import Reference.

Lemma measure_column (c : Category) (column : string) (rows : list (gmap string value)) :
  Forall (fun r => Forall (fun measure => float_column measure r) (summary_measures c)) rows ->
  In column (summary_measures c) ->
  Forall (float_column column) rows.
Proof.
  intros Hrows Hin. eapply Forall_impl; [exact Hrows|].
  intros r Hr. rewrite Forall_forall in Hr. now apply Hr, list_elem_of_In.
Qed.

(** A comprehension whose test cannot raise. *)
Lemma ofilter_returns {A} (p : A -> outcome bool) (l : list A) :
  Forall (fun x => exists b, p x = Return b) l -> exists ys, ofilter p l = Return ys.
Proof.
  induction 1 as [|x l [b Hb] _ [ys IH]]; [now exists []|].
  cbn [ofilter]. rewrite Hb. cbn [obind]. rewrite IH. cbn [obind]. eauto.
Qed.

Lemma advantages_return (rows : list (gmap string value)) :
  Forall (float_column "price_gap_pct") rows ->
  exists matching,
    ofilter (fun r => @py_le cells (@row_get cells r "price_gap_pct" (CInt 0)) (CInt (-15)))
            rows
    = Return matching.
Proof.
  intros Hrows. apply ofilter_returns. eapply Forall_impl; [exact Hrows|].
  intros r Hr. destruct (float_column_get _ _ Hr) as [x ->]. eexists. reflexivity.
Qed.

Lemma increases_return (rows : list (gmap string value)) :
  exists matching,
    ofilter (fun r => @py_eq cells (@row_get cells r "recommendation" CNone)
                                   (CStr "Increase Price"))
            rows
    = Return matching.
Proof.
  apply ofilter_returns. apply Forall_forall. intros r _. eexists. reflexivity.
Qed.

(** X21.  On rows whose measures are FLOAT64 and not NULL - at most 500
    of them, the most the handler asks for - computing the category's
    fields does not raise: the summary has all seven fields, the three
    base ones and the category's four. *)
Theorem X21_typed_rows_get_the_full_summary
    (c : Category) (now : string) (rows : list (gmap string value)) :
  rows <> [] ->
  (length rows <= 500)%nat ->
  Forall (fun r => Forall (fun measure => float_column measure r) (summary_measures c)) rows ->
  exists summary fields,
    summary_fields rows (JStr (category_key c)) = Return fields
    /\ length fields = 4%nat
    /\ calculate_pricing_summary now rows (JStr (category_key c)) = Return summary
    /\ size summary = 7%nat
    /\ forall key v, (key, v) ∈ fields -> summary !! key = Some v.
Proof.
  intros Hsome Hlength Hrows.
  assert (Hmean : forall column, In column (summary_measures c) ->
                    exists avg, mean_of column rows = Return (CFloat avg)).
  { intros column Hin. apply mean_of_column; try assumption.
    now apply (measure_column c). }
  assert (Hsum : forall column, In column (summary_measures c) ->
                   exists t, @py_sum cells (map (fun r => @row_get cells r column (CInt 0)) rows)
                             = Return (CFloat t)).
  { intros column Hin.
    destruct (sum_of_column column rows (measure_column c column rows Hrows Hin))
      as [[_ ->] | (t & Ht & _)]; [contradiction | now exists t]. }
  assert (Hfields : exists fields,
             summary_fields rows (JStr (category_key c)) = Return fields
             /\ In fields.*1
                  [ [ "unique_competitors"; "unique_markets"; "avg_price_gap";
                      "competitive_advantages" ];
                    [ "unique_campaigns"; "total_revenue"; "total_cost"; "avg_roi" ];
                    [ "price_points_analyzed"; "unique_markets"; "avg_elasticity";
                      "price_increase_opportunities" ];
                    [ "planned_campaigns"; "total_budget"; "avg_expected_uplift";
                      "unique_markets" ] ]).
  { unfold summary_fields, unique_count.
    destruct c; cbn [category_key summary_measures] in *;
      cbn [eq_str String.eqb Ascii.eqb Bool.eqb]; cbn [py_distinct cells obind].
    - destruct (Hmean "price_gap_pct") as [avg ->]; [simpl; tauto|]. cbn [obind].
      destruct (advantages_return rows) as [matching Hmatching];
        [apply (measure_column CompetitorTracking); [assumption | simpl; tauto]|].
      change (v_int ?z) with (CInt z). rewrite Hmatching. cbn [obind].
      eexists. split; [reflexivity | simpl; tauto].
    - change (v_int ?z) with (CInt z).
      destruct (Hsum "revenue_generated") as [revenue ->]; [simpl; tauto|]. cbn [obind].
      destruct (Hsum "campaign_cost") as [cost ->]; [simpl; tauto|]. cbn [obind].
      destruct (Hmean "roi_pct") as [avg ->]; [simpl; tauto|]. cbn [obind].
      eexists. split; [reflexivity | simpl; tauto].
    - destruct (Hmean "elasticity_coefficient") as [avg ->]; [simpl; tauto|]. cbn [obind].
      destruct (increases_return rows) as [matching Hmatching].
      change (v_none) with CNone. change (v_str ?s) with (CStr s).
      rewrite Hmatching. cbn [obind].
      eexists. split; [reflexivity | simpl; tauto].
    - change (v_int ?z) with (CInt z).
      destruct (Hsum "budget_usd") as [budget ->]; [simpl; tauto|]. cbn [obind].
      destruct (Hmean "expected_uplift_pct") as [avg ->]; [simpl; tauto|]. cbn [obind].
      eexists. split; [reflexivity | simpl; tauto]. }
  destruct Hfields as (fields & Hfields & Hnames).
  exists (dict_update (base_summary now rows (JStr (category_key c))) fields), fields.
  split; [exact Hfields|].
  assert (Hlen : length fields = 4%nat).
  { rewrite <- (length_fmap fst). simpl in Hnames.
    repeat match goal with
           | H : _ \/ _ |- _ => destruct H as [H | H]
           | H : False |- _ => destruct H
           end; now rewrite <- Hnames. }
  split; [exact Hlen|]. split.
  { rewrite calculate_pricing_summary_rows by assumption. now rewrite Hfields. }
  split.
  - destruct fields as [|[k1 v1] [|[k2 v2] [|[k3 v3] [|[k4 v4] [|]]]]]; try discriminate Hlen.
    cbn [fmap list_fmap fst] in Hnames. simpl in Hnames.
    repeat match goal with
           | H : _ \/ _ |- _ => destruct H as [H | H]
           | H : False |- _ => destruct H
           end; injection Hnames as <- <- <- <-; vm_compute; reflexivity.
  - intros key v Hin. apply dict_update_lookup; [|assumption].
    simpl in Hnames.
    repeat match goal with
           | H : _ \/ _ |- _ => destruct H as [H | H]
           | H : False |- _ => destruct H
           end; rewrite <- Hnames; apply (bool_decide_unpack _); vm_compute; exact I.
Qed.

End TypedSummary.

Section TypedAnalysis.
Import Reference.

Lemma rows_with_text (label column : string) (rows : list (gmap string value)) :
  Forall (text_or_null column) rows ->
  exists matching, rows_with label column rows = Return matching.
Proof.
  unfold rows_with.
  induction 1 as [|r rows Hr _ (matching & IH)]; [now exists []|].
  cbn [ofilter]. unfold has_label at 1. unfold text_or_null in Hr.
  destruct (r !! column) as [[| | | |s]|]; try contradiction;
    cbn [py_str cells str_of_cell obind]; rewrite IH; cbn [obind]; eauto.
Qed.

(** The non-NULL price gaps of shaped rows are floats, no more than the rows. *)
Lemma shaped_price_gaps (rows : list (gmap string value)) :
  Forall competitor_shaped rows ->
  let price_gaps :=
    omap (fun r : gmap string value =>
            match r !! "price_gap_pct" with
            | Some v => if py_is_none v then None else Some v
            | None => None
            end) rows in
  forallb is_float price_gaps = true /\ (length price_gaps <= length rows)%nat.
Proof.
  cbv zeta. induction 1 as [|r rows (_ & _ & _ & Hr) _ [IHfloat IHlength]].
  - split; [reflexivity | apply Nat.le_refl].
  - cbn [omap list_omap].
    match type of IHfloat with
    | forallb _ ?l = true => set (price_gaps := l) in *; clearbody price_gaps
    end.
    destruct (r !! "price_gap_pct") as [[| | |x|]|]; try contradiction;
      simpl;
      (split; [assumption | first [exact (le_S _ _ IHlength) | exact (le_n_S _ _ IHlength)]]).
Qed.

Lemma float_gap_is_kept (rows : list (gmap string value)) (r : gmap string value)
    (x : spec_float) :
  r ∈ rows -> r !! "price_gap_pct" = Some (CFloat x) ->
  nonempty (omap (fun r : gmap string value =>
                    match r !! "price_gap_pct" with
                    | Some v => if py_is_none v then None else Some v
                    | None => None
                    end) rows) = true.
Proof.
  intros Hin Hx.
  assert (Hkept : CFloat x ∈ omap (fun r : gmap string value =>
                                     match r !! "price_gap_pct" with
                                     | Some v => if py_is_none v then None else Some v
                                     | None => None
                                     end) rows).
  { apply list_elem_of_omap. exists r. split; [assumption|].
    cbv beta. destruct (r !! "price_gap_pct") as [v|]; [|discriminate Hx].
    injection Hx as ->. reflexivity. }
  destruct (omap _ rows); [now apply elem_of_nil in Hkept | reflexivity].
Qed.


Lemma sublist_shaped (P : gmap string value -> Prop) (rows matching : list (gmap string value)) :
  matching `sublist_of` rows -> Forall P rows -> Forall P matching.
Proof.
  intros Hsub Hrows. rewrite Forall_forall in *. intros r Hr.
  apply Hrows. exact (elem_of_sublist _ _ _ Hr Hsub).
Qed.

(** [max] over rows whose key is a float returns one of them. *)
Lemma max_loop_member (column : string) (items : list (gmap string value))
    (maxitem : gmap string value) (y : spec_float) :
  Forall (float_column column) items ->
  exists top,
    max_loop (fun x => @row_get cells x column (CInt 0)) items maxitem (CFloat y) = Return top
    /\ top ∈ maxitem :: items.
Proof.
  revert maxitem y. induction items as [|item items IH]; intros maxitem y Hitems.
  - exists maxitem. split; [reflexivity | apply list_elem_of_here].
  - apply Forall_cons in Hitems as [Hitem Hitems].
    destruct (float_column_get _ _ Hitem) as [x Hx].
    cbn [max_loop]. rewrite Hx. cbn [py_gt cells ordered number_of obind].
    destruct (match compare_numbers (NFloat x) (NFloat y) with
              | Some c => is_gt c
              | None => false
              end).
    + destruct (IH item x Hitems) as (top & Htop & Hin).
      exists top. split; [exact Htop|].
      apply elem_of_cons in Hin as [-> | Hin].
      * apply list_elem_of_further, list_elem_of_here.
      * now do 2 apply list_elem_of_further.
    + destruct (IH maxitem y Hitems) as (top & Htop & Hin).
      exists top. split; [exact Htop|].
      apply elem_of_cons in Hin as [-> | Hin].
      * apply list_elem_of_here.
      * now do 2 apply list_elem_of_further.
Qed.

Lemma py_max_member (column : string) (items : list (gmap string value)) :
  items <> [] ->
  Forall (float_column column) items ->
  exists top,
    py_max (fun x => @row_get cells x column (CInt 0)) items = Return top /\ top ∈ items.
Proof.
  destruct items as [|first rest]; [contradiction|]. intros _ Hitems.
  apply Forall_cons in Hitems as [Hfirst Hrest].
  destruct (float_column_get _ _ Hfirst) as [y Hy].
  cbn [py_max]. rewrite Hy. now apply max_loop_member.
Qed.

(** A positive float is no zero: the guard [total_cost > 0] keeps the
    division from a zero divisor. *)
Lemma positive_is_not_zero (x : spec_float) :
  ordered is_gt (CFloat x) (CInt 0) = Return true -> is_zero x = false.
Proof. destruct x as [[]|[]| |[] m e]; first [discriminate | reflexivity]. Qed.

(** Appends, guarded or not, return. *)
Ltac appends_finish :=
  repeat first
    [ apply finishes_when; [ intros _ | intros _ ? ; exact I ]
    | apply finishes_bind
    | apply finishes_modify; intros ?; exact I ].

Ltac filter_returns Hshaped label column :=
  let matching := fresh "matching" in
  let Hmatching := fresh "Hmatching" in
  match type of Hshaped with
  | Forall _ ?rows =>
      destruct (rows_with_text label column rows) as [matching Hmatching];
      [ eapply Forall_impl;
        [ exact Hshaped
        | unfold competitor_shaped, campaign_shaped, elasticity_shaped, promotion_shaped;
          tauto ]
      | eapply finishes_bind_lift; [exact Hmatching|] ]
  end.

Lemma analyze_competitor_tracking_finishes (rows : list (gmap string value)) :
  (length rows <= 500)%nat ->
  Forall competitor_shaped rows ->
  finishes (fun a =>
              (exists r x, r ∈ rows /\ r !! "price_gap_pct" = Some (CFloat x)) ->
              exists s, last (insights a) = Some s /\ average_gap_insight s)
           (analyze_competitor_tracking rows).
Proof.
  intros Hlength Hshaped.
  unfold analyze_competitor_tracking. cbv zeta.
  destruct (shaped_price_gaps rows Hshaped) as [Hfloats Hcount].
  filter_returns Hshaped "💰 Strong Price Advantage" "competitive_position".
  filter_returns Hshaped "🔴 Price Disadvantage" "competitive_position".
  apply finishes_bind; [appends_finish|].
  apply finishes_bind; [appends_finish|].
  filter_returns Hshaped "💎 Premium Value Proposition" "value_proposition".
  apply finishes_bind; [appends_finish|].
  filter_returns Hshaped "⚠️ Competitor Promotional Pressure" "promotional_environment".
  apply finishes_bind; [appends_finish|].
  match goal with
  | |- finishes _ (when (nonempty ?l) _) => set (price_gaps := l) in *
  end.
  apply finishes_when.
  - intros Hsome.
    destruct (sum_of_floats price_gaps) as [total Htotal];
      [now destruct price_gaps | assumption |].
    destruct (mean_of_floats total (length price_gaps)) as [average Haverage].
    { destruct price_gaps; [discriminate Hsome|].
      split; [simpl; lia | exact (Nat.le_trans _ _ _ Hcount Hlength)]. }
    eapply finishes_bind_lift; [exact Htotal|].
    eapply finishes_bind_lift; [exact Haverage|].
    eapply finishes_bind_lift; [reflexivity|].
    match goal with
    | |- finishes _ (if ?c then _ else _) => destruct c
    end.
    + eapply finishes_bind_lift; [reflexivity|].
      eapply finishes_bind_lift; [reflexivity|].
      apply finishes_modify. intros a0 _. cbn [insights]. rewrite last_snoc.
      eexists. split; [reflexivity|]. eexists. left. reflexivity.
    + eapply finishes_bind_lift; [reflexivity|].
      match goal with
      | |- finishes _ (if ?c then _ else _) => destruct c
      end;
        (eapply finishes_bind_lift; [reflexivity|]);
        apply finishes_modify; intros a0 _; cbn [insights]; rewrite last_snoc;
        (eexists; split; [reflexivity|]); eexists; [right; left | right; right];
        reflexivity.
  - intros Hnone a0 (r & x & Hin & Hx).
    unfold price_gaps in Hnone. rewrite (float_gap_is_kept rows r x Hin Hx) in Hnone.
    discriminate Hnone.
Qed.

Lemma analyze_campaign_performance_finishes (rows : list (gmap string value)) :
  Forall campaign_shaped rows ->
  finishes (fun _ => True) (analyze_campaign_performance rows).
Proof.
  intros Hshaped. unfold analyze_campaign_performance.
  destruct (rows_with_text "🏆 Excellent Campaign ROI" "campaign_performance_tier" rows)
    as [excellent Hexcellent];
    [eapply Forall_impl; [exact Hshaped | unfold campaign_shaped; tauto]|].
  eapply finishes_bind_lift; [exact Hexcellent|].
  filter_returns Hshaped "📉 Poor Campaign Performance" "campaign_performance_tier".
  apply finishes_bind.
  { apply finishes_when; [intros Hsome | intros _ ?; exact I].
    assert (Hexcellent_shaped : Forall campaign_shaped excellent).
    { apply (sublist_shaped _ rows); [|assumption].
      unfold rows_with in Hexcellent. now apply ofilter_sublist in Hexcellent. }
    destruct (py_max_member "roi_pct" excellent) as (top & Htop & Hin).
    { now destruct excellent. }
    { eapply Forall_impl; [exact Hexcellent_shaped | unfold campaign_shaped; tauto]. }
    rewrite Forall_forall in Hexcellent_shaped.
    destruct (Hexcellent_shaped top Hin) as (_ & _ & _ & Hname & Hroi & _).
    eapply finishes_bind_lift; [exact Htop|].
    unfold text_column, float_column in Hname, Hroi. unfold row_getitem.
    destruct (top !! "campaign_name") as [[| | | |name]|]; try contradiction;
      destruct (top !! "roi_pct") as [[| | |roi|]|]; try contradiction;
      (eapply finishes_bind_lift; [reflexivity|]);
      (eapply finishes_bind_lift; [reflexivity|]);
      (eapply finishes_bind_lift; [reflexivity|]);
      (eapply finishes_bind_lift; [reflexivity|]);
      apply finishes_modify; intros ?; exact I. }
  apply finishes_bind; [appends_finish|].
  filter_returns Hshaped "🎯 Efficient Customer Acquisition" "acquisition_effectiveness".
  apply finishes_bind; [appends_finish|].
  filter_returns Hshaped "🔁 Excellent Customer Retention" "retention_performance".
  apply finishes_bind; [appends_finish|].
  assert (Hrevenue : Forall (float_column "revenue_generated") rows)
    by (eapply Forall_impl; [exact Hshaped | unfold campaign_shaped; tauto]).
  assert (Hcost : Forall (float_column "campaign_cost") rows)
    by (eapply Forall_impl; [exact Hshaped | unfold campaign_shaped; tauto]).
  change (py_sum ?vs) with (sum_from (CInt 0) vs).
  change (v_int ?z) with (CInt z).
  destruct (sum_of_column _ rows Hrevenue) as [[Hrev ->] | (revenue & Hrev & Hsome)].
  - eapply finishes_bind_lift; [reflexivity|].
    eapply finishes_bind_lift; [reflexivity|].
    eapply finishes_bind_lift; [reflexivity|].
    apply finishes_ret. intros ?; exact I.
  - destruct (sum_of_column _ rows Hcost) as [[_ ->] | (cost & Hcst & _)]; [contradiction|].
    eapply finishes_bind_lift; [exact Hrev|].
    eapply finishes_bind_lift; [exact Hcst|].
    destruct (ordered is_gt (CFloat cost) (CInt 0)) as [positive|e] eqn:Hpositive;
      [|discriminate Hpositive].
    eapply finishes_bind_lift; [exact Hpositive|].
    apply finishes_when; [intros -> | intros _ ?; exact I].
    apply positive_is_not_zero in Hpositive.
    eapply finishes_bind_lift.
    { cbn [py_truediv cells truediv number_of to_float obind]. rewrite Hpositive. reflexivity. }
    eapply finishes_bind_lift; [reflexivity|].
    eapply finishes_bind_lift; [reflexivity|].
    eapply finishes_bind_lift; [reflexivity|].
    apply finishes_modify. intros ?; exact I.
Qed.

Lemma analyze_price_elasticity_finishes (rows : list (gmap string value)) :
  Forall elasticity_shaped rows ->
  finishes (fun _ => True) (analyze_price_elasticity rows).
Proof.
  intros Hshaped. unfold analyze_price_elasticity.
  filter_returns Hshaped "📈 Strong Price Increase Opportunity" "pricing_strategy".
  filter_returns Hshaped "💰 Under-priced Product" "price_optimization_status".
  apply finishes_bind; [appends_finish|].
  apply finishes_bind; [appends_finish|].
  filter_returns Hshaped "🚀 High Revenue Impact Potential" "revenue_opportunity_level".
  apply finishes_bind; [appends_finish|].
  filter_returns Hshaped "💎 Low Price Sensitivity" "sensitivity_classification".
  appends_finish.
Qed.

Lemma analyze_promotional_calendar_finishes (rows : list (gmap string value)) :
  Forall promotion_shaped rows ->
  finishes (fun _ => True) (analyze_promotional_calendar rows).
Proof.
  intros Hshaped. unfold analyze_promotional_calendar.
  filter_returns Hshaped "🚀 High Impact Low Cost" "campaign_priority_tier".
  filter_returns Hshaped "⭐ High Impact Campaign" "campaign_priority_tier".
  apply finishes_bind; [appends_finish|].
  apply finishes_bind; [appends_finish|].
  filter_returns Hshaped "⚔️ Competitive Battleground" "competitive_intensity".
  apply finishes_bind; [appends_finish|].
  assert (Hbudget : Forall (float_column "budget_usd") rows)
    by (eapply Forall_impl; [exact Hshaped | unfold promotion_shaped; tauto]).
  change (py_sum ?vs) with (sum_from (CInt 0) vs).
  change (v_int ?z) with (CInt z).
  assert (Hrest : forall total : cell,
             (exists t, total = CFloat t) \/ total = CInt 0 ->
             finishes (fun _ => True)
               (let! major_investments :=
                  lift (rows_with "💰 Major Campaign Investment" "budget_scale" rows) in
                let! budget_text := lift (py_format total (FmtFixed true 0)) in
                append_insight ("💰 Toplam planlanan kampanya bütçesi: $" +:+ budget_text) ;;
                when (nonempty major_investments)
                  (append_insight ("💰 " +:+ str_of_nat (length major_investments)
                                   +:+ " major investment kampanyası planlandı")) ;;
                let! flash_campaigns :=
                  lift (rows_with "🚀 Flash Campaign" "duration_strategy" rows) in
                let! extended_campaigns :=
                  lift (rows_with "📅 Extended Campaign Period" "duration_strategy" rows) in
                when (nonempty flash_campaigns)
                  (append_insight ("🚀 " +:+ str_of_nat (length flash_campaigns)
                                   +:+ " flash kampanya planlandı")) ;;
                when (nonempty extended_campaigns)
                  (append_insight ("📅 " +:+ str_of_nat (length extended_campaigns)
                                   +:+ " uzun dönemli kampanya planlandı")))%exec).
  { intros total Htotal.
    filter_returns Hshaped "💰 Major Campaign Investment" "budget_scale".
    destruct Htotal as [[t ->] | ->];
      (eapply finishes_bind_lift; [reflexivity|]);
      (apply finishes_bind; [appends_finish|]);
      (apply finishes_bind; [appends_finish|]);
      filter_returns Hshaped "🚀 Flash Campaign" "duration_strategy";
      filter_returns Hshaped "📅 Extended Campaign Period" "duration_strategy";
      appends_finish. }
  destruct (sum_of_column _ rows Hbudget) as [[Hsum _] | (budget & Hsum & _)];
    (eapply finishes_bind_lift; [exact Hsum|]); apply Hrest; eauto.
Qed.

(** The body of the [try], by category. *)
Lemma analyze_rows_finishes (c : Category) (rows : list (gmap string value)) :
  (length rows <= 500)%nat ->
  Forall (shaped c) rows ->
  finishes (fun _ => True) (analyze_rows rows (JStr (category_key c))).
Proof.
  intros Hlength Hshaped. destruct c; cbn [shaped] in Hshaped.
  - intros s. destruct (analyze_competitor_tracking_finishes rows Hlength Hshaped s)
      as (s' & Hs' & _). now exists s'.
  - now apply analyze_campaign_performance_finishes.
  - now apply analyze_price_elasticity_finishes.
  - now apply analyze_promotional_calendar_finishes.
Qed.


(** X22.  On rows of the expected types - labels that are text, measures
    that are FLOAT64 - the body of the synthesizer's [try] runs to its
    end for each of the four categories: its [except] clause is not
    entered, no rule is skipped, and the result is the lists as the full
    body left them.  In the campaign branch the guard [total_cost > 0]
    keeps the division from a zero divisor. *)
Theorem X22_shaped_rows_are_analysed_to_the_end
    (c : Category) (rows : list (gmap string value)) :
  rows <> [] ->
  (length rows <= 500)%nat ->
  Forall (shaped c) rows ->
  exists a,
    run_analysis rows (JStr (category_key c)) = (a, Return tt)
    /\ analyze_pricing_results rows (JStr (category_key c)) = Return a.
Proof.
  intros Hsome Hlength Hshaped.
  destruct (analyze_rows_finishes c rows Hlength Hshaped empty_analysis) as (a & Ha & _).
  exists a. split; [exact Ha|].
  rewrite analyze_pricing_results_untruncated by assumption.
  unfold run_analysis. now rewrite Ha.
Qed.

(** X23.  Competitor rows of the expected types - at most 500 of them,
    the most the handler asks for - of which at least one has a price gap
    always get an average-gap insight - one of its three wordings - and
    it is the last insight of the result. *)
Theorem X23_priced_rows_end_with_the_average_gap (rows : list (gmap string value)) :
  (length rows <= 500)%nat ->
  Forall competitor_shaped rows ->
  (exists r x, r ∈ rows /\ r !! "price_gap_pct" = Some (CFloat x)) ->
  exists a s,
    analyze_pricing_results rows (JStr "competitor_tracking") = Return a
    /\ last (insights a) = Some s
    /\ average_gap_insight s.
Proof.
  intros Hlength Hshaped Hpriced.
  assert (Hsome : rows <> []).
  { destruct Hpriced as (r & _ & Hin & _). intros ->. now apply elem_of_nil in Hin. }
  destruct (analyze_competitor_tracking_finishes rows Hlength Hshaped empty_analysis)
    as (a & Ha & Hlast).
  destruct (Hlast Hpriced) as (s & Hs & Haverage).
  exists a, s. split; [|now split].
  rewrite analyze_pricing_results_untruncated by assumption.
  unfold run_analysis.
  change (analyze_rows rows (JStr "competitor_tracking"))
    with (analyze_competitor_tracking rows).
  now rewrite Ha.
Qed.

End TypedAnalysis.
(** ** The model at work *)

Section Examples.
Import Reference.
#[local] Existing Instance sample_warehouse.

(** The classifier on ASCII questions does not depend on the runtime. *)
Lemma detect_query_intent_ascii (r1 r2 : PyRuntime) (s : string) :
  all_ascii s = true ->
  @detect_query_intent r1 (JStr s) = @detect_query_intent r2 (JStr s).
Proof.
  intros Hascii. rewrite !detect_query_intent_text. unfold str_lower.
  now rewrite Hascii.
Qed.

Example classify_samples :
  map detect_query_intent
      [ JStr "kampanya"; JStr "What is the PRICE gap?"; JStr "budget plan";
        JStr "Demand forecast"; JStr "hello"; JInt 0; JInt 5 ]
  = [ Return "campaign_performance"; Return "competitor_tracking";
      Return "promotional_calendar"; Return "price_elasticity";
      Return "competitor_tracking"; Return "competitor_tracking";
      Raise AttributeError ].
Proof. vm_compute. reflexivity. Qed.

Example int_samples :
  map py_int [ JStr " 12 "; JStr "1_000"; JStr "-5"; JStr "abc"; JStr "1__0"; JStr "";
               JNull; JBool true; JFloat (float_of_Z (-31)); JFloat S754_nan;
               JFloat (S754_infinity false); JArr [] ]
  = [ Return 12; Return 1000; Return (-5); Raise ValueError; Raise ValueError;
      Raise ValueError; Raise TypeError; Return 1; Return (-31); Raise ValueError;
      Raise OverflowError; Raise TypeError ].
Proof. vm_compute. reflexivity. Qed.

(** A row of the wrong shape stops the body; what was appended stays. *)
Example partial_analysis :
  run_analysis [advantage_row; disadvantage_row; malformed_row] (JStr "competitor_tracking")
  = ({| insights := [ "💰 1 kategoride güçlü fiyat avantajımız var";
                      "💎 1 kategoride premium değer önerisi sunuyoruz" ];
        recommendations :=
          [ "Fiyat dezavantajı olan kategorilerde strateji revizyonu yapın";
            "Rakip promosyonlarına karşı hızlı response stratejileri geliştirin" ];
        alerts := [ "🔴 1 kategoride fiyat dezavantajımız bulunuyor";
                    "⚠️ 1 kategoride rakip promosyon baskısı var" ] |},
     Raise TypeError).
Proof. vm_compute. reflexivity. Qed.

Example full_analysis :
  analyze_pricing_results [advantage_row; disadvantage_row] (JStr "competitor_tracking")
  = Return
      {| insights := [ "💰 1 kategoride güçlü fiyat avantajımız var";
                       "💎 1 kategoride premium değer önerisi sunuyoruz";
                       "⚖️ Rakiplerle ortalama fiyat paritesi: %-4.0" ];
         recommendations :=
           [ "Fiyat dezavantajı olan kategorilerde strateji revizyonu yapın";
             "Rakip promosyonlarına karşı hızlı response stratejileri geliştirin" ];
         alerts := [ "🔴 1 kategoride fiyat dezavantajımız bulunuyor";
                     "⚠️ 1 kategoride rakip promosyon baskısı var" ] |}.
Proof. vm_compute. reflexivity. Qed.

(** *** C1 *)

(** The question is about campaigns, the [query_type] is unknown: the
    handler plans the competitor-tracking query, not the campaign one the
    classification of the question selects. *)
Lemma C1_counterexample_unknown_type_ignores_question :
  let request : json :=
    JObj (list_to_map [ ("question", JStr "kampanya"); ("query_type", JStr "foo") ]) in
  ("foo" ∉ recognized_aliases)
  /\ obind (detect_query_intent (JStr "kampanya")) (fun intent => get_query_func (JStr intent))
     = Return sql_campaign_performance
  /\ exists locals plan,
       plan_query request None = (locals, Return plan)
       /\ plan_query_func plan = sql_competitor_tracking
       /\ plan_sql plan = CompetitorTrackingQuery
       /\ Return (plan_query_func plan)
          <> obind (detect_query_intent (JStr "kampanya"))
                   (fun intent => get_query_func (JStr intent)).
Proof.
  cbv zeta. split.
  - apply (bool_decide_unpack _). vm_compute. exact I.
  - split; [vm_compute; reflexivity|].
    eexists _, _. split; [vm_compute; reflexivity|].
    repeat split. vm_compute. discriminate.
Qed.

Lemma C1_witness_unknown_type :
  let fields : gmap string json :=
    list_to_map [ ("question", JStr "kampanya"); ("query_type", JStr "foo") ] in
  plan_query (JObj fields) None
  = (Some (JStr "foo"),
     Return {| plan_query_type := JStr "foo";
               plan_limit := 100;
               plan_query_func := sql_competitor_tracking;
               plan_sql := CompetitorTrackingQuery;
               plan_params :=
                 [ {| param_name := "limit"; param_type := "INT64";
                      param_value := Some 100 |} ] |}).
Proof.
  intros fields.
  refine (proj2 (proj2 (C1_unrecognized_query_type_gets_default_builder fields "foo" _ _ _))
                100 _).
  - vm_compute. reflexivity.
  - discriminate.
  - apply (bool_decide_unpack _). vm_compute. exact I.
  - vm_compute. reflexivity.
Defined.

(** *** C2 *)

Lemma C2_witness_limits :
  let request : json :=
    JObj (list_to_map [ ("question", JStr "budget plan"); ("limit", JInt 10000) ]) in
  effective_limit (py_or request (JObj ∅)) = Return 500
  /\ effective_limit (JObj (<["limit" := JInt (-5)]> ∅)) = Return (-5)
  /\ effective_limit (JObj (delete "limit" ∅)) = Return 100.
Proof.
  intros request. split.
  - refine (proj1 (proj2 (proj2 (proj2 (proj2 (C2_effective_limit ∅)))) request
                         (Some (JStr "promotional_calendar"))
                         {| plan_query_type := JStr "promotional_calendar";
                            plan_limit := 500;
                            plan_query_func := sql_promotional_calendar;
                            plan_sql := PromotionalCalendarQuery;
                            plan_params :=
                              [ {| param_name := "limit"; param_type := "INT64";
                                   param_value := Some 500 |} ] |} _)).
    vm_compute. reflexivity.
  - split.
    + exact (proj1 (proj2 (proj2 (C2_effective_limit ∅)))).
    + exact (proj1 (proj2 (proj2 (proj2 (C2_effective_limit ∅))))).
Defined.

(** *** C5 *)

(** One planned campaign, of neither high-impact tier: the total insight
    is there all the same and reports a count of zero. *)
Lemma C5_counterexample_total_of_zero :
  [planned_campaign] <> []
  /\ rows_with "🚀 High Impact Low Cost" "campaign_priority_tier" [planned_campaign]
     = Return []
  /\ rows_with "⭐ High Impact Campaign" "campaign_priority_tier" [planned_campaign]
     = Return []
  /\ analyze_pricing_results [planned_campaign] (JStr "promotional_calendar")
     = Return {| insights := [ "⭐ Toplam 0 yüksek etkili kampanya planlandı";
                               "💰 Toplam planlanan kampanya bütçesi: $15,000" ];
                 recommendations := [];
                 alerts := [] |}.
Proof.
  split; [discriminate|]. repeat split; vm_compute; reflexivity.
Qed.

Lemma C5_witness_counts :
  let rows := [advantage_row; disadvantage_row; malformed_row] in
  exists matching,
    rule_rows price_disadvantages rows = Return matching
    /\ length matching = 1%nat /\ 1%nat <> O.
Proof.
  intros rows.
  refine (proj1 (C5_guarded_rules_report_matching_rows rows (JStr "competitor_tracking")
                   {| insights := [ "💰 1 kategoride güçlü fiyat avantajımız var";
                                    "💎 1 kategoride premium değer önerisi sunuyoruz" ];
                      recommendations :=
                        [ "Fiyat dezavantajı olan kategorilerde strateji revizyonu yapın";
                          "Rakip promosyonlarına karşı hızlı response stratejileri geliştirin" ];
                      alerts := [ "🔴 1 kategoride fiyat dezavantajımız bulunuyor";
                                  "⚠️ 1 kategoride rakip promosyon baskısı var" ] |}
                   _ _)
                price_disadvantages 1%nat _).
  - discriminate.
  - vm_compute. reflexivity.
  - vm_compute. do 2 apply list_elem_of_further. apply list_elem_of_here.
Defined.

(** *** C7 *)

Lemma C7_witness_malformed_row_still_200 :
  exists body,
    pricing_intel_query sample_now (JObj {[ "question" := JStr "rakip fiyat" ]})
    = Http200 body
    /\ ok_rows body = [advantage_row; disadvantage_row; malformed_row].
Proof.
  assert (Hplan :
            plan_query (JObj {[ "question" := JStr "rakip fiyat" ]}) None
            = (Some (JStr "competitor_tracking"),
               Return {| plan_query_type := JStr "competitor_tracking";
                         plan_limit := 100;
                         plan_query_func := sql_competitor_tracking;
                         plan_sql := CompetitorTrackingQuery;
                         plan_params :=
                           [ {| param_name := "limit"; param_type := "INT64";
                                param_value := Some 100 |} ] |})).
  { vm_compute. reflexivity. }
  pose proof (proj2 (proj2 (@C7_synthesis_and_summary_never_raise
                              ascii_runtime cells sample_warehouse sample_now [] JNull))
                _ _ _ ([advantage_row; disadvantage_row; malformed_row], tt) Hplan eq_refl)
    as (body & Hbody & Hrows & _).
  exists body. split; [exact Hbody | exact Hrows].
Defined.

(** The request of the witness, evaluated: the row with a textual price gap
    costs the numeric insight and the category fields of the summary, not
    the response. *)
Example malformed_row_response :
  pricing_intel_query sample_now (JObj {[ "question" := JStr "rakip fiyat" ]})
  = Http200
      {| ok_query_type := JStr "competitor_tracking";
         ok_limit := 100;
         ok_summary :=
           list_to_map [ ("total_records", SumCount 3);
                         ("query_type", SumQueryType (JStr "competitor_tracking"));
                         ("timestamp", SumText sample_now) ];
         ok_insights := [ "💰 1 kategoride güçlü fiyat avantajımız var";
                          "💎 1 kategoride premium değer önerisi sunuyoruz" ];
         ok_recommendations :=
           [ "Fiyat dezavantajı olan kategorilerde strateji revizyonu yapın";
             "Rakip promosyonlarına karşı hızlı response stratejileri geliştirin" ];
         ok_alerts := [ "🔴 1 kategoride fiyat dezavantajımız bulunuyor";
                        "⚠️ 1 kategoride rakip promosyon baskısı var" ];
         ok_row_count := 3;
         ok_rows := [advantage_row; disadvantage_row; malformed_row];
         ok_metadata := tt |}.
Proof. reflexivity. Qed.

(** *** C9 *)

(** The question is the number 5, the limit the text "abc".  [int()]
    rejects the limit with ValueError, but it is not reached: [.lower()]
    of the classifier fails first, and the envelope names AttributeError
    and the query type "unknown", not the conversion's exception. *)
Lemma C9_counterexample_numeric_question :
  let fields : gmap string json :=
    list_to_map [ ("question", JInt 5); ("limit", JStr "abc") ] in
  fields !! "limit" = Some (JStr "abc")
  /\ py_int (JStr "abc") = Raise ValueError
  /\ pricing_intel_query sample_now (JObj fields)
     = Http500 {| error := AttributeError;
                  error_type := "AttributeError";
                  failed_query_type := JStr "unknown" |}
  /\ forall query_type,
       pricing_intel_query sample_now (JObj fields)
       <> Http500 {| error := ValueError;
                     error_type := exn_name ValueError;
                     failed_query_type := query_type |}.
Proof.
  cbv zeta.
  assert (Hresponse :
            pricing_intel_query sample_now
              (JObj (list_to_map [ ("question", JInt 5); ("limit", JStr "abc") ]))
            = Http500 {| error := AttributeError;
                         error_type := "AttributeError";
                         failed_query_type := JStr "unknown" |}).
  { apply (failed_plan_is_a_500 _ _ None AttributeError).
    rewrite plan_query_dict. reflexivity. }
  split; [reflexivity|].
  split; [reflexivity|].
  split; [exact Hresponse|].
  intros query_type. rewrite Hresponse. discriminate.
Qed.

Lemma C9_witness_text_and_null :
  pricing_intel_query sample_now (JObj {[ "limit" := JStr "abc" ]})
  = Http500 {| error := ValueError;
               error_type := "ValueError";
               failed_query_type := JStr "competitor_tracking" |}
  /\ pricing_intel_query sample_now (JObj {[ "limit" := JNull ]})
     = Http500 {| error := TypeError;
                  error_type := "TypeError";
                  failed_query_type := JStr "competitor_tracking" |}.
Proof.
  split.
  - refine (proj1 (proj2 (proj2 (C9_rejected_limit_is_a_failure sample_now
                                   {[ "limit" := JStr "abc" ]} (JStr "abc") ValueError _ _)))
                  _ _);
      vm_compute; reflexivity.
  - refine (proj1 (proj2 (proj2 (C9_rejected_limit_is_a_failure sample_now
                                   {[ "limit" := JNull ]} JNull TypeError _ _)))
                  _ _);
      vm_compute; reflexivity.
Defined.

(** *** C10 *)

Lemma C10_witness_classified_request :
  exists intent f,
    JStr "promotional_calendar" = JStr intent
    /\ detect_query_intent (JStr "budget plan") = Return intent
    /\ query_functions !! intent = Some f
    /\ get_query_func (JStr "promotional_calendar") = Return f.
Proof.
  refine (proj2 (proj2 C10_classified_intent_has_a_builder)
            (JObj {[ "question" := JStr "budget plan" ]}) (JStr "budget plan") JNull
            (JStr "promotional_calendar") _ _ _);
    vm_compute; reflexivity.
Defined.

(** *** The further properties at work *)

Lemma X1_witness_marketing_plan :
  detect_query_intent (JStr "Marketing plan") = Return "competitor_tracking"
  /\ pattern_hits (str_lower "Marketing plan") "market|pazar" = true.
Proof.
  apply (X1_marketing_questions_are_competitor_tracking "Marketing plan").
  vm_compute. reflexivity.
Defined.

Lemma X2_witness_kar_marji :
  detect_query_intent (JStr "kar marji") = Return "competitor_tracking"
  \/ detect_query_intent (JStr "kar marji") = Return "campaign_performance".
Proof.
  apply (X2_kar_never_selects_price_elasticity "kar marji").
  vm_compute. reflexivity.
Defined.

Lemma X3_witness_null_body :
  pricing_intel_query sample_now JNull = pricing_intel_query sample_now (JObj ∅)
  /\ plan_query JNull None
     = (Some (JStr "competitor_tracking"),
        Return {| plan_query_type := JStr "competitor_tracking";
                  plan_limit := 100;
                  plan_query_func := sql_competitor_tracking;
                  plan_sql := CompetitorTrackingQuery;
                  plan_params :=
                    [ {| param_name := "limit"; param_type := "INT64";
                         param_value := Some 100 |} ] |}).
Proof.
  apply (X3_falsy_request_is_the_empty_request sample_now JNull). reflexivity.
Defined.

Lemma X4_witness_array_body :
  pricing_intel_query sample_now (JArr [JStr "rakip"])
  = Http500 {| error := AttributeError;
               error_type := "AttributeError";
               failed_query_type := JStr "unknown" |}.
Proof.
  apply (X4_non_object_body_fails_before_query_type sample_now (JArr [JStr "rakip"]));
    reflexivity.
Defined.

Lemma X5_witness_numeric_question :
  pricing_intel_query sample_now (JObj {[ "question" := JInt 5 ]})
  = Http500 {| error := AttributeError;
               error_type := "AttributeError";
               failed_query_type := JStr "unknown" |}.
Proof.
  apply (X5_question_of_wrong_type_fails_before_query_type
           sample_now {[ "question" := JInt 5 ]} (JInt 5));
    vm_compute; reflexivity.
Defined.

Lemma X6_witness_rejected_limit :
  let body := {| error := ValueError;
                 error_type := "ValueError";
                 failed_query_type := JStr "competitor_tracking" |} in
  error_type body = exn_name (error body)
  /\ match assign_query_type (JObj {[ "limit" := JStr "abc" ]}) with
     | Return query_type => failed_query_type body = query_type
     | Raise e => failed_query_type body = JStr "unknown" /\ error body = e
     end.
Proof.
  intros body.
  apply (X6_failure_names_the_query_type_once_assigned
           sample_now (JObj {[ "limit" := JStr "abc" ]}) body).
  reflexivity.
Defined.

Lemma X7_witness_negative_limit :
  pricing_intel_query sample_now (JObj {[ "limit" := JInt (-5) ]})
  = Http500 {| error := OtherException "BadRequest";
               error_type := "BadRequest";
               failed_query_type := JStr "competitor_tracking" |}.
Proof.
  apply (X7_warehouse_failure_is_reported
           sample_now (JObj {[ "limit" := JInt (-5) ]}) (Some (JStr "competitor_tracking"))
           {| plan_query_type := JStr "competitor_tracking";
              plan_limit := -5;
              plan_query_func := sql_competitor_tracking;
              plan_sql := CompetitorTrackingQuery;
              plan_params :=
                [ {| param_name := "limit"; param_type := "INT64";
                     param_value := Some (-5) |} ] |}
           (OtherException "BadRequest")).
  - vm_compute. reflexivity.
  - reflexivity.
Defined.

Lemma X8_witness_array_query_type :
  pricing_intel_query sample_now (JObj {[ "query_type" := JArr [JStr "price_elasticity"] ]})
  = Http500 {| error := TypeError;
               error_type := "TypeError";
               failed_query_type := JArr [JStr "price_elasticity"] |}.
Proof.
  apply (X8_unhashable_query_type_fails_the_lookup
           sample_now {[ "query_type" := JArr [JStr "price_elasticity"] ]}
           (JArr [JStr "price_elasticity"]) 100);
    vm_compute; reflexivity.
Defined.

Lemma X9_witness_competitor_response :
  exists body,
    pricing_intel_query sample_now (JObj {[ "question" := JStr "rakip fiyat" ]})
    = Http200 body
    /\ ok_row_count body = 3%nat
    /\ ok_summary body !! "total_records" = Some (SumCount 3)
    /\ ok_limit body <= 500.
Proof.
  destruct (X9_success_response_is_coherent sample_now _ _ malformed_row_response)
    as (Hcount & Htotal & Hlimit & _).
  eexists. split; [exact malformed_row_response|].
  split; [exact Hcount|]. split; [exact Htotal | exact Hlimit].
Defined.

Lemma X10_witness_limit_250 :
  py_int (JStr (str_of_nat 250)) = Return (Z.of_nat 250)
  /\ effective_limit (JObj (<["limit" := JStr (str_of_nat 250)]> ∅))
     = Return (Z.min (Z.of_nat 250) 500).
Proof.
  apply (X10_decimal_text_limit_is_read_back 250 ∅). simpl. lia.
Defined.

Lemma X11_witness_alias :
  get_query_func (JStr "competitor_analysis") = Return sql_competitor_tracking
  /\ analyze_pricing_results [advantage_row; disadvantage_row] (JStr "competitor_analysis")
     = Return empty_analysis
  /\ calculate_pricing_summary sample_now [advantage_row; disadvantage_row]
                               (JStr "competitor_analysis")
     = Return (base_summary sample_now [advantage_row; disadvantage_row]
                            (JStr "competitor_analysis")).
Proof.
  split; [vm_compute; reflexivity|].
  apply (@X11_other_query_types_get_no_insights cells
           sample_now [advantage_row; disadvantage_row] (JStr "competitor_analysis")).
  - discriminate.
  - intros c. destruct c; discriminate.
Defined.

Lemma X14_witness_one_disadvantage :
  (1 <= 1 <= length [advantage_row; disadvantage_row])%nat.
Proof.
  apply (@X14_reported_counts_are_within_the_rows cells
           [advantage_row; disadvantage_row] (JStr "competitor_tracking")
           {| insights := [ "💰 1 kategoride güçlü fiyat avantajımız var";
                            "💎 1 kategoride premium değer önerisi sunuyoruz";
                            "⚖️ Rakiplerle ortalama fiyat paritesi: %-4.0" ];
              recommendations :=
                [ "Fiyat dezavantajı olan kategorilerde strateji revizyonu yapın";
                  "Rakip promosyonlarına karşı hızlı response stratejileri geliştirin" ];
              alerts := [ "🔴 1 kategoride fiyat dezavantajımız bulunuyor";
                          "⚠️ 1 kategoride rakip promosyon baskısı var" ] |}
           price_disadvantages 1%nat).
  - vm_compute. reflexivity.
  - vm_compute. do 3 apply list_elem_of_further. apply list_elem_of_here.
Defined.

Lemma X15_witness_competitor_summary :
  exists summary,
    calculate_pricing_summary sample_now [advantage_row; disadvantage_row]
                              (JStr "competitor_tracking")
    = Return summary
    /\ summary !! "total_records" = Some (SumCount 2)
    /\ summary !! "query_type" = Some (SumQueryType (JStr "competitor_tracking"))
    /\ summary !! "timestamp" = Some (SumText sample_now).
Proof.
  destruct (@X15_summary_is_all_or_nothing cells
              sample_now [advantage_row; disadvantage_row] (JStr "competitor_tracking"))
    as (summary & Hsummary & Htotal & Htype & Htime & _); [discriminate|].
  exists summary. repeat split; assumption.
Defined.

Lemma X16_witness_flash_campaign :
  let r := {| Sql.expected_uplift_pct := Some (float_of_Z 25);
              Sql.budget_usd := Some (float_of_Z 8000);
              Sql.competitive_response := Some "Low";
              Sql.discount_type := Some "Percentage";
              Sql.discount_value := Some (float_of_Z 10);
              Sql.campaign_duration_days := Some 3 |} in
  Sql.duration_strategy r = "🚀 Flash Campaign".
Proof.
  intros r.
  apply (X16_label_filters_are_exact "🚀 Flash Campaign" "duration_strategy"
           (Sql.PromotionRow r) (Sql.duration_strategy r)).
  - apply (bool_decide_unpack _). vm_compute. exact I.
  - apply (bool_decide_unpack _). vm_compute. exact I.
  - vm_compute. reflexivity.
Defined.

Lemma X19_witness_costly_campaign :
  let campaigns := [ {| Sql.expected_uplift_pct := Some (float_of_Z 45);
                        Sql.budget_usd := Some (float_of_Z 30000);
                        Sql.competitive_response := None;
                        Sql.discount_type := None;
                        Sql.discount_value := None;
                        Sql.campaign_duration_days := None |};
                     {| Sql.expected_uplift_pct := Some (float_of_Z 32);
                        Sql.budget_usd := Some (float_of_Z 15000);
                        Sql.competitive_response := None;
                        Sql.discount_type := None;
                        Sql.discount_value := None;
                        Sql.campaign_duration_days := None |} ] in
  exists a,
    analyze_pricing_results [costly_campaign; planned_campaign] (JStr "promotional_calendar")
    = Return a
    /\ high_impact_total_message (count_if Sql.high_uplift campaigns) ∈ insights a.
Proof.
  intros campaigns.
  apply (@X19_promotional_total_counts_high_uplift cells [costly_campaign; planned_campaign] campaigns).
  - intros s. reflexivity.
  - discriminate.
  - repeat constructor.
Defined.

Lemma X20_witness_unpriced_row :
  calculate_pricing_summary sample_now [advantage_row; unpriced_row]
                            (JStr "competitor_tracking")
  = Return (base_summary sample_now [advantage_row; unpriced_row]
                         (JStr "competitor_tracking")).
Proof.
  apply (X20_null_price_gap_voids_the_category_fields
           sample_now [advantage_row; unpriced_row] unpriced_row).
  - apply list_elem_of_further, list_elem_of_here.
  - reflexivity.
Defined.

Lemma X21_witness_competitor_summary :
  exists summary fields,
    summary_fields [advantage_row; disadvantage_row] (JStr "competitor_tracking")
    = Return fields
    /\ length fields = 4%nat
    /\ calculate_pricing_summary sample_now [advantage_row; disadvantage_row]
                                 (JStr "competitor_tracking")
       = Return summary
    /\ size summary = 7%nat
    /\ forall key v, (key, v) ∈ fields -> summary !! key = Some v.
Proof.
  apply (X21_typed_rows_get_the_full_summary
           CompetitorTracking sample_now [advantage_row; disadvantage_row]).
  - discriminate.
  - simpl. lia.
  - repeat constructor.
Defined.

Lemma X22_witness_campaign_rows :
  exists a,
    run_analysis [winter_sale; spring_sale] (JStr "campaign_performance") = (a, Return tt)
    /\ analyze_pricing_results [winter_sale; spring_sale] (JStr "campaign_performance")
       = Return a.
Proof.
  apply (X22_shaped_rows_are_analysed_to_the_end
           CampaignPerformance [winter_sale; spring_sale]).
  - discriminate.
  - simpl. lia.
  - repeat constructor.
Defined.

Lemma X23_witness_priced_rows :
  exists a s,
    analyze_pricing_results [advantage_row; unpriced_row] (JStr "competitor_tracking")
    = Return a
    /\ last (insights a) = Some s
    /\ average_gap_insight s.
Proof.
  apply (X23_priced_rows_end_with_the_average_gap [advantage_row; unpriced_row]).
  - simpl. lia.
  - repeat constructor.
  - exists advantage_row, (float_of_Z (-20)). split.
    + apply list_elem_of_here.
    + reflexivity.
Defined.

End Examples.
